(** * Form template builder: repository, edit session and submission validator

    A shallow embedding of the TypeScript sources of the form builder.  The
    repository holds more than one snapshot of some components; each snapshot
    that the properties below talk about has a module of its own, named after
    its file:

    - [AppContext]: [src/context/AppContext.tsx], with the types of
      [src/types/form.ts];
    - [FieldTypeSelector]: [src/components/FieldTypeSelector.tsx];
    - [TemplateBuilder]: the first text of [src/components/TemplateBuilder.tsx],
      the one the README documents ([isTemplateValid], [isDirty], the exit
      dialog);
    - [TemplateBuilder2]: the second text of the same file;
    - [FormFiller]: the form filler of [unnamed/part_003];
    - [IndexPage]: the single-file application of [unnamed/part_000], which
      has its own context, builder and form filler.

    Conventions.  A JavaScript string is a [string] of 8-bit code units.  An
    object used as a dictionary ([Record<string, any>]) is a [gmap string _]
    of its own properties, read with [Obj.get] and assigned with [Obj.set],
    which follow the prototype chain: a field id is any string, the names of
    the properties of [Object.prototype] included.  An optional property
    ([required?: boolean]) is an [option], with [None] for [undefined].  The clock ([Date.now()], [new Date().toISOString()]) is read
    by the caller and passed in.  React state is passed explicitly: a handler
    is a function from the state it closes over to the state after it. *)

From Stdlib Require Import ZArith Ascii String List Permutation Lia.
From stdpp Require Import base option list strings gmap fin_maps.

Local Open Scope string_scope.
Local Open Scope list_scope.

(** ** JavaScript strings *)

Module Js.

(** [WhiteSpace] and [LineTerminator] code units below 256: TAB, LF, VT, FF,
    CR, SP and NBSP.  These are what [String.prototype.trim] and the
    string-to-number conversion strip. *)
Definition isWhiteSpace (c : ascii) : bool :=
  match N_of_ascii c with
  | 9%N | 10%N | 11%N | 12%N | 13%N | 32%N | 160%N => true
  | _ => false
  end.

Fixpoint trimStart (s : string) : string :=
  match s with
  | EmptyString => EmptyString
  | String c s' => if isWhiteSpace c then trimStart s' else s
  end.

Fixpoint trimEnd (s : string) : string :=
  match s with
  | EmptyString => EmptyString
  | String c s' =>
      match trimEnd s' with
      | EmptyString => if isWhiteSpace c then EmptyString else String c EmptyString
      | t => String c t
      end
  end.

(** [s.trim()] *)
Definition trim (s : string) : string := trimEnd (trimStart s).

(** [s === ''] *)
Definition isEmpty (s : string) : bool :=
  match s with EmptyString => true | _ => false end.

(** Every code unit of [s] is white space (this includes the empty string). *)
Fixpoint isBlank (s : string) : bool :=
  match s with
  | EmptyString => true
  | String c s' => isWhiteSpace c && isBlank s'
  end.

(** *** The grammar [StrNumericLiteral] of the string-to-number conversion *)

Definition isDigit (c : ascii) : bool :=
  let n := N_of_ascii c in (48 <=? n)%N && (n <=? 57)%N.

Definition isHexDigit (c : ascii) : bool :=
  let n := N_of_ascii c in
  isDigit c || ((65 <=? n)%N && (n <=? 70)%N) || ((97 <=? n)%N && (n <=? 102)%N).

Definition isOctalDigit (c : ascii) : bool :=
  let n := N_of_ascii c in (48 <=? n)%N && (n <=? 55)%N.

Definition isBinaryDigit (c : ascii) : bool :=
  let n := N_of_ascii c in (48 <=? n)%N && (n <=? 49)%N.

(** Drops the longest prefix of characters satisfying [p]; the boolean tells
    whether that prefix was non-empty. *)
Fixpoint skipWhile (p : ascii -> bool) (s : string) : bool * string :=
  match s with
  | EmptyString => (false, EmptyString)
  | String c s' => if p c then (true, snd (skipWhile p s')) else (false, s)
  end.

(** One or more characters satisfying [p], and nothing else. *)
Definition allOf (p : ascii -> bool) (s : string) : bool :=
  let '(some, rest) := skipWhile p s in some && isEmpty rest.

Definition isSign (c : ascii) : bool :=
  (N_of_ascii c =? 43)%N || (N_of_ascii c =? 45)%N.

(** [ExponentPart? $]: nothing, or [e]/[E], an optional sign and digits. *)
Definition isExponentOpt (s : string) : bool :=
  match s with
  | EmptyString => true
  | String c s' =>
      if (N_of_ascii c =? 101)%N || (N_of_ascii c =? 69)%N then
        match s' with
        | String d s'' => if isSign d then allOf isDigit s'' else allOf isDigit s'
        | EmptyString => false
        end
      else false
  end.

(** [StrUnsignedDecimalLiteral]:
    [Infinity | Digits . Digits? Exp? | . Digits Exp? | Digits Exp?]. *)
Definition isUnsignedDecimal (s : string) : bool :=
  if String.eqb s "Infinity" then true
  else
    let '(intPart, rest) := skipWhile isDigit s in
    match rest with
    | String c rest' =>
        if (N_of_ascii c =? 46)%N then
          let '(fracPart, rest'') := skipWhile isDigit rest' in
          (intPart || fracPart) && isExponentOpt rest''
        else intPart && isExponentOpt rest
    | EmptyString => intPart
    end.

(** [NonDecimalIntegerLiteral]: [0x], [0o] or [0b] and digits of that base. *)
Definition isNonDecimalInteger (s : string) : bool :=
  match s with
  | String z (String b ds) =>
      if (N_of_ascii z =? 48)%N then
        let n := N_of_ascii b in
        if (n =? 120)%N || (n =? 88)%N then allOf isHexDigit ds
        else if (n =? 111)%N || (n =? 79)%N then allOf isOctalDigit ds
        else if (n =? 98)%N || (n =? 66)%N then allOf isBinaryDigit ds
        else false
      else false
  | _ => false
  end.

Definition isStrNumericLiteral (s : string) : bool :=
  isNonDecimalInteger s ||
  match s with
  | String c s' => if isSign c then isUnsignedDecimal s' else isUnsignedDecimal s
  | EmptyString => false
  end.

(** [isNaN(Number(s))] for a string [s]: the trimmed text is neither empty
    (which converts to 0) nor a numeric literal.  A literal too large for a
    double converts to an infinity, which is not NaN. *)
Definition stringIsNaN (s : string) : bool :=
  let t := trim s in negb (isEmpty t || isStrNumericLiteral t).

End Js.

(** ** Values entered in a form ([Record<string, any>])

    The inputs produce strings ([e.target.value]) and booleans (the checkbox);
    the comparison [value !== 0] of the single-file validator also gives
    numbers a meaning, modelled here as integers. *)

Inductive Value : Type :=
  | VString (s : string)
  | VBoolean (b : bool)
  | VNumber (n : Z).

#[global] Instance Value_eq_dec : EqDecision Value.
Proof. solve_decision. Defined.

(** ** Plain objects used as dictionaries

    [values], [formData] and the error maps are object literals, so a key
    that is not an own property is looked up in [Object.prototype].  A [gmap]
    holds the own properties. *)

Module Obj.

(** The property names of [Object.prototype]. *)
Definition prototype : list string :=
  ["constructor"; "__defineGetter__"; "__defineSetter__"; "hasOwnProperty";
   "__lookupGetter__"; "__lookupSetter__"; "isPrototypeOf"; "propertyIsEnumerable";
   "toString"; "valueOf"; "__proto__"; "toLocaleString"].

Definition inherits (key : string) : bool := existsb (String.eqb key) prototype.

(** What [obj[key]] evaluates to: an own property, a function or object
    inherited from the prototype, or [undefined]. *)
Inductive Read (A : Type) : Type :=
  | Own (a : A)
  | Inherited
  | Undefined.
Arguments Own {A} _.
Arguments Inherited {A}.
Arguments Undefined {A}.

(** [obj[key]] *)
Definition get {A} (obj : gmap string A) (key : string) : Read A :=
  match obj !! key with
  | Some a => Own a
  | None => if inherits key then Inherited else Undefined
  end.

(** [obj[key] = a] for a string or boolean [a]: the assignment makes or
    updates an own property, except that the inherited setter of [__proto__]
    takes it and discards a value that is not an object. *)
Definition set {A} (key : string) (a : A) (obj : gmap string A) : gmap string A :=
  match obj !! key with
  | Some _ => <[key := a]> obj
  | None => if String.eqb key "__proto__" then obj else <[key := a]> obj
  end.

End Obj.

(** [!v] for a value read from a dictionary: [undefined] is falsy, an
    inherited function or object is not. *)
Definition falsy (v : Obj.Read Value) : bool :=
  match v with
  | Obj.Undefined => true
  | Obj.Inherited => false
  | Obj.Own (VString s) => Js.isEmpty s
  | Obj.Own (VBoolean b) => negb b
  | Obj.Own (VNumber n) => (n =? 0)%Z
  end.

(** [isNaN(Number(v))]: [undefined], a function and an object convert to NaN. *)
Definition isNaN_Number (v : Obj.Read Value) : bool :=
  match v with
  | Obj.Undefined => true
  | Obj.Inherited => true
  | Obj.Own (VString s) => Js.stringIsNaN s
  | Obj.Own (VBoolean _) => false
  | Obj.Own (VNumber _) => false
  end.


(** ** The data model ([src/types/form.ts])

    Sections and templates are polymorphic in the type of a field entry: the
    builder's arrays are JavaScript arrays, whose entries can be [undefined]
    (see [handleDragEnd]); everything else instantiates [F] with [FormField]. *)

Inductive FieldType : Type := TLabel | TText | TNumber | TBoolean | TEnum.
Inductive LabelStyle : Type := H1 | H2 | H3.

#[global] Instance FieldType_eq_dec : EqDecision FieldType.
Proof. solve_decision. Defined.
#[global] Instance LabelStyle_eq_dec : EqDecision LabelStyle.
Proof. solve_decision. Defined.

(** [interface FormField]: projections carry the prefix [f_]. *)
Record FormField : Type := mkField {
  f_id : string;
  f_type : FieldType;
  f_label : string;
  f_labelStyle : option LabelStyle;
  f_options : option (list string);
  f_required : option bool;
  f_value : option Value
}.

(** [Partial<FormField>]: every property optional; prefix [p_]. *)
Record PartialField : Type := mkPartial {
  p_id : option string;
  p_type : option FieldType;
  p_label : option string;
  p_labelStyle : option LabelStyle;
  p_options : option (list string);
  p_required : option bool;
  p_value : option Value
}.

(** [interface FormSection]; prefix [s_]. *)
Record FormSection (F : Type) : Type := mkSection {
  s_id : string;
  s_title : string;
  s_fields : list F
}.
Arguments mkSection {F} _ _ _.
Arguments s_id {F} _.
Arguments s_title {F} _.
Arguments s_fields {F} _.

(** [interface FormTemplate]; prefix [t_]. *)
Record FormTemplate (F : Type) : Type := mkTemplate {
  t_id : string;
  t_name : string;
  t_sections : list (FormSection F);
  t_createdAt : string;
  t_updatedAt : string
}.
Arguments mkTemplate {F} _ _ _ _ _.
Arguments t_id {F} _.
Arguments t_name {F} _.
Arguments t_sections {F} _.
Arguments t_createdAt {F} _.
Arguments t_updatedAt {F} _.

(** [interface FormSubmission]; prefix [sub_]. *)
Record FormSubmission : Type := mkSubmission {
  sub_templateId : string;
  sub_data : gmap string Value;
  sub_submittedAt : string
}.

Abbreviation Template := (FormTemplate FormField).

#[global] Instance FormField_eq_dec : EqDecision FormField.
Proof. solve_decision. Defined.
#[global] Instance FormSection_eq_dec {F} `{EqDecision F} : EqDecision (FormSection F).
Proof. solve_decision. Defined.
#[global] Instance FormTemplate_eq_dec {F} `{EqDecision F} : EqDecision (FormTemplate F).
Proof. solve_decision. Defined.

(** [{ ...template, updatedAt: now }] *)
Definition withUpdatedAt {F} (t : FormTemplate F) (now : string) : FormTemplate F :=
  mkTemplate (t_id t) (t_name t) (t_sections t) (t_createdAt t) now.

(** [{ ...section, fields }] *)
Definition withFields {F G} (s : FormSection F) (fs : list G) : FormSection G :=
  mkSection (s_id s) (s_title s) fs.

(** All the fields of a template, in section order then field order. *)
Definition allFields {F} (t : FormTemplate F) : list F :=
  concat (map s_fields (t_sections t)).

(** ** Array helpers *)

(** [xs.findIndex(p)]; [None] stands for the result [-1]. *)
Fixpoint findIndex {A} (p : A -> bool) (xs : list A) : option nat :=
  match xs with
  | [] => None
  | x :: xs' => if p x then Some 0 else S <$> findIndex p xs'
  end.

(** [xs.slice(-n)]: the last [n] entries. *)
Definition sliceLast {A} (n : nat) (xs : list A) : list A :=
  drop (length xs - n) xs.

(** ** The application context ([src/context/AppContext.tsx]) *)

Module AppContext.

(** [localStorage], restricted to the two keys the provider uses; the text
    written by [JSON.stringify] is represented by the list it encodes. *)
Record Storage : Type := mkStorage {
  formTemplates : option (list Template);
  formSubmissions : option (list FormSubmission)
}.

Record State : Type := mkState {
  templates : list Template;
  submissions : list FormSubmission;
  localStorage : Storage
}.

(** The mount effect: each key that is present replaces the state. *)
Definition load (st : Storage) : State :=
  mkState (default [] (formTemplates st)) (default [] (formSubmissions st)) st.

Definition saveTemplate (template : Template) (now : string) (s : State) : State :=
  let updatedTemplate := withUpdatedAt template now in
  let existingIndex :=
    findIndex (fun t => String.eqb (t_id t) (t_id template)) (templates s) in
  let newTemplates :=
    match existingIndex with
    | Some i => <[i := updatedTemplate]> (templates s)
    | None =>
        let appended := templates s ++ [updatedTemplate] in
        if (5 <? length appended)%nat then sliceLast 5 appended else appended
    end in
  mkState newTemplates (submissions s)
          (mkStorage (Some newTemplates) (formSubmissions (localStorage s))).

Definition deleteTemplate (templateId : string) (s : State) : State :=
  let newTemplates :=
    filter (fun t => negb (String.eqb (t_id t) templateId) = true) (templates s) in
  mkState newTemplates (submissions s)
          (mkStorage (Some newTemplates) (formSubmissions (localStorage s))).

Definition saveSubmission (submission : FormSubmission) (s : State) : State :=
  let newSubmissions := submissions s ++ [submission] in
  mkState (templates s) newSubmissions
          (mkStorage (formTemplates (localStorage s)) (Some newSubmissions)).

(** The state is what the next mount would read back from storage. *)
Definition synced (s : State) : Prop := load (localStorage s) = s.

End AppContext.

(** ** Drag and drop ([DropResult] of react-beautiful-dnd) and [Array.prototype.splice] *)

Record DraggableLocation : Type := mkLocation {
  droppableId : string;
  index : Z
}.

Record DropResult : Type := mkDrop {
  source : DraggableLocation;
  destination : option DraggableLocation
}.

(** The start position [splice] really uses: a negative [start] counts from
    the end, and the result is clamped to [0 .. len]. *)
Definition spliceStart (len : nat) (start : Z) : nat :=
  Z.to_nat (if (start <? 0)%Z then Z.max (Z.of_nat len + start) 0
            else Z.min start (Z.of_nat len)).

(** [xs.splice(start, deleteCount, ...items)]: the removed entries and the
    array afterwards. *)
Definition splice {A} (xs : list A) (start : Z) (deleteCount : nat) (items : list A)
  : list A * list A :=
  let a := spliceStart (length xs) start in
  let d := Nat.min deleteCount (length xs - a) in
  (take d (drop a xs), take a xs ++ items ++ drop (a + d) xs).

(** The three lines shared by every drag handler:
    [const newFields = Array.from(fields);
     const [reorderedField] = newFields.splice(from, 1);
     newFields.splice(to, 0, reorderedField);]
    Destructuring an empty array binds [undefined], here [undef]. *)
Definition reorder {A} (undef : A) (fields : list A) (from to : Z) : list A :=
  let '(removed, newFields) := splice fields from 1 [] in
  let reorderedField := hd undef removed in
  snd (splice newFields to 0 [reorderedField]).


(** An array of fields as the builder holds it: an entry is a field or
    [undefined]. *)
Definition slots {F} (fs : list F) : list (option F) := map Some fs.

Definition slotSection {F} (s : FormSection F) : FormSection (option F) :=
  withFields s (slots (s_fields s)).

Definition slotTemplate {F} (t : FormTemplate F) : FormTemplate (option F) :=
  mkTemplate (t_id t) (t_name t) (map slotSection (t_sections t))
             (t_createdAt t) (t_updatedAt t).

(** ** Toasts *)

Record Toast : Type := mkToast {
  title : string;
  description : string;
  destructive : bool
}.

Inductive View : Type := ViewList | ViewBuilder | ViewFiller | ViewFillSelector.

(** ** The single-file application ([unnamed/part_000]) *)

Module IndexPage.

(** [interface FormField] of this file: no [value], and the label style is
    called [style]. *)
Record FormField : Type := mkField {
  id : string;
  type : FieldType;
  label : string;
  required : option bool;
  options : option (list string);
  style : option LabelStyle
}.

Record FormSubmission : Type := mkSubmission {
  subId : string;
  templateId : string;
  templateName : string;
  data : gmap string Value;
  submittedAt : string
}.

Record State : Type := mkState {
  templates : list (FormTemplate FormField);
  submissions : list FormSubmission;
  toasts : list Toast
}.

Definition limitReached : Toast :=
  mkToast "Template Limit Reached"
          "You can only save up to 5 templates. Please delete one first." true.

(** The updater passed to [setTemplates] by [saveTemplate]: the next list and
    the toast it raises, if any. *)
Definition saveTemplateUpdater (template : FormTemplate FormField) (now : string)
    (prev : list (FormTemplate FormField))
  : list (FormTemplate FormField) * option Toast :=
  match findIndex (fun t => String.eqb (t_id t) (t_id template)) prev with
  | Some existing => (<[existing := withUpdatedAt template now]> prev, None)
  | None =>
      if (5 <=? length prev)%nat then (prev, Some limitReached)
      else (prev ++ [template], None)
  end.

Definition saveTemplate (template : FormTemplate FormField) (now : string) (s : State)
  : State :=
  let '(next, raised) := saveTemplateUpdater template now (templates s) in
  mkState next (submissions s)
          (toasts s ++ match raised with Some t => [t] | None => [] end).

Definition deleteTemplate (tid : string) (s : State) : State :=
  mkState (filter (fun t => negb (String.eqb (t_id t) tid) = true) (templates s))
          (* Also remove related submissions *)
          (filter (fun sub => negb (String.eqb (templateId sub) tid) = true)
                  (submissions s))
          (toasts s).

Definition submitForm (tid tname : string) (d : gmap string Value)
    (nowMs nowIso : string) (s : State) : State :=
  mkState (templates s)
          (submissions s ++ [mkSubmission nowMs tid tname d nowIso])
          (toasts s).

(** *** The form filler *)

Definition requiredMessage : string := "This field is required".
Definition numberMessage : string := "Please enter a valid number".

(** [value !== 0] and [value !== false] *)
Definition notZero (v : Obj.Read Value) : bool :=
  match v with Obj.Own (VNumber 0) => false | _ => true end.
Definition notFalse (v : Obj.Read Value) : bool :=
  match v with Obj.Own (VBoolean false) => false | _ => true end.

(** The body of the inner [forEach] of [validateForm]: the error map and the
    [isValid] flag after one field. *)
Definition validateField (formData : gmap string Value)
    (acc : gmap string string * bool) (field : FormField)
  : gmap string string * bool :=
  let '(newErrors, isValid) := acc in
  if negb (bool_decide (type field = TLabel)) && default false (required field) then
    let value := Obj.get formData (id field) in
    if falsy value && notZero value && notFalse value then
      (Obj.set (id field) requiredMessage newErrors, false)
    else if bool_decide (type field = TNumber) && isNaN_Number value then
      (Obj.set (id field) numberMessage newErrors, false)
    else acc
  else acc.

Definition validateForm (template : FormTemplate FormField)
    (formData : gmap string Value) : gmap string string * bool :=
  fold_left
    (fun acc section => fold_left (validateField formData) (s_fields section) acc)
    (t_sections template) (∅, true).

(** *** The builder *)

Definition nameRequired : Toast :=
  mkToast "Validation Error" "Template name is required" true.
Definition sectionRequired : Toast :=
  mkToast "Validation Error" "Template must have at least one section" true.
Definition saved : Toast :=
  mkToast "Success" "Template saved successfully" false.

Record App : Type := mkApp {
  ctx : State;
  currentView : View
}.

Definition raise (t : Toast) (a : App) : App :=
  mkApp (mkState (templates (ctx a)) (submissions (ctx a)) (toasts (ctx a) ++ [t]))
        (currentView a).

(** [AppContent.saveTemplate], the [onSave] prop of the builder. *)
Definition onSave (template : FormTemplate FormField) (now : string) (a : App) : App :=
  mkApp (saveTemplate template now (ctx a)) ViewList.

Definition handleSave (currentTemplate : FormTemplate FormField) (now : string)
    (a : App) : App :=
  if Js.isEmpty (Js.trim (t_name currentTemplate)) then raise nameRequired a
  else if (length (t_sections currentTemplate) =? 0)%nat then raise sectionRequired a
  else raise saved (onSave currentTemplate now a).

(** [onDragEnd]: the section named by the source is reordered, whatever the
    destination's droppable is. *)
Definition onDragEnd {A} (undef : A) (prev : FormTemplate A) (result : DropResult)
  : FormTemplate A :=
  match destination result with
  | None => prev
  | Some dest =>
      let sectionId := droppableId (source result) in
      mkTemplate (t_id prev) (t_name prev)
        (map (fun section =>
                if String.eqb (s_id section) sectionId
                then withFields section
                       (reorder undef (s_fields section)
                                (index (source result)) (index dest))
                else section)
             (t_sections prev))
        (t_createdAt prev) (t_updatedAt prev)
  end.

End IndexPage.

(** ** The form filler ([unnamed/part_003]) *)

Module FormFiller.

(** [typeof value === 'string' && value.trim() === ''] *)
Definition blankString (v : Obj.Read Value) : bool :=
  match v with
  | Obj.Own (VString s) => Js.isEmpty (Js.trim s)
  | _ => false
  end.

(** [value === ''] *)
Definition emptyString (v : Obj.Read Value) : bool :=
  match v with
  | Obj.Own (VString s) => Js.isEmpty s
  | _ => false
  end.

Definition requiredMessage (field : FormField) : string :=
  String.append (f_label field) " is required".
Definition numberMessage (field : FormField) : string :=
  String.append (f_label field) " must be a valid number".

(** The body of the inner [forEach] of [validateForm]. *)
Definition validateField (values : gmap string Value)
    (newErrors : gmap string string) (field : FormField) : gmap string string :=
  if negb (bool_decide (f_type field = TLabel)) && default false (f_required field) then
    let value := Obj.get values (f_id field) in
    if falsy value || emptyString value || blankString value then
      Obj.set (f_id field) (requiredMessage field) newErrors
    else if bool_decide (f_type field = TNumber) && isNaN_Number value then
      Obj.set (f_id field) (numberMessage field) newErrors
    else newErrors
  else newErrors.

(** The error map [validateForm] stores with [setErrors]. *)
Definition validationErrors (template : Template) (values : gmap string Value)
  : gmap string string :=
  fold_left
    (fun acc section => fold_left (validateField values) (s_fields section) acc)
    (t_sections template) ∅.

(** [validateForm]: the errors and [Object.keys(newErrors).length === 0]. *)
Definition validateForm (template : Template) (values : gmap string Value)
  : gmap string string * bool :=
  let newErrors := validationErrors template values in
  (newErrors, bool_decide (size newErrors = 0)).

(** [isFormValid], which enables the submit button. *)
Definition isFormValid (template : Template) (values : gmap string Value) : bool :=
  forallb
    (fun section =>
       forallb
         (fun field =>
            if bool_decide (f_type field = TLabel) || negb (default false (f_required field))
            then true
            else
              let value := Obj.get values (f_id field) in
              negb (falsy value) && negb (emptyString value) &&
              (negb (bool_decide (f_type field = TNumber)) || negb (isNaN_Number value)))
         (s_fields section))
    (t_sections template).

Record Filler : Type := mkFiller {
  values : gmap string Value;
  errors : gmap string string;
  raised : list Toast
}.

Definition validationToast : Toast :=
  mkToast "Validation Error" "Please fill out all required fields correctly." true.
Definition submittedToast : Toast :=
  mkToast "Form Submitted!" "Your form has been submitted successfully." false.

(** [handleSubmit]: a refused submission makes no call into the context. *)
Definition handleSubmit (template : Template) (now : string)
    (w : Filler * AppContext.State) : Filler * AppContext.State :=
  let '(fl, app) := w in
  let '(newErrors, ok) := validateForm template (values fl) in
  if negb ok then (mkFiller (values fl) newErrors (raised fl ++ [validationToast]), app)
  else
    (mkFiller ∅ ∅ (raised fl ++ [submittedToast]),
     AppContext.saveSubmission (mkSubmission (t_id template) (values fl) now) app).

End FormFiller.

(** ** [JSON.stringify]

    The text [JSON.stringify] writes is represented by the JSON value it
    denotes: the text is an injective rendering of that tree, so two texts
    are equal exactly when the trees are.  Properties whose value is
    [undefined] are left out, as [JSON.stringify] does.  Members appear in the
    order of the object literals that build the records ([FormField]: id,
    type, label, labelStyle, options, required, value). *)

#[local] Unset Elimination Schemes.
Inductive Json : Type :=
  | JNull
  | JBool (b : bool)
  | JNum (n : Z)
  | JStr (s : string)
  | JArr (items : list Json)
  | JObj (members : list (string * Json)).
#[local] Set Elimination Schemes.

Fixpoint Json_eqb (a b : Json) {struct a} : bool :=
  match a, b with
  | JNull, JNull => true
  | JBool x, JBool y => bool_decide (x = y)
  | JNum x, JNum y => bool_decide (x = y)
  | JStr x, JStr y => String.eqb x y
  | JArr xs, JArr ys =>
      (fix go (xs ys : list Json) {struct xs} : bool :=
         match xs, ys with
         | [], [] => true
         | x :: xs', y :: ys' => Json_eqb x y && go xs' ys'
         | _, _ => false
         end) xs ys
  | JObj xs, JObj ys =>
      (fix go (xs ys : list (string * Json)) {struct xs} : bool :=
         match xs, ys with
         | [], [] => true
         | (k, x) :: xs', (l, y) :: ys' => String.eqb k l && Json_eqb x y && go xs' ys'
         | _, _ => false
         end) xs ys
  | _, _ => false
  end.

(** [obj[key]] on a JSON object. *)
Definition member (key : string) (j : Json) : option Json :=
  match j with
  | JObj ms => snd <$> List.find (fun kv => String.eqb (fst kv) key) ms
  | _ => None
  end.

(** An optional property: present with its value, or left out. *)
Definition prop {A} (key : string) (enc : A -> Json) (v : option A)
  : list (string * Json) :=
  match v with Some x => [(key, enc x)] | None => [] end.

Definition typeName (t : FieldType) : string :=
  match t with
  | TLabel => "label" | TText => "text" | TNumber => "number"
  | TBoolean => "boolean" | TEnum => "enum"
  end.

Definition styleName (s : LabelStyle) : string :=
  match s with H1 => "h1" | H2 => "h2" | H3 => "h3" end.

Definition jsonOfValue (v : Value) : Json :=
  match v with
  | VString s => JStr s
  | VBoolean b => JBool b
  | VNumber n => JNum n
  end.

Definition jsonOfField (f : FormField) : Json :=
  JObj ([("id", JStr (f_id f)); ("type", JStr (typeName (f_type f)));
         ("label", JStr (f_label f))]
        ++ prop "labelStyle" (fun s => JStr (styleName s)) (f_labelStyle f)
        ++ prop "options" (fun os => JArr (map JStr os)) (f_options f)
        ++ prop "required" JBool (f_required f)
        ++ prop "value" jsonOfValue (f_value f)).

Definition jsonOfSection (s : FormSection FormField) : Json :=
  JObj [("id", JStr (s_id s)); ("title", JStr (s_title s));
        ("fields", JArr (map jsonOfField (s_fields s)))].

Definition jsonOfTemplate (t : Template) : Json :=
  JObj [("id", JStr (t_id t)); ("name", JStr (t_name t));
        ("sections", JArr (map jsonOfSection (t_sections t)));
        ("createdAt", JStr (t_createdAt t)); ("updatedAt", JStr (t_updatedAt t))].

(** ** The field palette ([src/components/FieldTypeSelector.tsx]) *)

Module FieldTypeSelector.

(** [s.split(sep)] for a one-character separator. *)
Fixpoint split (sep : ascii) (s : string) : list string :=
  match s with
  | EmptyString => [EmptyString]
  | String c s' =>
      if bool_decide (c = sep) then EmptyString :: split sep s'
      else match split sep s' with
           | h :: t => String c h :: t
           | [] => [String c EmptyString]
           end
  end.

Definition comma : ascii := ascii_of_nat 44.

(** [handleAddField(type)]: the partial field handed to [onAddField], or
    [None] when the prompt for the options of a dropdown is cancelled or left
    empty.  [answer] is what [prompt] returned. *)
Definition handleAddField (type : FieldType) (nowMs : string) (answer : option string)
  : option PartialField :=
  let baseField :=
    mkPartial (Some (String.append "field_" nowMs)) (Some type)
      (Some (if bool_decide (type = TLabel) then "New Label"
             else String.append "New " (String.append (typeName type) " field")))
      None None
      (Some (negb (bool_decide (type = TLabel))))
      None in
  match type with
  | TLabel =>
      Some (mkPartial (p_id baseField) (p_type baseField) (p_label baseField)
                      (Some H2) (p_options baseField) (p_required baseField)
                      (p_value baseField))
  | TEnum =>
      match answer with
      | Some opts =>
          if Js.isEmpty opts then None
          else Some (mkPartial (p_id baseField) (p_type baseField) (p_label baseField)
                               (p_labelStyle baseField)
                               (Some (map Js.trim (split comma opts)))
                               (p_required baseField) (p_value baseField))
      | None => None
      end
  | _ => Some baseField
  end.

End FieldTypeSelector.

(** [a || b] on an optional string: [undefined] and the empty string are falsy. *)
Definition orString (a : option string) (b : string) : string :=
  match a with
  | Some s => if Js.isEmpty s then b else s
  | None => b
  end.

(** ** The template builder ([src/components/TemplateBuilder.tsx], first variant)

    The operations that never look inside a field are polymorphic in the
    entry type [A]. *)

Module TemplateBuilder.

Definition isTemplateValid {A} (currentTemplate : FormTemplate A) : bool :=
  negb (Js.isEmpty (Js.trim (t_name currentTemplate)))
  && (0 <? length (t_sections currentTemplate))%nat
  && existsb (fun section => (0 <? length (s_fields section))%nat)
             (t_sections currentTemplate).

(** The effect that maintains [isDirty]:
    [JSON.stringify(currentTemplate) !== JSON.stringify(originalTemplate)]. *)
Definition isDirty (currentTemplate originalTemplate : Template) : bool :=
  negb (Json_eqb (jsonOfTemplate currentTemplate) (jsonOfTemplate originalTemplate)).

Definition withSections {A B} (t : FormTemplate A) (ss : list (FormSection B))
  : FormTemplate B :=
  mkTemplate (t_id t) (t_name t) ss (t_createdAt t) (t_updatedAt t).

Definition updateTemplateName {A} (name : string) (prev : FormTemplate A)
  : FormTemplate A :=
  mkTemplate (t_id prev) name (t_sections prev) (t_createdAt prev) (t_updatedAt prev).

Definition addSection {A} (nowMs : string) (prev : FormTemplate A) : FormTemplate A :=
  withSections prev
    (t_sections prev ++ [mkSection (String.append "section_" nowMs) "New Section" []]).

Definition updateSection {A} (updatedSection : FormSection A) (prev : FormTemplate A)
  : FormTemplate A :=
  withSections prev
    (map (fun section =>
            if String.eqb (s_id section) (s_id updatedSection)
            then updatedSection else section)
         (t_sections prev)).

Definition deleteSection {A} (sectionId : string) (prev : FormTemplate A)
  : FormTemplate A :=
  withSections prev
    (filter (fun section => negb (String.eqb (s_id section) sectionId) = true)
            (t_sections prev)).

(** [completeField] of [addFieldToSection]. *)
Definition completeField (field : PartialField) (nowMs : string) : FormField :=
  mkField (orString (p_id field) (String.append "field_" nowMs))
          (default TText (p_type field))
          (orString (p_label field) "New Field")
          (p_labelStyle field)
          (p_options field)
          (Some (default false (p_required field)))
          (Some (if bool_decide (p_type field = Some TBoolean)
                 then VBoolean false else VString EmptyString)).

Definition addFieldToSection (sectionId : string) (field : PartialField)
    (nowMs : string) (prev : Template) : Template :=
  withSections prev
    (map (fun section =>
            if String.eqb (s_id section) sectionId
            then withFields section (s_fields section ++ [completeField field nowMs])
            else section)
         (t_sections prev)).

(** [{ ...field, ...updatedProperties }] *)
Definition merge (field : FormField) (u : PartialField) : FormField :=
  mkField (default (f_id field) (p_id u))
          (default (f_type field) (p_type u))
          (default (f_label field) (p_label u))
          (match p_labelStyle u with Some x => Some x | None => f_labelStyle field end)
          (match p_options u with Some x => Some x | None => f_options field end)
          (match p_required u with Some x => Some x | None => f_required field end)
          (match p_value u with Some x => Some x | None => f_value field end).

Definition updateFieldInSection (sectionId fieldId : string)
    (updatedProperties : PartialField) (prev : Template) : Template :=
  withSections prev
    (map (fun section =>
            if String.eqb (s_id section) sectionId
            then withFields section
                   (map (fun field =>
                           if String.eqb (f_id field) fieldId
                           then merge field updatedProperties else field)
                        (s_fields section))
            else section)
         (t_sections prev)).

Definition handleDragEnd {A} (undef : A) (currentTemplate : FormTemplate A)
    (result : DropResult) : FormTemplate A :=
  match destination result with
  | None => currentTemplate
  | Some dest =>
      if String.eqb (droppableId (source result)) (droppableId dest) then
        match List.find (fun s => String.eqb (s_id s) (droppableId (source result)))
                        (t_sections currentTemplate) with
        | None => currentTemplate
        | Some section =>
            let newFields :=
              reorder undef (s_fields section) (index (source result)) (index dest) in
            updateSection (withFields section newFields) currentTemplate
        end
      else currentTemplate
  end.

(** The [onAddField] prop given to the palette: the last section is the
    target, and a section is created first when there is none. *)
Definition onAddField (field : PartialField) (nowSection nowField : string)
    (prev : Template) : Template :=
  match orString (s_id <$> last (t_sections prev)) EmptyString with
  | EmptyString =>
      let newSectionId := String.append "section_" nowSection in
      addFieldToSection newSectionId field nowField
        (withSections prev (t_sections prev ++ [mkSection newSectionId "New Section" []]))
  | targetSectionId => addFieldToSection targetSectionId field nowField prev
  end.

(** *** The edit session inside the application *)

Record Session : Type := mkSession {
  currentTemplate : Template;
  originalTemplate : Template;
  isAlertOpen : bool;
  showPreview : bool
}.

Record World : Type := mkWorld {
  app : AppContext.State;
  currentView : View;
  session : Session
}.

(** [onSave] is [Index.saveTemplate] and [onBack] is
    [() => setCurrentView('list')]: both show the list. *)
Definition onSave (template : Template) (w : World) : World :=
  mkWorld (app w) ViewList (session w).
Definition onBack (w : World) : World :=
  mkWorld (app w) ViewList (session w).

Definition handleSave (now : string) (w : World) : World :=
  let cur := currentTemplate (session w) in
  if negb (isTemplateValid cur) then w
  else onSave cur (mkWorld (AppContext.saveTemplate cur now (app w))
                           (currentView w) (session w)).

Definition setIsAlertOpen (b : bool) (w : World) : World :=
  mkWorld (app w) (currentView w)
          (mkSession (currentTemplate (session w)) (originalTemplate (session w))
                     b (showPreview (session w))).

Definition handleBack (w : World) : World :=
  if isDirty (currentTemplate (session w)) (originalTemplate (session w))
  then setIsAlertOpen true w
  else onBack w.

(** The three buttons of the dialog. *)
Definition cancel (w : World) : World := setIsAlertOpen false w.
Definition discardAndExit (w : World) : World := onBack w.
Definition saveAndExit (now : string) (w : World) : World :=
  onBack (handleSave now w).

End TemplateBuilder.

(** ** The template builder, second variant of [TemplateBuilder.tsx] *)

Module TemplateBuilder2.

Definition completeField (field : PartialField) (nowMs : string) : FormField :=
  mkField (orString (p_id field) (String.append "field_" nowMs))
          (default TText (p_type field))
          (orString (p_label field) EmptyString)
          (p_labelStyle field)
          (p_options field)
          (Some (default true (p_required field)))
          None.

Definition addFieldToSection (sectionId : string) (field : PartialField)
    (nowMs : string) (prev : Template) : Template :=
  TemplateBuilder.withSections prev
    (map (fun section =>
            if String.eqb (s_id section) sectionId
            then withFields section (s_fields section ++ [completeField field nowMs])
            else section)
         (t_sections prev)).

End TemplateBuilder2.

(** ** Vocabulary of the statements, and sample data *)

(** No template of [prev] has the id of [template]: saving it is a create. *)
Definition fresh {F} (template : FormTemplate F) (prev : list (FormTemplate F)) : Prop :=
  Forall (fun t => t_id t <> t_id template) prev.

(** A repository that holds five templates, and a sixth one to save. *)
Module Bound.

Definition tpl {F} (i name : string) : FormTemplate F :=
  mkTemplate i name [mkSection "s1" "Section 1" []] "2024-01-01" "2024-01-01".

Definition five {F} : list (FormTemplate F) :=
  [tpl "t1" "One"; tpl "t2" "Two"; tpl "t3" "Three"; tpl "t4" "Four"; tpl "t5" "Five"].

Definition sixth {F} : FormTemplate F := tpl "t6" "Six".

Definition ctx5 : AppContext.State :=
  AppContext.mkState five [] (AppContext.mkStorage (Some five) None).

End Bound.

(** A repository with submissions. *)
Module Archive.

Definition sub (tid : string) : FormSubmission :=
  mkSubmission tid {["f1" := VString "yes"]} "2024-02-02".

(** Two templates and one submission for each. *)
Definition ctx : AppContext.State :=
  AppContext.mkState [Bound.tpl "t1" "One"; Bound.tpl "t2" "Two"]
                     [sub "t1"; sub "t2"]
                     (AppContext.mkStorage None None).

End Archive.

(** What one field contributes to an error map: [verdict f] is the message
    of a field in error, and [recordError] assigns it under the field's id. *)
Definition recordError {F} (key : F -> string) (verdict : F -> option string)
    (acc : gmap string string) (f : F) : gmap string string :=
  match verdict f with
  | Some m => Obj.set (key f) m acc
  | None => acc
  end.

(** The verdict of the form filler of [part_003] on one field. *)
Definition FormFiller_verdict (values : gmap string Value) (field : FormField)
  : option string :=
  if negb (bool_decide (f_type field = TLabel)) && default false (f_required field) then
    let value := Obj.get values (f_id field) in
    if falsy value || FormFiller.emptyString value || FormFiller.blankString value
    then Some (FormFiller.requiredMessage field)
    else if bool_decide (f_type field = TNumber) && isNaN_Number value
         then Some (FormFiller.numberMessage field)
         else None
  else None.

(** The verdict of the form filler of [part_000] on one field. *)
Definition IndexPage_verdict (formData : gmap string Value)
    (field : IndexPage.FormField) : option string :=
  if negb (bool_decide (IndexPage.type field = TLabel))
     && default false (IndexPage.required field) then
    let value := Obj.get formData (IndexPage.id field) in
    if falsy value && IndexPage.notZero value && IndexPage.notFalse value
    then Some IndexPage.requiredMessage
    else if bool_decide (IndexPage.type field = TNumber) && isNaN_Number value
         then Some IndexPage.numberMessage
         else None
  else None.

(** Small forms for the validators. *)
Module Forms.

(** A template whose only field is a required checkbox. *)
Definition agree : FormField :=
  mkField "agree" TBoolean "I agree" None None (Some true) (Some (VBoolean false)).

Definition consent : Template :=
  mkTemplate "t1" "Consent" [mkSection "s1" "Terms" [agree]] "2024-01-01" "2024-01-01".

(** A template whose only field is an optional number. *)
Definition age : FormField :=
  mkField "age" TNumber "Age" None None (Some false) (Some (VString EmptyString)).

Definition survey : Template :=
  mkTemplate "t2" "Survey" [mkSection "s1" "About you" [age]] "2024-01-01" "2024-01-01".

Definition ageM : IndexPage.FormField :=
  IndexPage.mkField "age" TNumber "Age" (Some false) None None.

Definition surveyM : FormTemplate IndexPage.FormField :=
  mkTemplate "t2" "Survey" [mkSection "s1" "About you" [ageM]] "2024-01-01" "2024-01-01".

(** The same with the number required. *)
Definition height : FormField :=
  mkField "height" TNumber "Height" None None (Some true) (Some (VString EmptyString)).

Definition measures : Template :=
  mkTemplate "t3" "Measures" [mkSection "s1" "Body" [height]] "2024-01-01" "2024-01-01".

Definition heightM : IndexPage.FormField :=
  IndexPage.mkField "height" TNumber "Height" (Some true) None None.

Definition measuresM : FormTemplate IndexPage.FormField :=
  mkTemplate "t3" "Measures" [mkSection "s1" "Body" [heightM]] "2024-01-01" "2024-01-01".

End Forms.

(** The intake form. *)
Module Intake.

(** A heading followed by two required inputs, in both field layouts. *)
Definition heading : FormField :=
  mkField "f0" TLabel "Personal data" (Some H2) None (Some false) (Some (VString EmptyString)).
Definition name : FormField :=
  mkField "f1" TText "Name" None None (Some true) (Some (VString EmptyString)).
Definition colour : FormField :=
  mkField "f2" TEnum "Colour" None (Some ["Red"; "Green"; "Blue"]) (Some true)
          (Some (VString EmptyString)).

Definition form : Template :=
  mkTemplate "t1" "Intake"
    [mkSection "s1" "Basics" [heading; name]; mkSection "s2" "More" [colour]]
    "2024-01-01" "2024-01-01".

Definition headingM : IndexPage.FormField :=
  IndexPage.mkField "f0" TLabel "Personal data" (Some false) None (Some H2).
Definition nameM : IndexPage.FormField :=
  IndexPage.mkField "f1" TText "Name" (Some true) None None.
Definition colourM : IndexPage.FormField :=
  IndexPage.mkField "f2" TEnum "Colour" (Some true) (Some ["Red"; "Green"; "Blue"]) None.

Definition formM : FormTemplate IndexPage.FormField :=
  mkTemplate "t1" "Intake"
    [mkSection "s1" "Basics" [headingM; nameM]; mkSection "s2" "More" [colourM]]
    "2024-01-01" "2024-01-01".

End Intake.

(** The three conditions of "valid to save", in the words of the
    specification: the name is not blank, there is a section, and some
    section has a field. *)
Definition nonBlank (s : string) : Prop :=
  exists c, c ∈ list_ascii_of_string s /\ Js.isWhiteSpace c = false.

Definition validToSave {A} (t : FormTemplate A) : Prop :=
  nonBlank (t_name t)
  /\ t_sections t <> []
  /\ exists section, section ∈ t_sections t /\ s_fields section <> [].

(** Working copies and edit sessions. *)
Module Sessions.

(** A named template whose only section has no field yet. *)
Definition hollow {F} : FormTemplate F :=
  mkTemplate "t9" "Intake" [mkSection "s1" "Basics" []] "2024-01-01" "2024-01-01".

(** The single-file application with nothing saved, showing the builder. *)
Definition appM : IndexPage.App :=
  IndexPage.mkApp (IndexPage.mkState [] [] []) ViewBuilder.

(** A working copy with a field but a blank name, edited from [Intake.form]. *)
Definition unnamed : Template :=
  mkTemplate "t1" "  "
    [mkSection "s1" "Basics" [Intake.heading; Intake.name];
     mkSection "s2" "More" [Intake.colour]]
    "2024-01-01" "2024-01-01".

(** The builder is open on [unnamed], the exit dialog is showing, and the
    repository holds the template as it was last saved. *)
Definition world : TemplateBuilder.World :=
  TemplateBuilder.mkWorld
    (AppContext.mkState [Intake.form] [] (AppContext.mkStorage (Some [Intake.form]) None))
    ViewBuilder
    (TemplateBuilder.mkSession unnamed Intake.form true false).

End Sessions.

(** Partial fields given to [addFieldToSection]. *)
Module Specs.

(** Partial fields that leave out everything but the type and the label. *)
Definition labelSpec : PartialField :=
  mkPartial None (Some TLabel) (Some "Title") None None None None.
Definition textSpec : PartialField :=
  mkPartial None (Some TText) (Some "Name") None None None None.

End Specs.

(** Drag gestures. *)
Module Drops.

(** One section with three fields, as the builder holds it. *)
Definition form : Template :=
  mkTemplate "t1" "Intake"
    [mkSection "s1" "Basics" [Intake.heading; Intake.name; Intake.colour]]
    "2024-01-01" "2024-01-01".

(** The first field dropped at index 9, past the end of the section. *)
Definition far : DropResult :=
  mkDrop (mkLocation "s1" 0) (Some (mkLocation "s1" 9)).

(** A stale gesture: source index 7, past the end of the section. *)
Definition stale : DropResult :=
  mkDrop (mkLocation "s1" 7) (Some (mkLocation "s1" 1)).

End Drops.

(** The partial update [{ value: v }]. *)
Definition valueUpdate (v : Value) : PartialField :=
  mkPartial None None None None None None (Some v).

(** Partial fields as the palette makes them. *)
Module Palette.

(** What the palette hands over for a checkbox and for a text input. *)
Definition checkbox : PartialField :=
  mkPartial (Some "field_1718000000000") (Some TBoolean) (Some "New boolean field")
            None None (Some true) None.
Definition textbox : PartialField :=
  mkPartial (Some "field_1718000000001") (Some TText) (Some "New text field")
            None None (Some true) None.

End Palette.

(** ** More of the sources *)

(** [xs.join(sep)] on an array of strings. *)
Fixpoint join (sep : string) (xs : list string) : string :=
  match xs with
  | [] => EmptyString
  | [x] => x
  | x :: rest => String.append x (String.append sep (join sep rest))
  end.

(** A string used as a condition: [undefined] and [''] are falsy. *)
Definition truthyString (o : option string) : bool :=
  match o with
  | Some s => negb (Js.isEmpty s)
  | None => false
  end.

(** The same for a property read from an error map, where an inherited
    function is truthy. *)
Definition truthyEntry (r : Obj.Read string) : bool :=
  match r with
  | Obj.Own s => negb (Js.isEmpty s)
  | Obj.Inherited => true
  | Obj.Undefined => false
  end.

(** *** The page ([src/pages/Index.tsx], the third text of [AppContext.tsx]) *)

Module Index.

Record Page : Type := mkPage {
  currentView : View;
  selectedTemplate : option Template
}.

(** The template [createNewTemplate] scaffolds; the clock is read twice for
    the ids and twice for the dates. *)
Definition newTemplate (ms1 ms2 iso1 iso2 : string) : Template :=
  mkTemplate (String.append "template_" ms1) "Untitled Template"
             [mkSection (String.append "section_" ms2) "Section 1" []]
             iso1 iso2.

Definition createNewTemplate (ms1 ms2 iso1 iso2 : string) (p : Page) : Page :=
  mkPage ViewBuilder (Some (newTemplate ms1 ms2 iso1 iso2)).

Definition editTemplate (template : Template) (p : Page) : Page :=
  mkPage ViewBuilder (Some template).

Definition fillForm (template : Template) (p : Page) : Page :=
  mkPage ViewFiller (Some template).

(** The builder as it is mounted on a template: [useState(template)] for the
    working copy and for the original, no dialog, no preview. *)
Definition openBuilder (template : Template) (app : AppContext.State)
  : TemplateBuilder.World :=
  TemplateBuilder.mkWorld app ViewBuilder
    (TemplateBuilder.mkSession template template false false).

(** [setCurrentTemplate(prev => f(prev))] inside the mounted builder. *)
Definition edit (f : Template -> Template) (w : TemplateBuilder.World)
  : TemplateBuilder.World :=
  TemplateBuilder.mkWorld (TemplateBuilder.app w) (TemplateBuilder.currentView w)
    (TemplateBuilder.mkSession
       (f (TemplateBuilder.currentTemplate (TemplateBuilder.session w)))
       (TemplateBuilder.originalTemplate (TemplateBuilder.session w))
       (TemplateBuilder.isAlertOpen (TemplateBuilder.session w))
       (TemplateBuilder.showPreview (TemplateBuilder.session w))).

End Index.

(** *** The template list ([unnamed/part_004]) *)

Module TemplateList.

(** The create button is [disabled={templates.length >= 5}]. *)
Definition createEnabled (s : AppContext.State) : bool :=
  negb (5 <=? length (AppContext.templates s))%nat.

(** [handleDelete]: [confirmed] is the answer to [confirm(...)]. *)
Definition handleDelete (templateId : string) (confirmed : bool) (s : AppContext.State)
  : AppContext.State :=
  if confirmed then AppContext.deleteTemplate templateId s else s.

End TemplateList.

(** *** The section editor ([unnamed/part_001], [unnamed/part_002]) *)

Module SectionEditor.

(** Each handler builds a section from the [section] prop and hands it to
    [onUpdateSection], which is [TemplateBuilder.updateSection]. *)
Definition updateSectionTitle {A} (section : FormSection A) (title : string)
    (prev : FormTemplate A) : FormTemplate A :=
  TemplateBuilder.updateSection (mkSection (s_id section) title (s_fields section)) prev.

Definition deleteField (section : FormSection FormField) (fieldId : string)
    (prev : Template) : Template :=
  TemplateBuilder.updateSection
    (withFields section
       (filter (fun field => negb (String.eqb (f_id field) fieldId) = true)
               (s_fields section)))
    prev.

(** [updateField] of [part_002], which receives the whole updated field. *)
Definition updateField (section : FormSection FormField) (updatedField : FormField)
    (prev : Template) : Template :=
  TemplateBuilder.updateSection
    (withFields section
       (map (fun field =>
               if String.eqb (f_id field) (f_id updatedField) then updatedField else field)
            (s_fields section)))
    prev.

End SectionEditor.

(** *** The field card ([src/components/DraggableField.tsx]) *)

Module DraggableField.

(** First text: the options are shown as [options.join(', ')], which is also
    the default of the prompt; the answer is split on commas and trimmed.  A
    cancelled or empty answer changes nothing. *)
Definition shownOptions (field : FormField) : string :=
  join ", " (default [] (f_options field)).

Definition editOptions (field : FormField) (answer : option string) : FormField :=
  match answer with
  | Some newOptions =>
      if Js.isEmpty newOptions then field
      else TemplateBuilder.merge field
             (mkPartial None None None None
                (Some (map Js.trim (FieldTypeSelector.split FieldTypeSelector.comma newOptions)))
                None None)
  | None => field
  end.

(** Second text: the input shows [options.join(',')] and every change is
    split on commas and trimmed. *)
Definition optionsInput (field : FormField) : string :=
  join "," (default [] (f_options field)).

Definition onOptionsChange (text : string) : PartialField :=
  mkPartial None None None None
    (Some (map Js.trim (FieldTypeSelector.split FieldTypeSelector.comma text)))
    None None.

End DraggableField.

(** *** Events of the form filler of [unnamed/part_003] *)

Module FillerEvents.

(** [handleFieldChange]: the value is stored, and an error that is showing
    for the field is blanked.  Both updates are object literals with a
    computed key, [{ ...prev, [fieldId]: value }], which defines an own
    property whatever the key is; the test [errors[fieldId]] is a read. *)
Definition handleFieldChange (fieldId : string) (value : Value)
    (fl : FormFiller.Filler) : FormFiller.Filler :=
  FormFiller.mkFiller
    (<[fieldId := value]> (FormFiller.values fl))
    (if truthyEntry (Obj.get (FormFiller.errors fl) fieldId)
     then <[fieldId := EmptyString]> (FormFiller.errors fl)
     else FormFiller.errors fl)
    (FormFiller.raised fl).

(** Whether the renderer shows an error under the field:
    [errors[field.id] && ...]. *)
Definition showsError (fl : FormFiller.Filler) (fieldId : string) : bool :=
  truthyEntry (Obj.get (FormFiller.errors fl) fieldId).

End FillerEvents.

(** *** The builder of the single-file application ([unnamed/part_000]) *)

Module IndexBuilder.

Import IndexPage.

Record Builder : Type := mkBuilder {
  currentTemplate : FormTemplate FormField;
  isPreview : bool;
  selectedField : option FormField;
  isFieldModalOpen : bool;
  currentSectionId : string
}.

(** [createNewTemplate] of [AppContent]: no section to start with. *)
Definition newTemplate (ms iso1 iso2 : string) : FormTemplate FormField :=
  mkTemplate ms "Untitled Template" [] iso1 iso2.

Definition setTemplate (t : FormTemplate FormField) (b : Builder) : Builder :=
  mkBuilder t (isPreview b) (selectedField b) (isFieldModalOpen b) (currentSectionId b).

Definition sectionsOf (prev : FormTemplate FormField)
    (ss : list (FormSection FormField)) : FormTemplate FormField :=
  mkTemplate (t_id prev) (t_name prev) ss (t_createdAt prev) (t_updatedAt prev).

Definition addSection (ms : string) (prev : FormTemplate FormField)
  : FormTemplate FormField :=
  sectionsOf prev (t_sections prev ++ [mkSection ms "New Section" []]).

Definition updateSectionTitle (sectionId title : string)
    (prev : FormTemplate FormField) : FormTemplate FormField :=
  sectionsOf prev
    (map (fun section =>
            if String.eqb (s_id section) sectionId
            then mkSection (s_id section) title (s_fields section) else section)
         (t_sections prev)).

Definition deleteSection (sectionId : string) (prev : FormTemplate FormField)
  : FormTemplate FormField :=
  sectionsOf prev
    (filter (fun section => negb (String.eqb (s_id section) sectionId) = true)
            (t_sections prev)).

(** The field [addField] puts into the modal. *)
Definition newField (fieldType : FieldType) (ms : string) : FormField :=
  mkField ms fieldType
          (if bool_decide (fieldType = TLabel) then "Label Text" else EmptyString)
          (Some (negb (bool_decide (fieldType = TLabel))))
          None
          (if bool_decide (fieldType = TLabel) then Some H2 else None).

Definition addField (sectionId : string) (fieldType : FieldType) (ms : string)
    (b : Builder) : Builder :=
  mkBuilder (currentTemplate b) (isPreview b) (Some (newField fieldType ms)) true sectionId.

Definition editField (field : FormField) (b : Builder) : Builder :=
  mkBuilder (currentTemplate b) (isPreview b) (Some field) true (currentSectionId b).

(** [fields.some(f => f.id === field.id)] *)
Definition hasField (field : FormField) (section : FormSection FormField) : bool :=
  existsb (fun f => String.eqb (id f) (id field)) (s_fields section).

(** The updater of [saveField]. *)
Definition saveFieldIn (current : string) (field : FormField)
    (prev : FormTemplate FormField) : FormTemplate FormField :=
  sectionsOf prev
    (map (fun section =>
            if String.eqb (s_id section) current || hasField field section then
              withFields section
                (if hasField field section
                 then map (fun f => if String.eqb (id f) (id field) then field else f)
                          (s_fields section)
                 else s_fields section ++ [field])
            else section)
         (t_sections prev)).

Definition saveField (field : FormField) (b : Builder) : Builder :=
  setTemplate (saveFieldIn (currentSectionId b) field (currentTemplate b)) b.

Definition deleteField (sectionId fieldId : string) (prev : FormTemplate FormField)
  : FormTemplate FormField :=
  sectionsOf prev
    (map (fun section =>
            if String.eqb (s_id section) sectionId
            then withFields section
                   (filter (fun f => negb (String.eqb (id f) fieldId) = true)
                           (s_fields section))
            else section)
         (t_sections prev)).

(** [onClose] of the modal. *)
Definition onClose (b : Builder) : Builder :=
  mkBuilder (currentTemplate b) (isPreview b) None false EmptyString.

(** *** The field configuration modal

    The form state of the modal always has a type: the effect that fills it
    sets [type] in both branches.  Only the four properties [handleSave]
    reads are kept. *)
Record ModalForm : Type := mkModalForm {
  m_type : FieldType;
  m_label : option string;
  m_required : option bool;
  m_style : option LabelStyle
}.

(** The effect on [field] and [isOpen]: the form and the options text. *)
Definition initForm (field : option FormField) : ModalForm * string :=
  match field with
  | Some f =>
      (mkModalForm (type f) (Some (label f)) (required f) (style f),
       orString (join ", " <$> options f) EmptyString)
  | None => (mkModalForm TText (Some EmptyString) (Some true) None, EmptyString)
  end.

Definition labelRequired : Toast :=
  mkToast "Validation Error" "Field label is required" true.
Definition optionsRequired : Toast :=
  mkToast "Validation Error" "Options are required for dropdown fields" true.

(** [split(',').map(opt => opt.trim()).filter(Boolean)] *)
Definition parseOptions (enumOptions : string) : list string :=
  filter (fun opt => Js.isEmpty opt = false)
         (map Js.trim (FieldTypeSelector.split FieldTypeSelector.comma enumOptions)).

(** [handleSave] of the modal: the toast it raises, or the field it hands to
    [onSave] before closing. *)
Definition modalSave (field : option FormField) (form : ModalForm)
    (enumOptions : string) (ms : string) : Toast + FormField :=
  if negb (truthyString (m_label form)) && negb (bool_decide (m_type form = TLabel))
  then inl labelRequired
  else if bool_decide (m_type form = TEnum) && Js.isEmpty (Js.trim enumOptions)
  then inl optionsRequired
  else inr (mkField (orString (id <$> field) ms)
                    (m_type form)
                    (orString (m_label form) EmptyString)
                    (Some (default true (m_required form)))
                    (if bool_decide (m_type form = TEnum)
                     then Some (parseOptions enumOptions) else None)
                    (if bool_decide (m_type form = TLabel)
                     then Some (default H2 (m_style form)) else None)).

(** The button [Done]: on success the field is saved and the modal closes. *)
Definition onDone (form : ModalForm) (enumOptions : string) (ms : string) (b : Builder)
  : Builder * option Toast :=
  match modalSave (selectedField b) form enumOptions ms with
  | inl t => (b, Some t)
  | inr f => (onClose (saveField f b), None)
  end.

End IndexBuilder.

(** *** The form filler of the single-file application ([unnamed/part_000]) *)

Module IndexFiller.

Record Filler : Type := mkFiller {
  formData : gmap string Value;
  errors : gmap string string;
  isSubmitted : bool
}.

Definition updateFieldValue (fieldId : string) (value : Value) (fl : Filler) : Filler :=
  mkFiller (<[fieldId := value]> (formData fl))
           (if truthyEntry (Obj.get (errors fl) fieldId)
            then <[fieldId := EmptyString]> (errors fl)
            else errors fl)
           (isSubmitted fl).

Definition previewToast : Toast :=
  mkToast "Preview Mode" "This is just a preview. Form submission is disabled." false.
Definition successToast : Toast :=
  mkToast "Success" "Form submitted successfully!" false.
Definition validationToast : Toast :=
  mkToast "Validation Error" "Please fill in all required fields correctly." true.

Definition raise (t : Toast) (s : IndexPage.State) : IndexPage.State :=
  IndexPage.mkState (IndexPage.templates s) (IndexPage.submissions s)
                    (IndexPage.toasts s ++ [t]).

Definition handleSubmit (template : FormTemplate IndexPage.FormField) (isPreview : bool)
    (nowMs nowIso : string) (w : Filler * IndexPage.State) : Filler * IndexPage.State :=
  let '(fl, s) := w in
  if isPreview then (fl, raise previewToast s)
  else
    let '(newErrors, ok) := IndexPage.validateForm template (formData fl) in
    if ok then
      (mkFiller (formData fl) newErrors true,
       raise successToast
         (IndexPage.submitForm (t_id template) (t_name template) (formData fl)
                               nowMs nowIso s))
    else (mkFiller (formData fl) newErrors (isSubmitted fl), raise validationToast s).

End IndexFiller.

(** The shape of a repository: ids are distinct and there are at most five
    templates. *)
Definition distinctIds {F} (l : list (FormTemplate F)) : Prop := NoDup (map t_id l).

Definition withinBound {F} (l : list (FormTemplate F)) : Prop := length l <= 5.

(** Sample data for the additional properties. *)
Module More.

(** Four saved templates, in step with storage. *)
Definition four : list Template :=
  [Bound.tpl "t1" "One"; Bound.tpl "t2" "Two"; Bound.tpl "t3" "Three"; Bound.tpl "t4" "Four"].

Definition ctx4 : AppContext.State :=
  AppContext.mkState four [] (AppContext.mkStorage (Some four) (Some [])).

Definition fourM : list (FormTemplate IndexPage.FormField) :=
  [Bound.tpl "t1" "One"; Bound.tpl "t2" "Two"; Bound.tpl "t3" "Three"; Bound.tpl "t4" "Four"].

Definition stateM : IndexPage.State := IndexPage.mkState fourM [] [].

(** A new version of the second template. *)
Definition second : Template :=
  mkTemplate "t2" "Two, revised" [mkSection "s1" "Section 1" [Intake.name]]
             "2024-01-01" "2024-01-01".

End More.

(** The check [isFormValid] of [part_003] makes on one field. *)
Definition FormFiller_fieldReady (values : gmap string Value) (field : FormField) : bool :=
  if bool_decide (f_type field = TLabel) || negb (default false (f_required field))
  then true
  else
    let value := Obj.get values (f_id field) in
    negb (falsy value) && negb (FormFiller.emptyString value) &&
    (negb (bool_decide (f_type field = TNumber)) || negb (isNaN_Number value)).

(** Forms whose field ids meet: a heading and a required text under one id,
    and a required text whose id names a property of [Object.prototype]. *)
Module Corner.

Definition note : FormField :=
  mkField "x" TLabel "Note" (Some H2) None (Some false) (Some (VString EmptyString)).
Definition answer : FormField :=
  mkField "x" TText "Answer" None None (Some true) (Some (VString EmptyString)).

Definition shared : Template :=
  mkTemplate "t4" "Shared" [mkSection "s1" "One" [note; answer]]
             "2024-01-01" "2024-01-01".

Definition noteM : IndexPage.FormField :=
  IndexPage.mkField "x" TLabel "Note" (Some false) None (Some H2).
Definition answerM : IndexPage.FormField :=
  IndexPage.mkField "x" TText "Answer" (Some true) None None.

Definition sharedM : FormTemplate IndexPage.FormField :=
  mkTemplate "t4" "Shared" [mkSection "s1" "One" [noteM; answerM]]
             "2024-01-01" "2024-01-01".

Definition builtin : FormField :=
  mkField "constructor" TText "Builder" None None (Some true) (Some (VString EmptyString)).

Definition inherited : Template :=
  mkTemplate "t5" "Inherited" [mkSection "s1" "One" [builtin]]
             "2024-01-01" "2024-01-01".

Definition builtinM : IndexPage.FormField :=
  IndexPage.mkField "constructor" TText "Builder" (Some true) None None.

Definition inheritedM : FormTemplate IndexPage.FormField :=
  mkTemplate "t5" "Inherited" [mkSection "s1" "One" [builtinM]]
             "2024-01-01" "2024-01-01".

(** A required number field under the id [__proto__]. *)
Definition proto : FormField :=
  mkField "__proto__" TNumber "Count" None None (Some true) (Some (VString EmptyString)).

Definition counted : Template :=
  mkTemplate "t6" "Counted" [mkSection "s1" "One" [proto]] "2024-01-01" "2024-01-01".

Definition protoM : IndexPage.FormField :=
  IndexPage.mkField "__proto__" TNumber "Count" (Some true) None None.

Definition countedM : FormTemplate IndexPage.FormField :=
  mkTemplate "t6" "Counted" [mkSection "s1" "One" [protoM]] "2024-01-01" "2024-01-01".

End Corner.

(** * Properties *)

(** ** The string-to-number conversion on sample inputs *)

Example number_42 : isNaN_Number (Obj.Own (VString "42")) = false.
Proof. reflexivity. Qed.
Example number_abc : isNaN_Number (Obj.Own (VString "abc")) = true.
Proof. reflexivity. Qed.
Example number_padded : isNaN_Number (Obj.Own (VString " -1.5e+3 ")) = false.
Proof. reflexivity. Qed.
Example number_dot : isNaN_Number (Obj.Own (VString ".")) = true.
Proof. reflexivity. Qed.
Example number_hex : isNaN_Number (Obj.Own (VString "0x1F")) = false.
Proof. reflexivity. Qed.
Example number_infinity : isNaN_Number (Obj.Own (VString "Infinity")) = false.
Proof. reflexivity. Qed.
Example number_blank : isNaN_Number (Obj.Own (VString "   ")) = false.
Proof. reflexivity. Qed.
Example number_12px : isNaN_Number (Obj.Own (VString "12px")) = true.
Proof. reflexivity. Qed.
Example reorder_forward : reorder 0 [1; 2; 3; 4] 0 2 = [2; 3; 1; 4].
Proof. reflexivity. Qed.
Example reorder_backward : reorder 0 [1; 2; 3; 4] 3 1 = [1; 4; 2; 3].
Proof. reflexivity. Qed.
Example reorder_to_far : reorder 0 [1; 2; 3] 0 9 = [2; 3; 1].
Proof. reflexivity. Qed.
Example reorder_from_far : reorder 0 [1; 2; 3] 7 1 = [1; 0; 2; 3].
Proof. reflexivity. Qed.

(** ** Trimming and splitting *)

Example trim_both_sides : Js.trim "  Intake form  " = "Intake form".
Proof. reflexivity. Qed.
Example trim_blank : Js.trim "   " = EmptyString.
Proof. reflexivity. Qed.
Example split_options :
  map Js.trim (FieldTypeSelector.split FieldTypeSelector.comma "Red, Green,Blue")
  = ["Red"; "Green"; "Blue"].
Proof. reflexivity. Qed.
Example split_trailing_comma :
  FieldTypeSelector.split FieldTypeSelector.comma "a," = ["a"; EmptyString].
Proof. reflexivity. Qed.

Lemma trimStart_blank s : Js.isBlank s = true -> Js.trimStart s = EmptyString.
Proof.
  induction s as [|c s IH]; simpl; [done|].
  destruct (Js.isWhiteSpace c); simpl; [exact IH | discriminate].
Qed.

Lemma trimEnd_cons_visible c s :
  Js.isWhiteSpace c = false -> Js.isEmpty (Js.trimEnd (String c s)) = false.
Proof. intros Hc. simpl. destruct (Js.trimEnd s); [rewrite Hc|]; reflexivity. Qed.

(** [s.trim() === ''] holds exactly for the strings made of white space only. *)
Lemma isEmpty_trim s : Js.isEmpty (Js.trim s) = Js.isBlank s.
Proof.
  unfold Js.trim. induction s as [|c s IH]; [reflexivity|].
  cbn [Js.trimStart Js.isBlank].
  destruct (Js.isWhiteSpace c) eqn:Hc; cbn [andb]; [exact IH|].
  by apply trimEnd_cons_visible.
Qed.

(** ** Arrays *)

Lemma findIndex_None {A} (p : A -> bool) xs :
  findIndex p xs = None <-> Forall (fun x => p x = false) xs.
Proof.
  induction xs as [|x xs IH]; simpl.
  - split; [constructor | done].
  - destruct (p x) eqn:Hx.
    + split; [discriminate|]. intros H. inversion H; congruence.
    + rewrite fmap_None, IH. split.
      * intros H. by constructor.
      * intros H. by inversion H.
Qed.

Lemma findIndex_Some {A} (p : A -> bool) xs i :
  findIndex p xs = Some i -> exists x, xs !! i = Some x /\ p x = true.
Proof.
  revert i. induction xs as [|x xs IH]; simpl; intros i; [discriminate|].
  destruct (p x) eqn:Hx.
  - intros [= <-]. eauto.
  - destruct (findIndex p xs) as [j|]; simpl; [|discriminate].
    intros [= <-]. destruct (IH j eq_refl) as (y & ? & ?). eauto.
Qed.

Lemma filter_keep_all {A} (p : A -> bool) (xs : list A) :
  Forall (fun x => p x = true) xs -> filter (fun x => p x = true) xs = xs.
Proof.
  induction 1 as [|x xs Hx _ IH]; [done|].
  rewrite filter_cons. by destruct (decide (p x = true)); [rewrite IH|].
Qed.

(** ** The repository: saving at the bound of five templates *)

Lemma fresh_findIndex {F} (template : FormTemplate F) prev :
  fresh template prev ->
  findIndex (fun t => String.eqb (t_id t) (t_id template)) prev = None.
Proof.
  intros H. apply findIndex_None. eapply Forall_impl; [exact H|].
  intros t Ht. by apply String.eqb_neq.
Qed.

(** The single-file application refuses a sixth template: the list is the one
    it was, the limit toast is raised, nothing else moves. *)
Lemma IndexPage_saveTemplate_refuses template now (s : IndexPage.State) :
  length (IndexPage.templates s) = 5 ->
  fresh template (IndexPage.templates s) ->
  IndexPage.templates (IndexPage.saveTemplate template now s) = IndexPage.templates s
  /\ IndexPage.submissions (IndexPage.saveTemplate template now s)
     = IndexPage.submissions s
  /\ IndexPage.toasts (IndexPage.saveTemplate template now s)
     = IndexPage.toasts s ++ [IndexPage.limitReached].
Proof.
  intros Hlen Hfresh. unfold IndexPage.saveTemplate, IndexPage.saveTemplateUpdater.
  rewrite (fresh_findIndex _ _ Hfresh), Hlen. by simpl.
Qed.

(** The context of [AppContext.tsx] never refuses: at five templates a new one
    is stored last and the oldest is dropped. *)
Lemma AppContext_saveTemplate_evicts (template : Template) now (s : AppContext.State) :
  length (AppContext.templates s) = 5 ->
  fresh template (AppContext.templates s) ->
  AppContext.templates (AppContext.saveTemplate template now s)
  = drop 1 (AppContext.templates s) ++ [withUpdatedAt template now].
Proof.
  intros Hlen Hfresh. unfold AppContext.saveTemplate. cbn [AppContext.templates].
  rewrite (fresh_findIndex _ _ Hfresh).
  unfold sliceLast. rewrite length_app, Hlen. cbn [length Nat.add Nat.ltb Nat.leb Nat.sub].
  by rewrite drop_app_le by lia.
Qed.


(** Whatever the state, the template just saved is in the list, with its
    sections as they were handed in, and the list is what storage holds. *)
Lemma AppContext_saveTemplate_stores (template : Template) now (s : AppContext.State) :
  let s' := AppContext.saveTemplate template now s in
  withUpdatedAt template now ∈ AppContext.templates s'
  /\ t_sections (withUpdatedAt template now) = t_sections template
  /\ AppContext.formTemplates (AppContext.localStorage s')
     = Some (AppContext.templates s').
Proof.
  cbn zeta. split; [|split; reflexivity].
  unfold AppContext.saveTemplate. cbn [AppContext.templates].
  destruct (findIndex _ _) as [i|] eqn:Hfind.
  - apply findIndex_Some in Hfind as (x & Hx & _).
    apply list_elem_of_lookup. exists i.
    apply list_lookup_insert_eq. by eapply lookup_lt_Some.
  - set (l := AppContext.templates s).
    destruct (5 <? length (l ++ [withUpdatedAt template now]))%nat eqn:Hlen.
    + unfold sliceLast. rewrite length_app. cbn [length].
      rewrite drop_app_le by lia. apply elem_of_app. right. apply list_elem_of_here.
    + apply elem_of_app. right. apply list_elem_of_here.
Qed.


(** C1, as stated, fails for [saveTemplate] of [AppContext.tsx]: with five
    templates saved, saving a template with a sixth id does not fail and does
    not leave the list alone: the template with the oldest position, [t1], is
    gone, the new one is last, and the same list is written to storage. *)
Lemma C1_AppContext_saveTemplate_drops_oldest :
  let s' := AppContext.saveTemplate Bound.sixth "2024-06-01" Bound.ctx5 in
  length (AppContext.templates Bound.ctx5) = 5
  /\ fresh Bound.sixth (AppContext.templates Bound.ctx5)
  /\ map t_id (AppContext.templates s') = ["t2"; "t3"; "t4"; "t5"; "t6"]
  /\ AppContext.templates s' <> AppContext.templates Bound.ctx5
  /\ AppContext.formTemplates (AppContext.localStorage s')
     = Some (AppContext.templates s').
Proof.
  cbn zeta. split; [reflexivity|]. split.
  { unfold fresh. repeat constructor; discriminate. }
  split; [reflexivity|]. split; [discriminate | reflexivity].
Qed.

(** C1, amended.  With five templates stored and a template of a new id:
    [saveTemplate] of [part_000] refuses, raising the limit toast and leaving
    templates and submissions as they are.  [saveTemplate] of
    [AppContext.tsx] has no refusal; there the create button of the template
    list is disabled while five templates are stored, and called all the same
    it keeps the last five: the oldest template is dropped and the new one,
    stamped, is stored last.  While the create button is enabled a new
    template is appended and nothing is dropped. *)
Theorem C1_sixth_template_is_refused_or_prevented :
  (forall (template : FormTemplate IndexPage.FormField) (now : string)
          (s : IndexPage.State),
      length (IndexPage.templates s) = 5 ->
      fresh template (IndexPage.templates s) ->
      let s' := IndexPage.saveTemplate template now s in
      IndexPage.templates s' = IndexPage.templates s
      /\ IndexPage.submissions s' = IndexPage.submissions s
      /\ IndexPage.toasts s' = IndexPage.toasts s ++ [IndexPage.limitReached])
  /\
  (forall (template : Template) (now : string) (s : AppContext.State),
      fresh template (AppContext.templates s) ->
      let s' := AppContext.saveTemplate template now s in
      (length (AppContext.templates s) = 5 ->
       TemplateList.createEnabled s = false
       /\ AppContext.templates s'
          = drop 1 (AppContext.templates s) ++ [withUpdatedAt template now]
       /\ length (AppContext.templates s') = 5)
      /\ (TemplateList.createEnabled s = true ->
          AppContext.templates s'
          = AppContext.templates s ++ [withUpdatedAt template now])
      /\ AppContext.submissions s' = AppContext.submissions s).
Proof.
  split.
  - intros template now s Hlen Hfresh. by apply IndexPage_saveTemplate_refuses.
  - intros template now s Hfresh s'. subst s'. split; [|split; [|reflexivity]].
    + intros Hlen. split; [by unfold TemplateList.createEnabled; rewrite Hlen|].
      rewrite (AppContext_saveTemplate_evicts template now s Hlen Hfresh).
      split; [reflexivity|]. rewrite length_app, length_drop, Hlen. reflexivity.
    + intros Hgate. unfold TemplateList.createEnabled in Hgate.
      apply negb_true_iff, Nat.leb_gt in Hgate.
      unfold AppContext.saveTemplate. cbn [AppContext.templates].
      rewrite (fresh_findIndex _ _ Hfresh).
      destruct (5 <? _)%nat eqn:Hfull; [|reflexivity].
      apply Nat.ltb_lt in Hfull. rewrite length_app in Hfull. cbn in Hfull. lia.
Qed.

(** The amended C1 on a full repository: the single-file application keeps
    its five templates and raises the toast, the context has its create
    button disabled. *)
Lemma C1_sixth_template_is_refused_or_prevented_witness :
  (let s' := IndexPage.saveTemplate Bound.sixth "2024-06-01"
               (IndexPage.mkState Bound.five [] []) in
   map t_id (IndexPage.templates s') = ["t1"; "t2"; "t3"; "t4"; "t5"]
   /\ IndexPage.toasts s' = [IndexPage.limitReached])
  /\ TemplateList.createEnabled Bound.ctx5 = false.
Proof.
  assert (Hfresh : forall F, fresh (@Bound.sixth F) Bound.five).
  { intros F. unfold fresh. repeat constructor; discriminate. }
  split.
  - cbn zeta.
    destruct (proj1 C1_sixth_template_is_refused_or_prevented Bound.sixth "2024-06-01"
                (IndexPage.mkState Bound.five [] []) eq_refl (Hfresh _))
      as (Htemplates & _ & Htoasts).
    rewrite Htemplates, Htoasts. split; reflexivity.
  - exact (proj1 (proj1 (proj2 C1_sixth_template_is_refused_or_prevented Bound.sixth
                           "2024-06-01" Bound.ctx5 (Hfresh _)) eq_refl)).
Defined.

(** ** The repository: deleting a template *)

Lemma negb_eqb_true (a b : string) : negb (String.eqb a b) = true <-> a <> b.
Proof. rewrite negb_true_iff. apply String.eqb_neq. Qed.

(** The single-file application deletes the template and cascades to its
    submissions; everything else stays, in order, and an unknown id changes
    nothing. *)
Lemma IndexPage_deleteTemplate_cascades tid (s : IndexPage.State) :
  let s' := IndexPage.deleteTemplate tid s in
  (forall t, t ∈ IndexPage.templates s' <-> t ∈ IndexPage.templates s /\ t_id t <> tid)
  /\ (forall sub, sub ∈ IndexPage.submissions s'
                  <-> sub ∈ IndexPage.submissions s /\ IndexPage.templateId sub <> tid)
  /\ IndexPage.templates s' `sublist_of` IndexPage.templates s
  /\ IndexPage.submissions s' `sublist_of` IndexPage.submissions s
  /\ (Forall (fun t => t_id t <> tid) (IndexPage.templates s) ->
      IndexPage.templates s' = IndexPage.templates s)
  /\ IndexPage.toasts s' = IndexPage.toasts s.
Proof.
  cbn zeta. unfold IndexPage.deleteTemplate. cbn.
  split; [|split; [|split; [|split; [|split]]]].
  - intros t. rewrite list_elem_of_filter, negb_eqb_true. tauto.
  - intros sub. rewrite list_elem_of_filter, negb_eqb_true. tauto.
  - apply sublist_filter.
  - apply sublist_filter.
  - intros H. apply filter_keep_all. eapply Forall_impl; [exact H|].
    intros t Ht. by apply negb_eqb_true.
  - reflexivity.
Qed.

(** [AppContext.deleteTemplate] filters the templates in the same way and
    never touches the submissions. *)
Lemma AppContext_deleteTemplate_templates tid (s : AppContext.State) :
  let s' := AppContext.deleteTemplate tid s in
  (forall t, t ∈ AppContext.templates s' <-> t ∈ AppContext.templates s /\ t_id t <> tid)
  /\ AppContext.submissions s' = AppContext.submissions s.
Proof.
  cbn zeta. unfold AppContext.deleteTemplate. cbn. split; [|reflexivity].
  intros t. rewrite list_elem_of_filter, negb_eqb_true. tauto.
Qed.

(** C2, on [AppContext.tsx]: deleting template [t1] removes it from the
    list, but the submission filled against [t1] is still there: the
    submissions are exactly what they were. *)
Theorem C2_AppContext_deleteTemplate_keeps_submissions :
  let s' := AppContext.deleteTemplate "t1" Archive.ctx in
  map t_id (AppContext.templates s') = ["t2"]
  /\ Archive.sub "t1" ∈ AppContext.submissions s'
  /\ sub_templateId (Archive.sub "t1") = "t1"
  /\ AppContext.submissions s' = AppContext.submissions Archive.ctx.
Proof.
  cbn zeta. split; [reflexivity|]. split; [|split; reflexivity].
  cbn. apply list_elem_of_here.
Qed.

(** ** Reading and assigning properties of a plain object *)

Lemma get_own {A} (obj : gmap string A) k a :
  obj !! k = Some a -> Obj.get obj k = Obj.Own a.
Proof. unfold Obj.get. by intros ->. Qed.

Lemma get_absent {A} (obj : gmap string A) k :
  obj !! k = None -> Obj.inherits k = false -> Obj.get obj k = Obj.Undefined.
Proof. unfold Obj.get. by intros -> ->. Qed.

Lemma get_inherited {A} (obj : gmap string A) k :
  obj !! k = None -> Obj.inherits k = true -> Obj.get obj k = Obj.Inherited.
Proof. unfold Obj.get. by intros -> ->. Qed.

Lemma set_cases {A} k (a : A) obj :
  Obj.set k a obj = <[k := a]> obj
  \/ (Obj.set k a obj = obj /\ k = "__proto__" /\ obj !! k = None).
Proof.
  unfold Obj.set. destruct (obj !! k); [by left|].
  destruct (String.eqb_spec k "__proto__"); [by right | by left].
Qed.

Lemma set_same {A} k (a : A) obj :
  k <> "__proto__" -> Obj.set k a obj !! k = Some a.
Proof.
  intros Hk. destruct (set_cases k a obj) as [-> | (_ & ? & _)]; [|done].
  apply lookup_insert_eq.
Qed.

Lemma set_other {A} k k' (a : A) obj :
  k <> k' -> Obj.set k a obj !! k' = obj !! k'.
Proof.
  intros Hk. destruct (set_cases k a obj) as [-> | (-> & _)]; [|done].
  by apply lookup_insert_ne.
Qed.

Lemma set_keeps {A} k k' (a : A) obj :
  is_Some (obj !! k') -> is_Some (Obj.set k a obj !! k').
Proof.
  intros Hk. destruct (set_cases k a obj) as [-> | (-> & _)]; [|done].
  destruct (decide (k = k')) as [->|Hne].
  - rewrite lookup_insert_eq. eauto.
  - by rewrite lookup_insert_ne.
Qed.

Lemma set_origin {A} k k' (a : A) obj :
  is_Some (Obj.set k a obj !! k') -> is_Some (obj !! k') \/ k = k'.
Proof.
  destruct (decide (k = k')) as [->|Hne]; [by right|].
  rewrite set_other by done. by left.
Qed.

(** Nothing is ever assigned under [__proto__] in an object that has no own
    property of that name. *)
Lemma set_proto {A} k (a : A) obj :
  obj !! "__proto__" = None -> Obj.set k a obj !! "__proto__" = None.
Proof.
  intros Hobj. unfold Obj.set.
  destruct (String.eqb_spec k "__proto__") as [->|Hne].
  - by rewrite Hobj.
  - by destruct (obj !! k); rewrite lookup_insert_ne.
Qed.

Lemma set_non_empty {A} k (a : A) obj :
  k <> "__proto__" -> Obj.set k a obj <> ∅.
Proof.
  intros Hk Hempty. pose proof (set_same k a obj Hk) as Hsame.
  rewrite Hempty, lookup_empty in Hsame. discriminate.
Qed.

(** ** Error maps built by a loop over the fields *)

Lemma fold_left_sections {F M} (step : M -> F -> M) (ss : list (FormSection F)) acc :
  fold_left (fun acc section => fold_left step (s_fields section) acc) ss acc
  = fold_left step (concat (map s_fields ss)) acc.
Proof.
  revert acc. induction ss as [|s ss IH]; intros acc; [reflexivity|].
  cbn [map concat fold_left]. by rewrite fold_left_app, IH.
Qed.

Lemma fold_left_pointwise {A B} (f g : A -> B -> A) (l : list B) (a : A) :
  (forall x y, f x y = g x y) -> fold_left f l a = fold_left g l a.
Proof.
  intros Hfg. revert a. induction l as [|y l IH]; intros a; [reflexivity|].
  cbn [fold_left]. by rewrite Hfg, IH.
Qed.

Section ErrorMap.

Context {F : Type} (key : F -> string) (verdict : F -> option string).

(** An entry, once written, is never removed. *)
Lemma recordError_keeps fs acc k :
  is_Some (acc !! k) -> is_Some (fold_left (recordError key verdict) fs acc !! k).
Proof.
  revert acc. induction fs as [|f fs IH]; intros acc Hk; [exact Hk|].
  cbn [fold_left]. apply IH. unfold recordError.
  destruct (verdict f); [|exact Hk]. by apply set_keeps.
Qed.

(** A field in error has an entry under its id, unless the id is
    [__proto__]. *)
Lemma recordError_hits fs acc f :
  f ∈ fs -> is_Some (verdict f) -> key f <> "__proto__" ->
  is_Some (fold_left (recordError key verdict) fs acc !! key f).
Proof.
  revert acc. induction fs as [|g fs IH]; intros acc Hin Hv Hkey.
  - by apply elem_of_nil in Hin.
  - cbn [fold_left]. apply elem_of_cons in Hin as [<-|Hin].
    + apply recordError_keeps. unfold recordError.
      destruct Hv as [m ->]. rewrite set_same by done. eauto.
    + by apply IH.
Qed.

(** The loop never makes an own property [__proto__]. *)
Lemma recordError_proto fs acc :
  acc !! "__proto__" = None ->
  fold_left (recordError key verdict) fs acc !! "__proto__" = None.
Proof.
  revert acc. induction fs as [|g fs IH]; intros acc Hacc; [exact Hacc|].
  cbn [fold_left]. apply IH. unfold recordError.
  destruct (verdict g); [by apply set_proto | exact Hacc].
Qed.

(** Every entry was there before the loop or comes from a field in error. *)
Lemma recordError_origin fs acc k :
  is_Some (fold_left (recordError key verdict) fs acc !! k) ->
  is_Some (acc !! k) \/ exists f, f ∈ fs /\ key f = k /\ is_Some (verdict f).
Proof.
  revert acc. induction fs as [|g fs IH]; intros acc Hk; [by left|].
  cbn [fold_left] in Hk. apply IH in Hk as [Hk|(f & Hin & Hkey & Hv)].
  - unfold recordError in Hk. destruct (verdict g) as [m|] eqn:Hg.
    + apply set_origin in Hk as [Hk|Hgk]; [by left|].
      right. exists g. split; [apply list_elem_of_here|]. split; [exact Hgk|].
      rewrite Hg. eauto.
    + by left.
  - right. exists f. split; [by apply list_elem_of_further|]. done.
Qed.

End ErrorMap.

(** The two validators are such loops. *)
Lemma FormFiller_validateField_verdict values acc field :
  FormFiller.validateField values acc field
  = recordError f_id (FormFiller_verdict values) acc field.
Proof.
  unfold FormFiller.validateField, recordError, FormFiller_verdict.
  destruct (negb _ && _); [|reflexivity].
  cbn zeta. destruct (_ || _ || _); [reflexivity|].
  by destruct (_ && _).
Qed.

Lemma FormFiller_errors_fold template values :
  FormFiller.validationErrors template values
  = fold_left (recordError f_id (FormFiller_verdict values)) (allFields template) ∅.
Proof.
  unfold FormFiller.validationErrors, allFields.
  rewrite fold_left_sections.
  apply fold_left_pointwise. intros acc f. apply FormFiller_validateField_verdict.
Qed.

Lemma IndexPage_validateField_verdict formData acc field :
  fst (IndexPage.validateField formData acc field)
  = recordError IndexPage.id (IndexPage_verdict formData) (fst acc) field.
Proof.
  unfold IndexPage.validateField, recordError, IndexPage_verdict.
  destruct acc as [errs ok]. cbn [fst].
  destruct (negb _ && _); [|reflexivity].
  cbn zeta. destruct (_ && _ && _); [reflexivity|].
  by destruct (_ && _).
Qed.

Lemma IndexPage_errors_fold template formData :
  fst (IndexPage.validateForm template formData)
  = fold_left (recordError IndexPage.id (IndexPage_verdict formData))
              (allFields template) ∅.
Proof.
  unfold IndexPage.validateForm, allFields. rewrite fold_left_sections.
  generalize (concat (map s_fields (t_sections template))).
  change (∅ : gmap string string) with (fst ((∅ : gmap string string), true)) at 2.
  generalize ((∅ : gmap string string), true).
  intros acc fs. revert acc. induction fs as [|f fs IH]; intros acc; [reflexivity|].
  cbn [fold_left]. by rewrite IH, IndexPage_validateField_verdict.
Qed.

(** ** The validators *)

(** Every entry of the error map comes from a field in error, and a field
    in error has an entry unless its id is [__proto__]. *)
Lemma FormFiller_entry_origin (template : Template) values k :
  is_Some (FormFiller.validationErrors template values !! k) ->
  exists f, f ∈ allFields template /\ f_id f = k
            /\ is_Some (FormFiller_verdict values f).
Proof.
  rewrite FormFiller_errors_fold. intros H.
  apply recordError_origin in H as [H|H]; [|exact H].
  rewrite lookup_empty in H. by destruct H.
Qed.

Lemma FormFiller_entry_hits (template : Template) values f :
  f ∈ allFields template -> is_Some (FormFiller_verdict values f) ->
  f_id f <> "__proto__" ->
  is_Some (FormFiller.validationErrors template values !! f_id f).
Proof. rewrite FormFiller_errors_fold. apply recordError_hits. Qed.

Lemma IndexPage_entry_origin (template : FormTemplate IndexPage.FormField) formData k :
  is_Some (fst (IndexPage.validateForm template formData) !! k) ->
  exists f, f ∈ allFields template /\ IndexPage.id f = k
            /\ is_Some (IndexPage_verdict formData f).
Proof.
  rewrite IndexPage_errors_fold. intros H.
  apply recordError_origin in H as [H|H]; [|exact H].
  rewrite lookup_empty in H. by destruct H.
Qed.

Lemma IndexPage_entry_hits (template : FormTemplate IndexPage.FormField) formData f :
  f ∈ allFields template -> is_Some (IndexPage_verdict formData f) ->
  IndexPage.id f <> "__proto__" ->
  is_Some (fst (IndexPage.validateForm template formData) !! IndexPage.id f).
Proof. rewrite IndexPage_errors_fold. apply recordError_hits. Qed.

(** A key that reads as [undefined] is not a property of the prototype. *)
Lemma get_undefined {A} (obj : gmap string A) k :
  Obj.get obj k = Obj.Undefined -> obj !! k = None /\ Obj.inherits k = false.
Proof.
  unfold Obj.get. destruct (obj !! k); [discriminate|].
  by destruct (Obj.inherits k).
Qed.

Lemma plain_key_not_proto k : Obj.inherits k = false -> k <> "__proto__".
Proof. by intros Hk ->. Qed.

Lemma not_is_Some_None {A} (o : option A) : ~ is_Some o -> o = None.
Proof. destruct o; [intros H; destruct H; eauto | done]. Qed.

(** A verdict is only ever given on a required field that is not a label. *)
Lemma FormFiller_verdict_required values f :
  is_Some (FormFiller_verdict values f) ->
  f_type f <> TLabel /\ f_required f = Some true.
Proof.
  unfold FormFiller_verdict.
  destruct (bool_decide_reflect (f_type f = TLabel)) as [Hl|Hl]; cbn [negb andb].
  - intros [m Hm]. discriminate.
  - destruct (f_required f) as [[|]|]; cbn [default]; try (intros [m Hm]; discriminate).
    done.
Qed.

Lemma IndexPage_verdict_required formData f :
  is_Some (IndexPage_verdict formData f) ->
  IndexPage.type f <> TLabel /\ IndexPage.required f = Some true.
Proof.
  unfold IndexPage_verdict.
  destruct (bool_decide_reflect (IndexPage.type f = TLabel)) as [Hl|Hl]; cbn [negb andb].
  - intros [m Hm]. discriminate.
  - destruct (IndexPage.required f) as [[|]|]; cbn [default];
      try (intros [m Hm]; discriminate).
    done.
Qed.

(** A required field whose value is falsy is in error in the form filler of
    [part_003]: this covers the absent value and the explicit [false]. *)
Lemma FormFiller_falsy_is_error (template : Template) values f :
  f ∈ allFields template -> f_type f <> TLabel -> f_required f = Some true ->
  f_id f <> "__proto__" ->
  falsy (Obj.get values (f_id f)) = true ->
  is_Some (FormFiller.validationErrors template values !! f_id f).
Proof.
  intros Hin Hty Hreq Hkey Hfalsy.
  apply FormFiller_entry_hits; [exact Hin| |exact Hkey].
  unfold FormFiller_verdict. rewrite Hreq.
  destruct (bool_decide_reflect (f_type f = TLabel)); [done|].
  cbn. rewrite Hfalsy. cbn. eauto.
Qed.

(** The single-file validator does what C3 says, for every template: a
    required checkbox answered [false] has no entry, a missing answer has one. *)
Lemma IndexPage_boolean_false_passes (template : FormTemplate IndexPage.FormField)
    formData f :
  f ∈ allFields template -> IndexPage.type f = TBoolean ->
  IndexPage.required f = Some true ->
  (formData !! IndexPage.id f = Some (VBoolean false) ->
   fst (IndexPage.validateForm template formData) !! IndexPage.id f = None)
  /\ (Obj.get formData (IndexPage.id f) = Obj.Undefined ->
      is_Some (fst (IndexPage.validateForm template formData) !! IndexPage.id f)).
Proof.
  intros Hin Hty Hreq. split; intros Hv.
  - apply not_is_Some_None. intros Hentry.
    apply IndexPage_entry_origin in Hentry as (g & _ & Hid & Hg).
    revert Hg. unfold IndexPage_verdict.
    rewrite Hid, (get_own _ _ _ Hv). cbn.
    destruct (negb _ && _); [|by intros [m Hm]].
    rewrite andb_false_r. by intros [m Hm].
  - apply IndexPage_entry_hits; [exact Hin| |].
    + unfold IndexPage_verdict. rewrite Hty, Hreq, Hv. cbn. eauto.
    + apply plain_key_not_proto. by apply get_undefined in Hv as [_ ?].
Qed.

(** C3, on the form filler of [part_003]: the template holds one required
    checkbox; with the explicit answer [false] the validator reports
    [I agree is required] for it, exactly as with no answer at all, and the
    submit button stays disabled. *)
Theorem C3_FormFiller_rejects_explicit_false :
  let answered : gmap string Value := {["agree" := VBoolean false]} in
  Forms.agree ∈ allFields Forms.consent
  /\ f_type Forms.agree = TBoolean
  /\ f_required Forms.agree = Some true
  /\ FormFiller.validationErrors Forms.consent answered !! "agree"
     = Some "I agree is required"
  /\ FormFiller.validationErrors Forms.consent ∅ !! "agree"
     = Some "I agree is required"
  /\ FormFiller.isFormValid Forms.consent answered = false.
Proof.
  cbn zeta. split; [apply list_elem_of_here|].
  repeat split; vm_compute; reflexivity.
Qed.

(** The number 0 as a value: the validator of [part_000] lets it pass
    ([value !== 0]), the one of [part_003] reports the field as missing. *)
Example zero_is_an_answer :
  let entered : gmap string Value := {["height" := VNumber 0]} in
  IndexPage.validateForm Forms.measuresM entered = (∅, true)
  /\ FormFiller.validationErrors Forms.measures entered !! "height"
     = Some "Height is required".
Proof. cbn zeta. split; vm_compute; reflexivity. Qed.

(** A required number field whose value does not convert gets an entry, in
    both validators; the message depends on whether the text is blank. *)
Lemma FormFiller_verdict_NaN values f :
  f_type f = TNumber -> f_required f = Some true ->
  isNaN_Number (Obj.get values (f_id f)) = true ->
  is_Some (FormFiller_verdict values f).
Proof.
  intros Hty Hreq Hnan. unfold FormFiller_verdict. rewrite Hty, Hreq, Hnan. cbn.
  destruct (_ || _ || _); eauto.
Qed.

Lemma IndexPage_verdict_NaN formData f :
  IndexPage.type f = TNumber -> IndexPage.required f = Some true ->
  isNaN_Number (Obj.get formData (IndexPage.id f)) = true ->
  is_Some (IndexPage_verdict formData f).
Proof.
  intros Hty Hreq Hnan. unfold IndexPage_verdict. rewrite Hty, Hreq, Hnan. cbn.
  destruct (_ && _ && _); eauto.
Qed.

(** C4, as stated, fails: the number field [age] is not required and its
    value [abc] is present, non-empty and not a number, yet neither validator
    reports anything. *)
Lemma C4_optional_number_is_not_checked :
  let entered : gmap string Value := {["age" := VString "abc"]} in
  Forms.age ∈ allFields Forms.survey
  /\ f_type Forms.age = TNumber
  /\ f_required Forms.age = Some false
  /\ entered !! f_id Forms.age = Some (VString "abc")
  /\ isNaN_Number (Obj.get entered (f_id Forms.age)) = true
  /\ FormFiller.validationErrors Forms.survey entered !! f_id Forms.age = None
  /\ IndexPage.validateForm Forms.surveyM entered = (∅, true).
Proof.
  cbn zeta. split; [apply list_elem_of_here|].
  repeat split; vm_compute; reflexivity.
Qed.

(** C4, amended: a number field whose present value is a text that does not
    convert to a number ([Number(value)] is NaN) is reported when the field is
    required, and only then: a field id none of whose fields is required has
    no entry.  The one id under which nothing can be reported is [__proto__],
    where the assignment to the error map stores nothing.  This holds for the
    validator of [part_003] and for the one of [part_000]. *)
Theorem C4_number_is_checked_when_required :
  (forall (template : Template) (values : gmap string Value) (f : FormField) (v : string),
      f ∈ allFields template -> f_type f = TNumber ->
      values !! f_id f = Some (VString v) -> Js.stringIsNaN v = true ->
      (f_required f = Some true -> f_id f <> "__proto__" ->
       is_Some (FormFiller.validationErrors template values !! f_id f))
      /\ ((forall g, g ∈ allFields template -> f_id g = f_id f ->
                     f_required g <> Some true) ->
          FormFiller.validationErrors template values !! f_id f = None))
  /\
  (forall (template : FormTemplate IndexPage.FormField) (formData : gmap string Value)
          (f : IndexPage.FormField) (v : string),
      f ∈ allFields template -> IndexPage.type f = TNumber ->
      formData !! IndexPage.id f = Some (VString v) -> Js.stringIsNaN v = true ->
      (IndexPage.required f = Some true -> IndexPage.id f <> "__proto__" ->
       is_Some (fst (IndexPage.validateForm template formData) !! IndexPage.id f))
      /\ ((forall g, g ∈ allFields template -> IndexPage.id g = IndexPage.id f ->
                     IndexPage.required g <> Some true) ->
          fst (IndexPage.validateForm template formData) !! IndexPage.id f = None)).
Proof.
  split.
  - intros template values f v Hin Hty Hv Hnan. split.
    + intros Hreq Hkey. apply FormFiller_entry_hits; [exact Hin| |exact Hkey].
      apply FormFiller_verdict_NaN; [done..|]. by rewrite (get_own _ _ _ Hv).
    + intros Hnone. apply not_is_Some_None. intros Hentry.
      apply FormFiller_entry_origin in Hentry as (g & Hg & Hid & Hverdict).
      apply FormFiller_verdict_required in Hverdict as [_ Hreq].
      exact (Hnone g Hg Hid Hreq).
  - intros template formData f v Hin Hty Hv Hnan. split.
    + intros Hreq Hkey. apply IndexPage_entry_hits; [exact Hin| |exact Hkey].
      apply IndexPage_verdict_NaN; [done..|]. by rewrite (get_own _ _ _ Hv).
    + intros Hnone. apply not_is_Some_None. intros Hentry.
      apply IndexPage_entry_origin in Hentry as (g & Hg & Hid & Hverdict).
      apply IndexPage_verdict_required in Hverdict as [_ Hreq].
      exact (Hnone g Hg Hid Hreq).
Qed.

Lemma elem_of_singleton_list {A} (x y : A) : x ∈ [y] -> x = y.
Proof. intros H. apply elem_of_cons in H as [->|H]; [done|]. by apply elem_of_nil in H. Qed.

(** The amended C4 at work: [height] is required and holds [abc], so both
    validators report it; [age] is optional and holds [abc], so neither does. *)
Lemma C4_number_is_checked_when_required_witness :
  let entered : gmap string Value :=
    {["height" := VString "abc"; "age" := VString "abc"]} in
  is_Some (FormFiller.validationErrors Forms.measures entered !! "height")
  /\ FormFiller.validationErrors Forms.survey entered !! "age" = None
  /\ is_Some (fst (IndexPage.validateForm Forms.measuresM entered) !! "height")
  /\ fst (IndexPage.validateForm Forms.surveyM entered) !! "age" = None.
Proof.
  cbn zeta.
  pose proof (proj1 C4_number_is_checked_when_required) as HA.
  pose proof (proj2 C4_number_is_checked_when_required) as HM.
  split; [|split; [|split]].
  - apply (HA Forms.measures _ Forms.height "abc");
      [apply list_elem_of_here | reflexivity | reflexivity | reflexivity | reflexivity
      | discriminate].
  - apply (HA Forms.survey _ Forms.age "abc");
      [apply list_elem_of_here | reflexivity | reflexivity | reflexivity |].
    intros g Hg _. apply elem_of_singleton_list in Hg as ->. discriminate.
  - apply (HM Forms.measuresM _ Forms.heightM "abc");
      [apply list_elem_of_here | reflexivity | reflexivity | reflexivity | reflexivity
      | discriminate].
  - apply (HM Forms.surveyM _ Forms.ageM "abc");
      [apply list_elem_of_here | reflexivity | reflexivity | reflexivity |].
    intros g Hg _. apply elem_of_singleton_list in Hg as ->. discriminate.
Defined.

(** The text [Infinity] converts to a number that is not finite and is
    accepted by both validators, even on a required field. *)
Lemma required_number_accepts_Infinity :
  let entered : gmap string Value := {["height" := VString "Infinity"]} in
  FormFiller.validationErrors Forms.measures entered = ∅
  /\ IndexPage.validateForm Forms.measuresM entered = (∅, true).
Proof. cbn zeta. split; vm_compute; reflexivity. Qed.

(** With no value at all, every required field that is not a label is in
    error, provided its id is not the name of an inherited property. *)
Lemma FormFiller_verdict_empty f :
  f_type f <> TLabel -> f_required f = Some true -> Obj.inherits (f_id f) = false ->
  is_Some (FormFiller_verdict ∅ f).
Proof.
  intros Hty Hreq Hplain. unfold FormFiller_verdict.
  rewrite Hreq, (get_absent _ _ (lookup_empty _) Hplain).
  destruct (bool_decide_reflect (f_type f = TLabel)); [done|]. cbn. eauto.
Qed.

Lemma IndexPage_verdict_empty f :
  IndexPage.type f <> TLabel -> IndexPage.required f = Some true ->
  Obj.inherits (IndexPage.id f) = false ->
  is_Some (IndexPage_verdict ∅ f).
Proof.
  intros Hty Hreq Hplain. unfold IndexPage_verdict.
  rewrite Hreq, (get_absent _ _ (lookup_empty _) Hplain).
  destruct (bool_decide_reflect (IndexPage.type f = TLabel)); [done|]. cbn. eauto.
Qed.

(** C9, as stated, fails twice.  A heading and a required text that share
    the id [x]: the error map has an entry under the id of the heading.  A
    required text whose id is [constructor]: with no value entered the read
    finds the function every object inherits, and nothing is reported. *)
Lemma C9_shared_or_inherited_id_breaks_the_rule :
  (Corner.note ∈ allFields Corner.shared
   /\ f_type Corner.note = TLabel
   /\ FormFiller.validationErrors Corner.shared ∅ !! f_id Corner.note
      = Some "Answer is required"
   /\ fst (IndexPage.validateForm Corner.sharedM ∅) !! IndexPage.id Corner.noteM
      = Some "This field is required")
  /\ (Corner.builtin ∈ allFields Corner.inherited
      /\ f_type Corner.builtin = TText
      /\ f_required Corner.builtin = Some true
      /\ FormFiller.validateForm Corner.inherited ∅ = (∅, true)
      /\ IndexPage.validateForm Corner.inheritedM ∅ = (∅, true)).
Proof.
  split.
  - split; [apply list_elem_of_here|]. repeat split; vm_compute; reflexivity.
  - split; [apply list_elem_of_here|]. repeat split; vm_compute; reflexivity.
Qed.

(** C9, amended: let every field of the template that is not a label be
    required.  Validating against the empty value map then gives an error map
    with an entry for every field that is not a label and whose id is not the
    name of a property of [Object.prototype]; every entry of the map is keyed
    by the id of a field that is not a label; so a label has no entry unless
    its id is also the id of an input field.  This holds for the validator of
    [part_003] and for the one of [part_000]. *)
Theorem C9_empty_values_report_every_input_field :
  (forall template : Template,
      (forall f, f ∈ allFields template -> f_type f <> TLabel ->
                 f_required f = Some true) ->
      let errs := FormFiller.validationErrors template ∅ in
      (forall f, f ∈ allFields template -> f_type f <> TLabel ->
                 Obj.inherits (f_id f) = false ->
                 is_Some (errs !! f_id f))
      /\ (forall k, is_Some (errs !! k) ->
                    exists g, g ∈ allFields template /\ f_id g = k /\ f_type g <> TLabel)
      /\ (forall f, f ∈ allFields template -> f_type f = TLabel ->
                    (forall g, g ∈ allFields template -> f_type g <> TLabel ->
                               f_id g <> f_id f) ->
                    errs !! f_id f = None))
  /\
  (forall template : FormTemplate IndexPage.FormField,
      (forall f, f ∈ allFields template -> IndexPage.type f <> TLabel ->
                 IndexPage.required f = Some true) ->
      let errs := fst (IndexPage.validateForm template ∅) in
      (forall f, f ∈ allFields template -> IndexPage.type f <> TLabel ->
                 Obj.inherits (IndexPage.id f) = false ->
                 is_Some (errs !! IndexPage.id f))
      /\ (forall k, is_Some (errs !! k) ->
                    exists g, g ∈ allFields template /\ IndexPage.id g = k
                              /\ IndexPage.type g <> TLabel)
      /\ (forall f, f ∈ allFields template -> IndexPage.type f = TLabel ->
                    (forall g, g ∈ allFields template -> IndexPage.type g <> TLabel ->
                               IndexPage.id g <> IndexPage.id f) ->
                    errs !! IndexPage.id f = None)).
Proof.
  split.
  - intros template Hreq errs.
    assert (Horigin : forall k, is_Some (errs !! k) ->
              exists g, g ∈ allFields template /\ f_id g = k /\ f_type g <> TLabel).
    { intros k Hk. apply FormFiller_entry_origin in Hk as (g & Hg & Hid & Hv).
      exists g. split; [done|]. split; [done|].
      by apply FormFiller_verdict_required in Hv as [? _]. }
    split; [|split; [exact Horigin|]].
    + intros f Hin Hty Hplain.
      apply FormFiller_entry_hits; [done| |by apply plain_key_not_proto].
      apply FormFiller_verdict_empty; auto.
    + intros f Hin Hty Hdistinct. apply not_is_Some_None. intros Hk.
      apply Horigin in Hk as (g & Hg & Hid & Hgty). by apply (Hdistinct g).
  - intros template Hreq errs.
    assert (Horigin : forall k, is_Some (errs !! k) ->
              exists g, g ∈ allFields template /\ IndexPage.id g = k
                        /\ IndexPage.type g <> TLabel).
    { intros k Hk. apply IndexPage_entry_origin in Hk as (g & Hg & Hid & Hv).
      exists g. split; [done|]. split; [done|].
      by apply IndexPage_verdict_required in Hv as [? _]. }
    split; [|split; [exact Horigin|]].
    + intros f Hin Hty Hplain.
      apply IndexPage_entry_hits; [done| |by apply plain_key_not_proto].
      apply IndexPage_verdict_empty; auto.
    + intros f Hin Hty Hdistinct. apply not_is_Some_None. intros Hk.
      apply Horigin in Hk as (g & Hg & Hid & Hgty). by apply (Hdistinct g).
Qed.

Lemma elem_of_three {A} (x a b c : A) : x ∈ [a; b; c] -> x = a \/ x = b \/ x = c.
Proof.
  intros H. apply elem_of_cons in H as [->|H]; [by left|].
  apply elem_of_cons in H as [->|H]; [by right; left|].
  apply elem_of_singleton_list in H. by right; right.
Qed.

(** The amended C9 on the intake form: a heading, a required text and a
    required dropdown.  Both inputs are reported and the heading is not, by
    either validator. *)
Lemma C9_empty_values_report_every_input_field_witness :
  (is_Some (FormFiller.validationErrors Intake.form ∅ !! "f1")
   /\ is_Some (FormFiller.validationErrors Intake.form ∅ !! "f2")
   /\ FormFiller.validationErrors Intake.form ∅ !! "f0" = None)
  /\ (is_Some (fst (IndexPage.validateForm Intake.formM ∅) !! "f1")
      /\ is_Some (fst (IndexPage.validateForm Intake.formM ∅) !! "f2")
      /\ fst (IndexPage.validateForm Intake.formM ∅) !! "f0" = None).
Proof.
  split.
  - assert (Hreq : forall f, f ∈ allFields Intake.form -> f_type f <> TLabel ->
                             f_required f = Some true).
    { intros f Hf Hty. apply elem_of_three in Hf as [-> | [-> | ->] ];
        [by destruct Hty | reflexivity | reflexivity]. }
    destruct (proj1 C9_empty_values_report_every_input_field Intake.form Hreq)
      as (Hall & _ & Hlabel).
    split; [|split].
    + apply (Hall Intake.name); [|discriminate|reflexivity].
      apply list_elem_of_further, list_elem_of_here.
    + apply (Hall Intake.colour); [|discriminate|reflexivity].
      do 2 apply list_elem_of_further. apply list_elem_of_here.
    + apply (Hlabel Intake.heading); [apply list_elem_of_here | reflexivity |].
      intros g Hg Hty. apply elem_of_three in Hg as [-> | [-> | ->] ];
        [by destruct Hty | discriminate | discriminate].
  - assert (Hreq : forall f, f ∈ allFields Intake.formM -> IndexPage.type f <> TLabel ->
                             IndexPage.required f = Some true).
    { intros f Hf Hty. apply elem_of_three in Hf as [-> | [-> | ->] ];
        [by destruct Hty | reflexivity | reflexivity]. }
    destruct (proj2 C9_empty_values_report_every_input_field Intake.formM Hreq)
      as (Hall & _ & Hlabel).
    split; [|split].
    + apply (Hall Intake.nameM); [|discriminate|reflexivity].
      apply list_elem_of_further, list_elem_of_here.
    + apply (Hall Intake.colourM); [|discriminate|reflexivity].
      do 2 apply list_elem_of_further. apply list_elem_of_here.
    + apply (Hlabel Intake.headingM); [apply list_elem_of_here | reflexivity |].
      intros g Hg Hty. apply elem_of_three in Hg as [-> | [-> | ->] ];
        [by destruct Hty | discriminate | discriminate].
Defined.

(** ** Valid to save *)

Lemma isBlank_false_iff s : Js.isBlank s = false <-> nonBlank s.
Proof.
  unfold nonBlank. induction s as [|c s IH]; cbn [Js.isBlank list_ascii_of_string].
  - split; [discriminate|]. intros (c & Hc & _). by apply elem_of_nil in Hc.
  - rewrite andb_false_iff, IH. split.
    + intros [Hc|(d & Hd & Hw)].
      * exists c. split; [apply list_elem_of_here | exact Hc].
      * exists d. split; [by apply list_elem_of_further | exact Hw].
    + intros (d & Hd & Hw). apply elem_of_cons in Hd as [->|Hd]; [by left|].
      right. eauto.
Qed.

Lemma length_pos_iff {A} (l : list A) : (0 <? length l)%nat = true <-> l <> [].
Proof. destruct l; cbn; split; (done || discriminate). Qed.

(** [isTemplateValid] of the first builder decides "valid to save". *)
Lemma isTemplateValid_iff {A} (t : FormTemplate A) :
  TemplateBuilder.isTemplateValid t = true <-> validToSave t.
Proof.
  unfold TemplateBuilder.isTemplateValid, validToSave.
  rewrite !andb_true_iff, negb_true_iff, isEmpty_trim, isBlank_false_iff,
    length_pos_iff, existsb_exists.
  split.
  - intros [[Hname Hsec] (s & Hin & Hs)]. split; [done|]. split; [done|].
    exists s. split; [by apply list_elem_of_In | by apply length_pos_iff].
  - intros (Hname & Hsec & s & Hin & Hs). split; [done|].
    exists s. split; [by apply list_elem_of_In | by apply length_pos_iff].
Qed.

(** [handleSave] of the first builder saves exactly the working copies that
    are valid to save, and leaves the whole application alone otherwise. *)
Lemma TemplateBuilder_handleSave_gate now (w : TemplateBuilder.World) :
  let cur := TemplateBuilder.currentTemplate (TemplateBuilder.session w) in
  (validToSave cur ->
   TemplateBuilder.handleSave now w
   = TemplateBuilder.mkWorld (AppContext.saveTemplate cur now (TemplateBuilder.app w))
                             ViewList (TemplateBuilder.session w))
  /\ (~ validToSave cur -> TemplateBuilder.handleSave now w = w).
Proof.
  cbn zeta. unfold TemplateBuilder.handleSave.
  destruct (TemplateBuilder.isTemplateValid _) eqn:Hvalid; cbn [negb].
  - apply isTemplateValid_iff in Hvalid. split; [reflexivity | done].
  - split; [|reflexivity]. intros H. apply isTemplateValid_iff in H. congruence.
Qed.

(** [handleSave] of the single-file builder only looks at the name and at the
    number of sections. *)
Lemma IndexPage_handleSave_gate (t : FormTemplate IndexPage.FormField) now a :
  (nonBlank (t_name t) /\ t_sections t <> [] ->
   IndexPage.handleSave t now a = IndexPage.raise IndexPage.saved (IndexPage.onSave t now a))
  /\ (~ nonBlank (t_name t) ->
      IndexPage.handleSave t now a = IndexPage.raise IndexPage.nameRequired a)
  /\ (nonBlank (t_name t) -> t_sections t = [] ->
      IndexPage.handleSave t now a = IndexPage.raise IndexPage.sectionRequired a).
Proof.
  unfold IndexPage.handleSave. rewrite isEmpty_trim.
  destruct (Js.isBlank (t_name t)) eqn:Hname.
  - assert (~ nonBlank (t_name t)) by (rewrite <- isBlank_false_iff; congruence).
    split; [tauto|]. split; [done | tauto].
  - apply isBlank_false_iff in Hname.
    destruct (t_sections t) as [|s ss]; cbn.
    + split; [intros [_ H]; by destruct H|]. split; [tauto | done].
    + split; [done|]. split; [tauto | discriminate].
Qed.

(** C5, on the single-file builder of [part_000]: the working copy has a
    name and one section with no field, so it is not valid to save (and
    [isTemplateValid] says so), yet [handleSave] does not refuse it: the
    template is stored, the success toast is raised and the list is shown. *)
Theorem C5_IndexPage_handleSave_stores_fieldless_template :
  let t : FormTemplate IndexPage.FormField := Sessions.hollow in
  let a' := IndexPage.handleSave t "2024-06-01" Sessions.appM in
  ~ validToSave t
  /\ TemplateBuilder.isTemplateValid t = false
  /\ IndexPage.templates (IndexPage.ctx a') = [t]
  /\ IndexPage.toasts (IndexPage.ctx a') = [IndexPage.saved]
  /\ IndexPage.currentView a' = ViewList.
Proof.
  cbn zeta. split.
  - intros (_ & _ & s & Hs & Hfields). apply elem_of_singleton_list in Hs as ->.
    by apply Hfields.
  - repeat split; reflexivity.
Qed.

(** ** Leaving the builder *)

(** Save-and-exit always shows the list; with a working copy that is not
    valid to save nothing reaches the repository, so the edits are dropped. *)
Lemma saveAndExit_invalid now (w : TemplateBuilder.World) :
  ~ validToSave (TemplateBuilder.currentTemplate (TemplateBuilder.session w)) ->
  TemplateBuilder.saveAndExit now w = TemplateBuilder.discardAndExit w.
Proof.
  intros H. unfold TemplateBuilder.saveAndExit.
  by rewrite (proj2 (TemplateBuilder_handleSave_gate now w) H).
Qed.

(** With a working copy that is valid to save, save-and-exit does save. *)
Lemma saveAndExit_valid now (w : TemplateBuilder.World) :
  validToSave (TemplateBuilder.currentTemplate (TemplateBuilder.session w)) ->
  TemplateBuilder.app (TemplateBuilder.saveAndExit now w)
  = AppContext.saveTemplate (TemplateBuilder.currentTemplate (TemplateBuilder.session w))
                            now (TemplateBuilder.app w).
Proof.
  intros H. unfold TemplateBuilder.saveAndExit.
  by rewrite (proj1 (TemplateBuilder_handleSave_gate now w) H).
Qed.

Lemma saveAndExit_leaves now (w : TemplateBuilder.World) :
  TemplateBuilder.currentView (TemplateBuilder.saveAndExit now w) = ViewList.
Proof. reflexivity. Qed.

(** C6, on the dialog of [TemplateBuilder.tsx]: the working copy has a blank
    name, so it is not valid to save, and it differs from the original, so
    [handleBack] opens the dialog and the builder stays.  Choosing
    save-and-exit then makes no repository call, as the claim says, but the
    list is shown all the same: the session is left and the edits are gone,
    exactly as with discard-and-exit. *)
Theorem C6_saveAndExit_leaves_without_saving :
  let w := Sessions.world in
  let w' := TemplateBuilder.saveAndExit "2024-06-01" w in
  TemplateBuilder.isTemplateValid
    (TemplateBuilder.currentTemplate (TemplateBuilder.session w)) = false
  /\ TemplateBuilder.isDirty
       (TemplateBuilder.currentTemplate (TemplateBuilder.session w))
       (TemplateBuilder.originalTemplate (TemplateBuilder.session w)) = true
  /\ TemplateBuilder.handleBack w = w
  /\ TemplateBuilder.currentView w = ViewBuilder
  /\ TemplateBuilder.app w' = TemplateBuilder.app w
  /\ TemplateBuilder.currentView w' = ViewList
  /\ w' = TemplateBuilder.discardAndExit w.
Proof. cbn zeta. repeat split; vm_compute; reflexivity. Qed.

(** ** Adding a field *)

Lemma lookup_map {A B} (f : A -> B) (l : list A) i : map f l !! i = f <$> l !! i.
Proof.
  revert i. induction l as [|x l IH]; intros [|i]; cbn; [done..|]. apply IH.
Qed.

(** C7, as stated, fails: for a label whose partial spec leaves [labelStyle]
    out, both builders construct a field without a label style, not with
    [h2]; and for a text field whose spec leaves [required] out, the first
    builder constructs a field that is not required. *)
Lemma C7_addField_fills_no_label_style :
  p_type Specs.labelSpec = Some TLabel
  /\ p_labelStyle Specs.labelSpec = None
  /\ f_labelStyle (TemplateBuilder.completeField Specs.labelSpec "1718000000000") = None
  /\ f_labelStyle (TemplateBuilder2.completeField Specs.labelSpec "1718000000000") = None
  /\ p_type Specs.textSpec = Some TText
  /\ p_required Specs.textSpec = None
  /\ f_required (TemplateBuilder.completeField Specs.textSpec "1718000000000")
     = Some false.
Proof. repeat split; reflexivity. Qed.

(** What the palette hands over: the type asked for, [required] set for
    everything but a label, and [h2] on a label. *)
Lemma handleAddField_spec type nowMs answer spec :
  FieldTypeSelector.handleAddField type nowMs answer = Some spec ->
  p_type spec = Some type
  /\ p_required spec = Some (negb (bool_decide (type = TLabel)))
  /\ (type = TLabel -> p_labelStyle spec = Some H2)
  /\ (type <> TLabel -> p_labelStyle spec = None).
Proof.
  unfold FieldTypeSelector.handleAddField. destruct type.
  - intros [= <-]. by cbn.
  - intros [= <-]. by cbn.
  - intros [= <-]. by cbn.
  - intros [= <-]. by cbn.
  - destruct answer as [opts|]; [|discriminate].
    destruct (Js.isEmpty opts); [discriminate|]. intros [= <-]. by cbn.
Qed.

(** C7, amended.  [addFieldToSection] copies [labelStyle] from the partial
    spec as it is (a style that is left out stays unset) and keeps a
    [required] the spec gives; the second builder sets a [required] that is
    left out to [true].  The defaults come from the caller: a spec made by the
    palette carries [required] for every type but label and [h2] for a label,
    so the field built from it is required unless it is a label, and a label
    has style [h2].  In both builders the completed field is appended at the
    end of the field list of the section with the given id; a section with
    another id stays as it is. *)
Theorem C7_addField_copies_spec_and_appends :
  forall (sectionId nowMs : string) (field : PartialField) (prev : Template)
         (i : nat) (section : FormSection FormField),
    t_sections prev !! i = Some section ->
    let f1 := TemplateBuilder.completeField field nowMs in
    let f2 := TemplateBuilder2.completeField field nowMs in
    let t1 := TemplateBuilder.addFieldToSection sectionId field nowMs prev in
    let t2 := TemplateBuilder2.addFieldToSection sectionId field nowMs prev in
    (f_labelStyle f1 = p_labelStyle field /\ f_labelStyle f2 = p_labelStyle field)
    /\ (forall b, p_required field = Some b ->
                   f_required f1 = Some b /\ f_required f2 = Some b)
    /\ (p_required field = None -> f_required f2 = Some true)
    /\ (forall type ms answer,
           FieldTypeSelector.handleAddField type ms answer = Some field ->
           f_type f1 = type /\ f_type f2 = type
           /\ (type <> TLabel -> f_required f1 = Some true /\ f_required f2 = Some true)
           /\ (type = TLabel -> f_labelStyle f1 = Some H2 /\ f_labelStyle f2 = Some H2))
    /\ (s_id section = sectionId ->
        t_sections t1 !! i = Some (withFields section (s_fields section ++ [f1]))
        /\ t_sections t2 !! i = Some (withFields section (s_fields section ++ [f2])))
    /\ (s_id section <> sectionId ->
        t_sections t1 !! i = Some section /\ t_sections t2 !! i = Some section)
    /\ length (t_sections t1) = length (t_sections prev)
    /\ length (t_sections t2) = length (t_sections prev).
Proof.
  intros sectionId nowMs field prev i section Hi f1 f2 t1 t2.
  split; [by split|]. split.
  { intros b Hb. subst f1 f2.
    unfold TemplateBuilder.completeField, TemplateBuilder2.completeField.
    cbn [f_required]. by rewrite Hb. }
  split.
  { intros Hnone. subst f2. unfold TemplateBuilder2.completeField.
    cbn [f_required]. by rewrite Hnone. }
  split.
  { intros type ms answer Hspec.
    apply handleAddField_spec in Hspec as (Hty & Hreq & Hlabel & _).
    subst f1 f2. unfold TemplateBuilder.completeField, TemplateBuilder2.completeField.
    cbn [f_type f_required f_labelStyle]. rewrite Hty, Hreq. cbn [default].
    split; [done|]. split; [done|]. split.
    - intros Hne. by rewrite bool_decide_eq_false_2.
    - intros ->. by rewrite Hlabel. }
  subst t1 t2. unfold TemplateBuilder.addFieldToSection, TemplateBuilder2.addFieldToSection.
  cbn [t_sections TemplateBuilder.withSections]. rewrite !lookup_map, Hi, !length_map.
  cbn [fmap option_fmap option_map].
  split; [|split; [|by split]].
  - intros ->. by rewrite String.eqb_refl.
  - intros Hne. apply String.eqb_neq in Hne. by rewrite Hne.
Qed.

(** C7 amended, at work: a label added from the palette to the first section
    of the intake form ends up last in that section with style [h2], and the
    second section is untouched. *)
Lemma C7_addField_copies_spec_and_appends_witness :
  exists spec,
    FieldTypeSelector.handleAddField TLabel "1718000000000" None = Some spec
    /\ let t1 := TemplateBuilder.addFieldToSection "s1" spec "1718000000001"
                   Intake.form in
       let f1 := TemplateBuilder.completeField spec "1718000000001" in
       t_sections t1 !! 0
       = Some (mkSection "s1" "Basics" [Intake.heading; Intake.name; f1])
       /\ f_labelStyle f1 = Some H2
       /\ t_sections t1 !! 1 = Some (mkSection "s2" "More" [Intake.colour]).
Proof.
  eexists. split; [reflexivity|]. cbn zeta.
  set (spec := mkPartial _ _ _ _ _ _ _).
  pose proof (C7_addField_copies_spec_and_appends "s1" "1718000000001" spec
                Intake.form 0 _ eq_refl) as (_ & _ & _ & Hpal & Hsame & _).
  pose proof (C7_addField_copies_spec_and_appends "s1" "1718000000001" spec
                Intake.form 1 _ eq_refl) as (_ & _ & _ & _ & _ & Hother & _).
  split; [exact (proj1 (Hsame eq_refl))|]. split.
  - exact (proj1 (proj2 (proj2 (proj2 (Hpal TLabel "1718000000000" None eq_refl))) eq_refl)).
  - apply Hother. discriminate.
Defined.

(** ** Reordering the fields of a section *)

Lemma spliceStart_nonneg len (i : Z) :
  (0 <= i)%Z -> spliceStart len i = Nat.min (Z.to_nat i) len.
Proof.
  intros Hi. unfold spliceStart.
  destruct (Z.ltb_spec i 0); [lia|]. lia.
Qed.

Lemma spliceStart_le len i : spliceStart len i <= len.
Proof. unfold spliceStart. destruct (Z.ltb_spec i 0); lia. Qed.

(** With the source index in range the moved entry is taken out and put back
    at the clamped target position. *)
Lemma reorder_in_range {A} (undef : A) (xs : list A) (from to : Z) x :
  (0 <= from)%Z -> xs !! Z.to_nat from = Some x ->
  reorder undef xs from to
  = take (spliceStart (length (delete (Z.to_nat from) xs)) to)
         (delete (Z.to_nat from) xs)
    ++ x :: drop (spliceStart (length (delete (Z.to_nat from) xs)) to)
                 (delete (Z.to_nat from) xs).
Proof.
  intros Hfrom Hx. pose proof (lookup_lt_Some _ _ _ Hx) as Hlt.
  unfold reorder, splice. rewrite (spliceStart_nonneg _ _ Hfrom).
  rewrite (Nat.min_l (Z.to_nat from)) by lia.
  replace (Nat.min 1 (length xs - Z.to_nat from)) with 1 by lia.
  rewrite (drop_S _ _ _ Hx). cbn [take hd app snd].
  rewrite Nat.add_1_r, <- !(delete_take_drop xs (Z.to_nat from)).
  cbn [Nat.min]. by rewrite Nat.add_0_r.
Qed.

Lemma reorder_permutation {A} (undef : A) (xs : list A) (from to : Z) x :
  (0 <= from)%Z -> xs !! Z.to_nat from = Some x ->
  Permutation xs (reorder undef xs from to).
Proof.
  intros Hfrom Hx. rewrite (reorder_in_range undef xs from to x Hfrom Hx).
  set (nf := delete (Z.to_nat from) xs). set (k := spliceStart (length nf) to).
  rewrite <- Permutation_middle, take_drop.
  rewrite <- (take_drop_middle xs (Z.to_nat from) x Hx) at 1.
  rewrite <- Permutation_middle. subst nf. by rewrite delete_take_drop.
Qed.

(** Dropping a field where it was picked up changes nothing. *)
Lemma reorder_same_index {A} (undef : A) (xs : list A) (from : Z) x :
  (0 <= from)%Z -> xs !! Z.to_nat from = Some x ->
  reorder undef xs from from = xs.
Proof.
  intros Hfrom Hx. pose proof (lookup_lt_Some _ _ _ Hx) as Hlt.
  rewrite (reorder_in_range undef xs from from x Hfrom Hx).
  rewrite (spliceStart_nonneg _ _ Hfrom), length_delete by eauto.
  rewrite (Nat.min_l (Z.to_nat from) (length xs - 1)) by lia.
  rewrite delete_take_drop.
  rewrite take_app_length' by (rewrite length_take; lia).
  rewrite drop_app_length' by (rewrite length_take; lia).
  by apply take_drop_middle.
Qed.

(** A target index at or past the last position puts the field last. *)
Lemma reorder_past_the_end {A} (undef : A) (xs : list A) (from to : Z) x :
  (0 <= from)%Z -> xs !! Z.to_nat from = Some x ->
  (Z.of_nat (length xs) - 1 <= to)%Z ->
  reorder undef xs from to = delete (Z.to_nat from) xs ++ [x].
Proof.
  intros Hfrom Hx Hto. pose proof (lookup_lt_Some _ _ _ Hx) as Hlt.
  rewrite (reorder_in_range undef xs from to x Hfrom Hx).
  rewrite spliceStart_nonneg by lia. rewrite length_delete by eauto.
  rewrite (Nat.min_r (Z.to_nat to) (length xs - 1)) by lia.
  rewrite take_ge, drop_ge by (rewrite length_delete by eauto; lia). done.
Qed.

(** A source index at or past the end takes nothing out, and [undefined] is
    inserted at the target position: the array grows by one entry. *)
Lemma reorder_from_past_the_end {A} (undef : A) (xs : list A) (from to : Z) :
  (Z.of_nat (length xs) <= from)%Z ->
  reorder undef xs from to
  = take (spliceStart (length xs) to) xs ++ undef :: drop (spliceStart (length xs) to) xs.
Proof.
  intros Hfrom. unfold reorder, splice.
  rewrite (spliceStart_nonneg _ from) by lia.
  rewrite (Nat.min_r (Z.to_nat from) (length xs)) by lia.
  rewrite Nat.sub_diag. cbn [Nat.min]. rewrite drop_all. cbn [take hd app snd].
  by rewrite !Nat.add_0_r, drop_all, app_nil_r, firstn_all.
Qed.

Lemma section_of_id {A} (ss : list (FormSection A)) (s s0 : FormSection A) :
  NoDup (map s_id ss) -> s ∈ ss -> s0 ∈ ss -> s_id s = s_id s0 -> s = s0.
Proof.
  intros Hnd Hs Hs0 Hid.
  apply list_elem_of_lookup in Hs as [i Hi]. apply list_elem_of_lookup in Hs0 as [j Hj].
  assert (i = j) as ->.
  { eapply (NoDup_lookup _ i j _ Hnd); rewrite lookup_map; [by rewrite Hi|].
    by rewrite Hj, Hid. }
  congruence.
Qed.

Lemma template_eta {A} (t : FormTemplate A) :
  mkTemplate (t_id t) (t_name t) (t_sections t) (t_createdAt t) (t_updatedAt t) = t.
Proof. by destruct t. Qed.

Lemma section_eta {A} (s : FormSection A) : withFields s (s_fields s) = s.
Proof. by destruct s. Qed.

(** A drop inside one section, with section ids that are distinct: the
    handler of [TemplateBuilder.tsx] and the one of [part_000] agree. *)
Lemma handlers_agree {A} (undef : A) (t : FormTemplate A) src from to :
  NoDup (map s_id (t_sections t)) ->
  TemplateBuilder.handleDragEnd undef t
    (mkDrop (mkLocation src from) (Some (mkLocation src to)))
  = IndexPage.onDragEnd undef t
      (mkDrop (mkLocation src from) (Some (mkLocation src to))).
Proof.
  intros Hnd. unfold TemplateBuilder.handleDragEnd, IndexPage.onDragEnd.
  cbn [destination source droppableId index]. rewrite String.eqb_refl.
  destruct (List.find _ _) as [s0|] eqn:Hfind.
  - apply List.find_some in Hfind as [Hin Hid]. apply String.eqb_eq in Hid.
    apply list_elem_of_In in Hin.
    unfold TemplateBuilder.updateSection, TemplateBuilder.withSections. f_equal.
    apply List.map_ext_in. intros s Hs. apply list_elem_of_In in Hs.
    cbn [s_id withFields]. rewrite Hid.
    destruct (String.eqb_spec (s_id s) src) as [Heq|]; [|reflexivity].
    assert (s = s0) as -> by (apply (section_of_id _ _ _ Hnd Hs Hin); congruence).
    reflexivity.
  - rewrite <- (template_eta t) at 1. f_equal.
    rewrite <- (List.map_id (t_sections t)) at 1.
    apply List.map_ext_in. intros s Hs.
    by rewrite (List.find_none _ _ Hfind s Hs).
Qed.

(** A drop whose source names no section of the template changes nothing. *)
Lemma drop_from_unknown_section {A} (undef : A) (t : FormTemplate A) src dest :
  Forall (fun section => s_id section <> droppableId src) (t_sections t) ->
  IndexPage.onDragEnd undef t (mkDrop src (Some dest)) = t
  /\ TemplateBuilder.handleDragEnd undef t (mkDrop src (Some dest)) = t.
Proof.
  intros Hunknown.
  assert (Hfalse : forall s, In s (t_sections t) ->
                             String.eqb (s_id s) (droppableId src) = false).
  { intros s Hs. apply String.eqb_neq.
    by apply (proj1 (Forall_forall _ _) Hunknown), list_elem_of_In. }
  split.
  - unfold IndexPage.onDragEnd. cbn [destination source].
    destruct t as [i n ss c u]. cbn [t_id t_name t_sections t_createdAt t_updatedAt] in *.
    f_equal. rewrite <- (List.map_id ss) at 2.
    apply List.map_ext_in. intros s Hs. by rewrite (Hfalse s Hs).
  - unfold TemplateBuilder.handleDragEnd. cbn [destination source].
    destruct (String.eqb _ (droppableId dest)); [|reflexivity].
    destruct (List.find _ _) as [s0|] eqn:Hfind; [|reflexivity].
    apply List.find_some in Hfind as [Hin Hid]. by rewrite (Hfalse s0 Hin) in Hid.
Qed.

Lemma onDragEnd_lookup {A} (undef : A) (t : FormTemplate A) src from dest j :
  t_sections (IndexPage.onDragEnd undef t (mkDrop (mkLocation src from) (Some dest))) !! j
  = (fun section =>
       if String.eqb (s_id section) src
       then withFields section (reorder undef (s_fields section) from (index dest))
       else section) <$> t_sections t !! j.
Proof. unfold IndexPage.onDragEnd. cbn. apply lookup_map. Qed.

(** C8, as stated, fails.  Dropping the first of three fields at index 9
    moves it to the end in both handlers, and a source index of 7 puts an
    [undefined] entry into the list: neither leaves the fields unchanged. *)
Lemma C8_out_of_range_index_changes_the_fields :
  let t := slotTemplate Drops.form in
  let h := Some Intake.heading in
  let n := Some Intake.name in
  let c := Some Intake.colour in
  map s_fields (t_sections t) = [[h; n; c]]
  /\ map s_fields (t_sections (TemplateBuilder.handleDragEnd None t Drops.far))
     = [[n; c; h]]
  /\ map s_fields (t_sections (IndexPage.onDragEnd None t Drops.far)) = [[n; c; h]]
  /\ map s_fields (t_sections (TemplateBuilder.handleDragEnd None t Drops.stale))
     = [[h; None; n; c]]
  /\ map s_fields (t_sections (IndexPage.onDragEnd None t Drops.stale))
     = [[h; None; n; c]]
  /\ TemplateBuilder.handleDragEnd None t Drops.far <> t
  /\ IndexPage.onDragEnd None t Drops.far <> t.
Proof. cbn zeta. repeat split; try reflexivity; discriminate. Qed.

(** C8, amended.  A drop never throws.  With the source index in range, the
    section keeps exactly its fields: the new list is a permutation of the old
    one, it is the old one when the field is dropped where it was, and a
    target index at or past the last position puts the field last.  The id
    and title of the section, and every other section, are unchanged.  With
    distinct section ids the two handlers agree. *)
Theorem C8_drop_in_range_permutes_the_fields :
  forall (A : Type) (undef : A) (t : FormTemplate A) (from to : Z) (i : nat)
         (section : FormSection A) (x : A),
    NoDup (map s_id (t_sections t)) ->
    t_sections t !! i = Some section ->
    (0 <= from)%Z -> s_fields section !! Z.to_nat from = Some x ->
    let r := mkDrop (mkLocation (s_id section) from)
                    (Some (mkLocation (s_id section) to)) in
    let t' := IndexPage.onDragEnd undef t r in
    let fs' := reorder undef (s_fields section) from to in
    TemplateBuilder.handleDragEnd undef t r = t'
    /\ t_sections t' !! i = Some (withFields section fs')
    /\ Permutation (s_fields section) fs'
    /\ (to = from -> t' = t)
    /\ ((Z.of_nat (length (s_fields section)) - 1 <= to)%Z ->
        fs' = delete (Z.to_nat from) (s_fields section) ++ [x])
    /\ (forall j other, j <> i -> t_sections t !! j = Some other ->
                        t_sections t' !! j = Some other)
    /\ length (t_sections t') = length (t_sections t).
Proof.
  intros A undef t from to i section x Hnd Hi Hfrom Hx r t' fs'.
  assert (Hother : forall j other, j <> i -> t_sections t !! j = Some other ->
                                   t_sections t' !! j = Some other).
  { intros j other Hji Hj. subst t' r. rewrite onDragEnd_lookup, Hj.
    cbn [fmap option_fmap option_map].
    destruct (String.eqb_spec (s_id other) (s_id section)) as [Heq|]; [|reflexivity].
    exfalso. apply Hji.
    eapply (NoDup_lookup _ j i _ Hnd); rewrite lookup_map; [by rewrite Hj|].
    by rewrite Hi, Heq. }
  assert (Hsame : t_sections t' !! i = Some (withFields section fs')).
  { subst t' r. rewrite onDragEnd_lookup, Hi. cbn [fmap option_fmap option_map].
    by rewrite String.eqb_refl. }
  split; [by apply handlers_agree|]. split; [exact Hsame|].
  split; [by eapply reorder_permutation|]. split; [|split; [|split]].
  - intros ->. subst fs'.
    rewrite <- (template_eta t). subst t' r. unfold IndexPage.onDragEnd.
    cbn [destination source droppableId index]. f_equal.
    rewrite <- (List.map_id (t_sections t)) at 2.
    apply List.map_ext_in. intros s Hs. apply list_elem_of_In in Hs.
    destruct (String.eqb_spec (s_id s) (s_id section)) as [Heq|]; [|reflexivity].
    assert (s = section) as ->.
    { apply (section_of_id _ _ _ Hnd Hs); [|exact Heq].
      apply list_elem_of_lookup. eauto. }
    by rewrite (reorder_same_index undef _ from x Hfrom Hx), section_eta.
  - intros Hto. by apply reorder_past_the_end.
  - exact Hother.
  - subst t' r. unfold IndexPage.onDragEnd. cbn. by rewrite length_map.
Qed.

(** A drop with no destination, or in [TemplateBuilder.tsx] one that ends in
    another section, is ignored. *)
Lemma drop_elsewhere_is_ignored {A} (undef : A) (t : FormTemplate A) src dest :
  TemplateBuilder.handleDragEnd undef t (mkDrop src None) = t
  /\ IndexPage.onDragEnd undef t (mkDrop src None) = t
  /\ (droppableId src <> droppableId dest ->
      TemplateBuilder.handleDragEnd undef t (mkDrop src (Some dest)) = t).
Proof.
  split; [reflexivity|]. split; [reflexivity|].
  intros Hne. unfold TemplateBuilder.handleDragEnd. cbn.
  apply String.eqb_neq in Hne. by rewrite Hne.
Qed.

(** C8 amended, at work: the first of three fields dropped at index 9 ends
    up last, in both handlers. *)
Lemma C8_drop_in_range_permutes_the_fields_witness :
  let t := slotTemplate Drops.form in
  t_sections (IndexPage.onDragEnd None t Drops.far) !! 0
  = Some (mkSection "s1" "Basics"
            [Some Intake.name; Some Intake.colour; Some Intake.heading])
  /\ TemplateBuilder.handleDragEnd None t Drops.far
     = IndexPage.onDragEnd None t Drops.far.
Proof.
  cbn zeta.
  assert (Hnd : NoDup (map s_id (t_sections (slotTemplate Drops.form)))).
  { apply NoDup_singleton. }
  pose proof (C8_drop_in_range_permutes_the_fields (option FormField) None
                (slotTemplate Drops.form) 0 9 0 _ (Some Intake.heading)
                Hnd eq_refl (Z.le_refl 0) eq_refl) as (Hagree & Hsame & _).
  split; [exact Hsame | exact Hagree].
Defined.

(** ** The value slot of a field and the dirty check *)

Lemma Json_eqb_eq (a b : Json) : Json_eqb a b = true -> a = b.
Proof.
  revert a b. fix IHjson 1.
  intros [| x | x | x | xs | xs] [| y | y | y | ys | ys];
    cbn [Json_eqb]; try discriminate.
  - reflexivity.
  - intros H. apply bool_decide_eq_true in H. by subst.
  - intros H. apply bool_decide_eq_true in H. by subst.
  - intros H. apply String.eqb_eq in H. by subst.
  - intros H. f_equal. revert ys H.
    induction xs as [|x xs IH]; intros [|y ys]; try discriminate; [reflexivity|].
    intros H. apply andb_true_iff in H as [Hx Hxs].
    f_equal; [by apply IHjson | by apply IH].
  - intros H. f_equal. revert ys H.
    induction xs as [|[k x] xs IH]; intros [|[l y] ys]; try discriminate; [reflexivity|].
    intros H. apply andb_true_iff in H as [H Hxs]. apply andb_true_iff in H as [Hk Hx].
    apply String.eqb_eq in Hk. subst l.
    f_equal; [f_equal; by apply IHjson | by apply IH].
Qed.

Lemma Json_eqb_refl (a : Json) : Json_eqb a a = true.
Proof.
  revert a. fix IHjson 1.
  intros [| x | x | x | xs | xs]; cbn [Json_eqb].
  - reflexivity.
  - by apply bool_decide_eq_true.
  - by apply bool_decide_eq_true.
  - apply String.eqb_refl.
  - induction xs as [|x xs IH]; [reflexivity|]. by rewrite IHjson, IH.
  - induction xs as [|[k x] xs IH]; [reflexivity|].
    by rewrite String.eqb_refl, IHjson, IH.
Qed.

(** The dirty flag compares the two serializations. *)
Lemma isDirty_false_iff (cur orig : Template) :
  TemplateBuilder.isDirty cur orig = false <-> jsonOfTemplate cur = jsonOfTemplate orig.
Proof.
  unfold TemplateBuilder.isDirty. rewrite negb_false_iff. split.
  - apply Json_eqb_eq.
  - intros ->. apply Json_eqb_refl.
Qed.

(** The serialization of a field has a member [value] exactly when the field
    has a value, and it is that value. *)
Lemma member_value (f : FormField) :
  member "value" (jsonOfField f) = jsonOfValue <$> f_value f.
Proof.
  unfold jsonOfField.
  destruct (f_labelStyle f), (f_options f), (f_required f), (f_value f); reflexivity.
Qed.

Lemma jsonOfValue_inj v w : jsonOfValue v = jsonOfValue w -> v = w.
Proof. destruct v, w; cbn; congruence. Qed.

Lemma map_map_pointwise {A B} (h : A -> B) (g : A -> A) (l : list A) x :
  map h (map g l) = map h l -> x ∈ l -> h (g x) = h x.
Proof.
  induction l as [|y l IH]; intros Heq Hx; [by apply elem_of_nil in Hx|].
  cbn in Heq. injection Heq as Hy Hl.
  apply elem_of_cons in Hx as [->|Hx]; [exact Hy | by apply IH].
Qed.

(** Changing nothing but the value slot of one field makes the working copy
    dirty. *)
Lemma value_change_is_dirty (orig : Template) section f v :
  section ∈ t_sections orig -> f ∈ s_fields section -> f_value f <> Some v ->
  TemplateBuilder.isDirty
    (TemplateBuilder.updateFieldInSection (s_id section) (f_id f) (valueUpdate v) orig)
    orig = true.
Proof.
  intros Hs Hf Hv. apply not_false_iff_true. rewrite isDirty_false_iff.
  unfold jsonOfTemplate, TemplateBuilder.updateFieldInSection.
  cbn [t_id t_name t_sections t_createdAt t_updatedAt TemplateBuilder.withSections].
  intros Heq. injection Heq as Hsections.
  apply (map_map_pointwise _ _ _ section) in Hsections; [|exact Hs].
  cbn beta in Hsections. rewrite String.eqb_refl in Hsections. unfold jsonOfSection in Hsections.
  cbn [s_id s_title s_fields withFields] in Hsections. injection Hsections as Hfields.
  apply (map_map_pointwise _ _ _ f) in Hfields; [|exact Hf].
  cbn beta in Hfields. rewrite String.eqb_refl in Hfields.
  apply (f_equal (member "value")) in Hfields. rewrite !member_value in Hfields.
  cbn in Hfields. destruct (f_value f) as [w|]; [|discriminate].
  injection Hfields as Hw. apply jsonOfValue_inj in Hw. congruence.
Qed.

(** C10: the field [addFieldToSection] of the first builder constructs has a
    [value] attribute, [false] for a boolean field and the empty string for
    any other; its serialization has the member [value] with that content;
    and the dirty check sees the slot: a working copy that differs from the
    original in the value of one field only is dirty, while the original
    itself is not.  Saving a template puts it into the repository and into
    storage with its sections, hence its fields and their values, as they
    are. *)
Theorem C10_added_field_carries_a_value_slot :
  forall (field : PartialField) (nowMs : string) (orig : Template)
         (section : FormSection FormField) (f : FormField) (v : Value)
         (now : string) (s : AppContext.State),
    section ∈ t_sections orig -> f ∈ s_fields section -> f_value f <> Some v ->
    let cf := TemplateBuilder.completeField field nowMs in
    let s' := AppContext.saveTemplate orig now s in
    f_value cf = Some (if bool_decide (f_type cf = TBoolean)
                       then VBoolean false else VString EmptyString)
    /\ member "value" (jsonOfField cf)
       = Some (if bool_decide (f_type cf = TBoolean) then JBool false else JStr EmptyString)
    /\ TemplateBuilder.isDirty
         (TemplateBuilder.updateFieldInSection (s_id section) (f_id f) (valueUpdate v) orig)
         orig = true
    /\ TemplateBuilder.isDirty orig orig = false
    /\ (exists saved, saved ∈ AppContext.templates s'
                       /\ t_sections saved = t_sections orig
                       /\ AppContext.formTemplates (AppContext.localStorage s')
                          = Some (AppContext.templates s')).
Proof.
  intros field nowMs orig section f v now s Hs Hf Hv cf s'.
  assert (Hval : f_value cf = Some (if bool_decide (f_type cf = TBoolean)
                                    then VBoolean false else VString EmptyString)).
  { subst cf. unfold TemplateBuilder.completeField. cbn [f_value f_type].
    by destruct (p_type field) as [[]|]. }
  split; [exact Hval|]. split.
  - rewrite member_value, Hval. cbn. by destruct (bool_decide _).
  - split; [by apply value_change_is_dirty|]. split; [by apply isDirty_false_iff|].
    exists (withUpdatedAt orig now). apply AppContext_saveTemplate_stores.
Qed.

(** C10 at work: a checkbox gets the value [false], a text input the empty
    string, and typing a name into the value slot of field [f1] of the intake
    form makes the form dirty. *)
Lemma C10_added_field_carries_a_value_slot_witness :
  (f_value (TemplateBuilder.completeField Palette.checkbox "1718000000002")
   = Some (VBoolean false)
   /\ member "value"
        (jsonOfField (TemplateBuilder.completeField Palette.checkbox "1718000000002"))
      = Some (JBool false))
  /\ (f_value (TemplateBuilder.completeField Palette.textbox "1718000000002")
      = Some (VString EmptyString)
      /\ member "value"
           (jsonOfField (TemplateBuilder.completeField Palette.textbox "1718000000002"))
         = Some (JStr EmptyString))
  /\ TemplateBuilder.isDirty
       (TemplateBuilder.updateFieldInSection "s1" "f1" (valueUpdate (VString "Ada"))
          Intake.form)
       Intake.form = true.
Proof.
  assert (Hs : mkSection "s1" "Basics" [Intake.heading; Intake.name]
               ∈ t_sections Intake.form) by apply list_elem_of_here.
  assert (Hf : Intake.name ∈ [Intake.heading; Intake.name])
    by apply list_elem_of_further, list_elem_of_here.
  assert (Hv : f_value Intake.name <> Some (VString "Ada")) by discriminate.
  destruct (C10_added_field_carries_a_value_slot Palette.checkbox "1718000000002"
              Intake.form _ _ _ "2024-06-01" Bound.ctx5 Hs Hf Hv)
    as (Hb1 & Hb2 & Hdirty & _).
  destruct (C10_added_field_carries_a_value_slot Palette.textbox "1718000000002"
              Intake.form _ _ _ "2024-06-01" Bound.ctx5 Hs Hf Hv)
    as (Ht1 & Ht2 & _).
  split; [split; [exact Hb1 | exact Hb2]|].
  split; [split; [exact Ht1 | exact Ht2]|]. exact Hdirty.
Defined.

(** * Further properties of the sources *)

(** ** The repository of [AppContext.tsx] *)

Lemma findIndex_first {A} (p : A -> bool) xs i :
  findIndex p xs = Some i ->
  (exists x, xs !! i = Some x /\ p x = true)
  /\ forall j y, j < i -> xs !! j = Some y -> p y = false.
Proof.
  revert i. induction xs as [|x xs IH]; cbn [findIndex]; intros i; [discriminate|].
  destruct (p x) eqn:Hx.
  - intros [= <-]. split; [eauto|]. intros j y Hj. lia.
  - destruct (findIndex p xs) as [k|]; cbn; [|discriminate].
    intros [= <-]. destruct (IH k eq_refl) as [(y & Hy & Hpy) Hbefore].
    split; [eauto|]. intros [|j] z Hj Hz.
    + cbn in Hz. congruence.
    + cbn in Hz. apply (Hbefore j); [lia | done].
Qed.

(** With distinct ids, the index [findIndex] returns for an id is the index
    of the one template that has it. *)
Lemma findIndex_of_id {F} (l : list (FormTemplate F)) (template old : FormTemplate F) i :
  distinctIds l -> l !! i = Some old -> t_id old = t_id template ->
  findIndex (fun t => String.eqb (t_id t) (t_id template)) l = Some i.
Proof.
  intros Hnd Hi Hid.
  destruct (findIndex _ l) as [k|] eqn:Hfind.
  - apply findIndex_first in Hfind as [(x & Hx & Hpx) _].
    apply String.eqb_eq in Hpx. f_equal.
    eapply (NoDup_lookup _ k i _ Hnd); rewrite lookup_map; [by rewrite Hx|].
    rewrite Hi. cbn. congruence.
  - apply findIndex_None in Hfind.
    apply (proj1 (Forall_lookup _ _) Hfind i old) in Hi.
    apply String.eqb_neq in Hi. done.
Qed.

Lemma map_insert_same_key {A B} (f : A -> B) (l : list A) i x y :
  l !! i = Some y -> f x = f y -> map f (<[i := x]> l) = map f l.
Proof.
  revert i. induction l as [|z l IH]; intros [|i] Hi Hf; cbn in *; try done.
  - injection Hi as ->. by rewrite Hf.
  - f_equal. by apply IH.
Qed.

(** Saving a template whose id is already stored replaces that template
    where it stands, stamped with the time of the save: the list keeps its
    length, its ids and every other entry. *)
Theorem AppContext_saveTemplate_updates_in_place :
  forall (template old : Template) (now : string) (s : AppContext.State) (i : nat),
    distinctIds (AppContext.templates s) ->
    AppContext.templates s !! i = Some old ->
    t_id old = t_id template ->
    let l' := AppContext.templates (AppContext.saveTemplate template now s) in
    l' !! i = Some (withUpdatedAt template now)
    /\ length l' = length (AppContext.templates s)
    /\ map t_id l' = map t_id (AppContext.templates s)
    /\ (forall j, j <> i -> l' !! j = AppContext.templates s !! j)
    /\ t_createdAt (withUpdatedAt template now) = t_createdAt template
    /\ t_updatedAt (withUpdatedAt template now) = now.
Proof.
  intros template old now s i Hnd Hi Hid l'. subst l'.
  unfold AppContext.saveTemplate. cbn [AppContext.templates].
  rewrite (findIndex_of_id _ _ _ _ Hnd Hi Hid).
  pose proof (lookup_lt_Some _ _ _ Hi) as Hlt.
  split; [by apply list_lookup_insert_eq|]. split; [by rewrite length_insert|].
  split; [by apply (map_insert_same_key _ _ _ _ old)|].
  split; [|done]. intros j Hj. by apply list_lookup_insert_ne.
Qed.

Lemma AppContext_saveTemplate_updates_in_place_witness :
  map t_name (AppContext.templates
                (AppContext.saveTemplate More.second "2024-06-01" More.ctx4))
  = ["One"; "Two, revised"; "Three"; "Four"]
  /\ AppContext.templates (AppContext.saveTemplate More.second "2024-06-01" More.ctx4) !! 1
     = Some (withUpdatedAt More.second "2024-06-01").
Proof.
  assert (Hnd : distinctIds More.four).
  { unfold distinctIds. apply (bool_decide_unpack _). vm_compute. exact I. }
  destruct (AppContext_saveTemplate_updates_in_place More.second (Bound.tpl "t2" "Two")
              "2024-06-01" More.ctx4 1 Hnd eq_refl eq_refl) as (H1 & _).
  split; [reflexivity | exact H1].
Defined.

Lemma fresh_not_in_ids {F} (template : FormTemplate F) l :
  fresh template l -> t_id template ∉ map t_id l.
Proof.
  intros Hfresh Hin. apply list_elem_of_In, List.in_map_iff in Hin as (t & Hid & Ht).
  apply list_elem_of_In in Ht.
  by apply (proj1 (Forall_forall _ _) Hfresh t Ht).
Qed.

Lemma findIndex_None_fresh {F} (template : FormTemplate F) l :
  findIndex (fun t => String.eqb (t_id t) (t_id template)) l = None -> fresh template l.
Proof.
  intros H. apply findIndex_None in H. eapply Forall_impl; [exact H|].
  intros t Ht. by apply String.eqb_neq.
Qed.

Lemma distinctIds_snoc {F} (l : list (FormTemplate F)) (t : FormTemplate F) :
  distinctIds l -> t_id t ∉ map t_id l -> distinctIds (l ++ [t]).
Proof.
  unfold distinctIds. intros Hnd Hnew. rewrite List.map_app. cbn.
  apply NoDup_app. split; [done|]. split; [|apply NoDup_singleton].
  intros x Hx Hx'. apply elem_of_singleton_list in Hx'. by subst.
Qed.

Lemma distinctIds_sublist {F} (l k : list (FormTemplate F)) :
  k `sublist_of` l -> distinctIds l -> distinctIds k.
Proof.
  unfold distinctIds. intros Hsub Hnd.
  apply (sublist_NoDup _ (map t_id l)); [exact Hnd|]. clear Hnd.
  induction Hsub; cbn; [apply sublist_nil | by apply sublist_skip | by apply sublist_cons].
Qed.

(** The two operations on templates keep the ids distinct and the list
    within the bound of five. *)
Theorem AppContext_repository_invariant :
  forall (template : Template) (now templateId : string) (s : AppContext.State),
    distinctIds (AppContext.templates s) ->
    withinBound (AppContext.templates s) ->
    (distinctIds (AppContext.templates (AppContext.saveTemplate template now s))
     /\ withinBound (AppContext.templates (AppContext.saveTemplate template now s)))
    /\ (distinctIds (AppContext.templates (AppContext.deleteTemplate templateId s))
        /\ withinBound (AppContext.templates (AppContext.deleteTemplate templateId s))).
Proof.
  intros template now templateId s Hnd Hlen. split.
  - unfold AppContext.saveTemplate. cbn [AppContext.templates].
    destruct (findIndex _ _) as [i|] eqn:Hfind.
    + apply findIndex_first in Hfind as [(x & Hx & Hpx) _]. apply String.eqb_eq in Hpx.
      split.
      * unfold distinctIds. by rewrite (map_insert_same_key _ _ _ _ x Hx).
      * unfold withinBound. by rewrite length_insert.
    + apply findIndex_None_fresh in Hfind.
      assert (Hall : distinctIds (AppContext.templates s ++ [withUpdatedAt template now])).
      { apply distinctIds_snoc; [done|]. by apply (fresh_not_in_ids template). }
      destruct (5 <? _)%nat eqn:Hfull.
      * split.
        -- eapply distinctIds_sublist; [|exact Hall]. apply sublist_drop.
        -- unfold withinBound, sliceLast. rewrite length_drop. lia.
      * split; [exact Hall|]. apply Nat.ltb_ge in Hfull. exact Hfull.
  - unfold AppContext.deleteTemplate. cbn [AppContext.templates]. split.
    + eapply distinctIds_sublist; [|exact Hnd]. apply sublist_filter.
    + unfold withinBound in *. etransitivity; [apply length_filter | exact Hlen].
Qed.

Lemma AppContext_repository_invariant_witness :
  distinctIds (AppContext.templates
                 (AppContext.saveTemplate Bound.sixth "2024-06-01" Bound.ctx5))
  /\ withinBound (AppContext.templates
                    (AppContext.saveTemplate Bound.sixth "2024-06-01" Bound.ctx5)).
Proof.
  assert (Hnd : distinctIds (AppContext.templates Bound.ctx5)).
  { unfold distinctIds. apply (bool_decide_unpack _). vm_compute. exact I. }
  assert (Hlen : withinBound (AppContext.templates Bound.ctx5)).
  { unfold withinBound. cbn. lia. }
  exact (proj1 (AppContext_repository_invariant Bound.sixth "2024-06-01" "t1"
                  Bound.ctx5 Hnd Hlen)).
Defined.

Lemma saveTemplate_below_bound (template : Template) now (s : AppContext.State) :
  TemplateList.createEnabled s = true ->
  fresh template (AppContext.templates s) ->
  AppContext.templates (AppContext.saveTemplate template now s)
  = AppContext.templates s ++ [withUpdatedAt template now].
Proof.
  intros Hgate Hfresh. unfold TemplateList.createEnabled in Hgate.
  apply negb_true_iff, Nat.leb_gt in Hgate.
  unfold AppContext.saveTemplate. cbn [AppContext.templates].
  rewrite (fresh_findIndex _ _ Hfresh).
  destruct (5 <? _)%nat eqn:Hfull; [|reflexivity].
  apply Nat.ltb_lt in Hfull. rewrite length_app in Hfull. cbn in Hfull. lia.
Qed.

(** While the create button of the template list is enabled, saving a new
    template loses nothing: the list is the old one with the new template,
    stamped, at its end. *)
Theorem AppContext_create_below_bound_appends :
  forall (template : Template) (now : string) (s : AppContext.State),
    TemplateList.createEnabled s = true ->
    fresh template (AppContext.templates s) ->
    AppContext.templates (AppContext.saveTemplate template now s)
    = AppContext.templates s ++ [withUpdatedAt template now]
    /\ AppContext.submissions (AppContext.saveTemplate template now s)
       = AppContext.submissions s.
Proof.
  intros template now s Hgate Hfresh. split; [|reflexivity].
  by apply saveTemplate_below_bound.
Qed.

Lemma AppContext_create_below_bound_appends_witness :
  map t_id (AppContext.templates
              (AppContext.saveTemplate Bound.sixth "2024-06-01" More.ctx4))
  = ["t1"; "t2"; "t3"; "t4"; "t6"].
Proof.
  assert (Hfresh : fresh Bound.sixth (AppContext.templates More.ctx4)).
  { unfold fresh. repeat constructor; discriminate. }
  destruct (AppContext_create_below_bound_appends Bound.sixth "2024-06-01" More.ctx4
              eq_refl Hfresh) as [H _].
  rewrite H. reflexivity.
Defined.

(** Storage is written through: the state after the mount effect is in step
    with storage, and every operation of the context keeps it so.  Mounting
    again on the storage an operation leaves gives back the state it leaves. *)
Theorem AppContext_storage_stays_in_step :
  forall (st : AppContext.Storage) (s : AppContext.State) (template : Template)
         (now templateId : string) (submission : FormSubmission),
    AppContext.synced s ->
    AppContext.synced (AppContext.load st)
    /\ AppContext.synced (AppContext.saveTemplate template now s)
    /\ AppContext.synced (AppContext.deleteTemplate templateId s)
    /\ AppContext.synced (AppContext.saveSubmission submission s).
Proof.
  intros st s template now templateId submission Hs.
  split; [reflexivity|].
  unfold AppContext.synced, AppContext.load in *.
  destruct s as [ts subs [ft fs]]. cbn in Hs. injection Hs as Hts Hsubs.
  split; [|split].
  - unfold AppContext.saveTemplate. cbn. by rewrite Hsubs.
  - unfold AppContext.deleteTemplate. cbn. by rewrite Hsubs.
  - unfold AppContext.saveSubmission. cbn. by rewrite Hts.
Qed.

Lemma AppContext_storage_stays_in_step_witness :
  AppContext.load
    (AppContext.localStorage (AppContext.saveTemplate Bound.sixth "2024-06-01" More.ctx4))
  = AppContext.saveTemplate Bound.sixth "2024-06-01" More.ctx4.
Proof.
  exact (proj1 (proj2 (AppContext_storage_stays_in_step
                         (AppContext.mkStorage None None) More.ctx4 Bound.sixth
                         "2024-06-01" "t1" (Archive.sub "t1") eq_refl))).
Defined.

Lemma filter_drop_all {A} (p : A -> bool) (xs : list A) :
  Forall (fun x => p x = false) xs -> filter (fun x => p x = true) xs = [].
Proof.
  induction 1 as [|x xs Hx _ IH]; [done|].
  rewrite filter_cons. destruct (decide (p x = true)); [congruence | exact IH].
Qed.

(** In every state, deleting is idempotent and leaves no template with the
    deleted id, and the confirmation of the template list decides whether
    anything is deleted at all.  Deleting also undoes a create: a new
    template saved while the create button is enabled and deleted again
    leaves the list as it was. *)
Theorem AppContext_delete_undoes_create :
  forall (template : Template) (now : string) (s : AppContext.State),
    (forall templateId,
        AppContext.deleteTemplate templateId (AppContext.deleteTemplate templateId s)
        = AppContext.deleteTemplate templateId s
        /\ Forall (fun t => t_id t <> templateId)
                  (AppContext.templates (AppContext.deleteTemplate templateId s))
        /\ TemplateList.handleDelete templateId false s = s
        /\ TemplateList.handleDelete templateId true s
           = AppContext.deleteTemplate templateId s)
    /\ (TemplateList.createEnabled s = true ->
        fresh template (AppContext.templates s) ->
        AppContext.templates
          (AppContext.deleteTemplate (t_id template)
             (AppContext.saveTemplate template now s))
        = AppContext.templates s).
Proof.
  intros template now s. split; [|intros Hgate Hfresh]; cycle 1.
  - pose proof (saveTemplate_below_bound template now s Hgate Hfresh) as H.
    unfold AppContext.deleteTemplate. cbn [AppContext.templates]. rewrite H.
    rewrite filter_app, filter_keep_all.
    + rewrite filter_drop_all; [by rewrite app_nil_r|].
      repeat constructor. cbn. by rewrite String.eqb_refl.
    + eapply Forall_impl; [exact Hfresh|]. intros t Ht. by apply negb_eqb_true.
  - intros templateId. split; [|split; [|split; reflexivity]].
    + unfold AppContext.deleteTemplate. cbn. f_equal.
      * apply filter_keep_all. apply Forall_forall. intros t Ht.
        by apply list_elem_of_filter in Ht as [Ht _].
      * do 2 f_equal. apply filter_keep_all. apply Forall_forall. intros t Ht.
        by apply list_elem_of_filter in Ht as [Ht _].
    + unfold AppContext.deleteTemplate. cbn. apply Forall_forall. intros t Ht.
      apply list_elem_of_filter in Ht as [Ht _]. by apply negb_eqb_true.
Qed.

Lemma AppContext_delete_undoes_create_witness :
  AppContext.templates
    (AppContext.deleteTemplate "t6" (AppContext.saveTemplate Bound.sixth "2024-06-01" More.ctx4))
  = More.four.
Proof.
  assert (Hfresh : fresh Bound.sixth (AppContext.templates More.ctx4)).
  { unfold fresh. repeat constructor; discriminate. }
  exact (proj2 (AppContext_delete_undoes_create Bound.sixth "2024-06-01" More.ctx4)
           eq_refl Hfresh).
Defined.

(** ** The repository of the single-file application *)

(** The repository of [part_000] keeps the ids distinct and the list within
    the bound, and a save is all or nothing: either no toast is raised, or
    the limit toast is raised and the list is untouched. *)
Theorem IndexPage_repository_invariant :
  forall (template : FormTemplate IndexPage.FormField) (now tid : string)
         (s : IndexPage.State),
    distinctIds (IndexPage.templates s) ->
    withinBound (IndexPage.templates s) ->
    let s' := IndexPage.saveTemplate template now s in
    (distinctIds (IndexPage.templates s') /\ withinBound (IndexPage.templates s'))
    /\ (IndexPage.toasts s' = IndexPage.toasts s
        \/ (IndexPage.toasts s' = IndexPage.toasts s ++ [IndexPage.limitReached]
            /\ IndexPage.templates s' = IndexPage.templates s))
    /\ IndexPage.submissions s' = IndexPage.submissions s
    /\ (distinctIds (IndexPage.templates (IndexPage.deleteTemplate tid s))
        /\ withinBound (IndexPage.templates (IndexPage.deleteTemplate tid s))).
Proof.
  intros template now tid s Hnd Hlen s'. subst s'.
  unfold IndexPage.saveTemplate, IndexPage.saveTemplateUpdater.
  destruct (findIndex _ _) as [i|] eqn:Hfind.
  - apply findIndex_first in Hfind as [(x & Hx & Hpx) _]. apply String.eqb_eq in Hpx.
    cbn. rewrite app_nil_r. split; [split|split; [by left|split; [done|]]].
    + unfold distinctIds. by rewrite (map_insert_same_key _ _ _ _ x Hx).
    + unfold withinBound. by rewrite length_insert.
    + split.
      * eapply distinctIds_sublist; [|exact Hnd]. apply sublist_filter.
      * unfold withinBound in *. etransitivity; [apply length_filter | exact Hlen].
  - apply findIndex_None_fresh in Hfind.
    destruct (5 <=? _)%nat eqn:Hfull; cbn.
    + split; [by split|]. split; [by right|]. split; [done|]. split.
      * eapply distinctIds_sublist; [|exact Hnd]. apply sublist_filter.
      * unfold withinBound in *. etransitivity; [apply length_filter | exact Hlen].
    + rewrite app_nil_r. apply Nat.leb_gt in Hfull.
      split; [split|split; [by left|split; [done|]]].
      * apply distinctIds_snoc; [done|]. by apply (fresh_not_in_ids template).
      * unfold withinBound. rewrite length_app. cbn. lia.
      * split.
        -- eapply distinctIds_sublist; [|exact Hnd]. apply sublist_filter.
        -- unfold withinBound in *. etransitivity; [apply length_filter | exact Hlen].
Qed.

Lemma IndexPage_repository_invariant_witness :
  distinctIds (IndexPage.templates
                 (IndexPage.saveTemplate Bound.sixth "2024-06-01" More.stateM))
  /\ withinBound (IndexPage.templates
                    (IndexPage.saveTemplate Bound.sixth "2024-06-01" More.stateM)).
Proof.
  assert (Hnd : distinctIds (IndexPage.templates More.stateM)).
  { unfold distinctIds. apply (bool_decide_unpack _). vm_compute. exact I. }
  assert (Hlen : withinBound (IndexPage.templates More.stateM)).
  { unfold withinBound. cbn. lia. }
  exact (proj1 (IndexPage_repository_invariant Bound.sixth "2024-06-01" "t1"
                  More.stateM Hnd Hlen)).
Defined.

(** What a save does in [part_000] when it is not refused: a template with a
    new id is appended as it is, its [updatedAt] not touched; a template with
    a stored id replaces the stored one where it stands and is stamped. *)
Theorem IndexPage_saveTemplate_create_and_update :
  forall (template : FormTemplate IndexPage.FormField) (now : string)
         (s : IndexPage.State),
    distinctIds (IndexPage.templates s) ->
    let s' := IndexPage.saveTemplate template now s in
    (fresh template (IndexPage.templates s) -> length (IndexPage.templates s) < 5 ->
     IndexPage.templates s' = IndexPage.templates s ++ [template]
     /\ IndexPage.toasts s' = IndexPage.toasts s)
    /\ (forall i old,
           IndexPage.templates s !! i = Some old -> t_id old = t_id template ->
           IndexPage.templates s' = <[i := withUpdatedAt template now]> (IndexPage.templates s)
           /\ IndexPage.toasts s' = IndexPage.toasts s).
Proof.
  intros template now s Hnd s'. subst s'.
  unfold IndexPage.saveTemplate, IndexPage.saveTemplateUpdater. split.
  - intros Hfresh Hlen. rewrite (fresh_findIndex _ _ Hfresh).
    destruct (5 <=? _)%nat eqn:Hfull; [apply Nat.leb_le in Hfull; lia|].
    cbn. by rewrite app_nil_r.
  - intros i old Hi Hid. rewrite (findIndex_of_id _ _ _ _ Hnd Hi Hid).
    cbn. by rewrite app_nil_r.
Qed.

Lemma IndexPage_saveTemplate_create_and_update_witness :
  map t_updatedAt (IndexPage.templates
                     (IndexPage.saveTemplate Bound.sixth "2024-06-01" More.stateM))
  = ["2024-01-01"; "2024-01-01"; "2024-01-01"; "2024-01-01"; "2024-01-01"].
Proof.
  assert (Hnd : distinctIds (IndexPage.templates More.stateM)).
  { unfold distinctIds. apply (bool_decide_unpack _). vm_compute. exact I. }
  assert (Hfresh : fresh Bound.sixth (IndexPage.templates More.stateM)).
  { unfold fresh. repeat constructor; discriminate. }
  destruct (proj1 (IndexPage_saveTemplate_create_and_update Bound.sixth "2024-06-01"
                     More.stateM Hnd) Hfresh) as [H _]; [cbn; lia|].
  rewrite H. reflexivity.
Defined.

(** ** The validators, field by field *)

Section ErrorMapDistinct.

Context {F : Type} (key : F -> string) (verdict : F -> option string).

(** A loop over fields with other ids leaves an id alone. *)
Lemma recordError_other fs acc k :
  Forall (fun f => key f <> k) fs ->
  fold_left (recordError key verdict) fs acc !! k = acc !! k.
Proof.
  intros Hfs. revert acc. induction Hfs as [|f fs Hf _ IH]; intros acc; [reflexivity|].
  cbn [fold_left]. rewrite IH. unfold recordError.
  destruct (verdict f); [by rewrite set_other | reflexivity].
Qed.

(** With distinct ids the entry of a field is its own verdict, unless the
    id is [__proto__]. *)
Lemma recordError_exact fs acc f :
  NoDup (map key fs) -> f ∈ fs -> acc !! key f = None -> key f <> "__proto__" ->
  fold_left (recordError key verdict) fs acc !! key f = verdict f.
Proof.
  intros Hnd. revert acc. induction fs as [|g fs IH]; intros acc Hin Hacc Hkey.
  - by apply elem_of_nil in Hin.
  - cbn [map] in Hnd. apply NoDup_cons in Hnd as [Hg Hnd].
    cbn [fold_left]. apply elem_of_cons in Hin as [<-|Hin].
    + rewrite recordError_other.
      * unfold recordError. destruct (verdict f); [by apply set_same | exact Hacc].
      * apply Forall_forall. intros h Hh Heq. apply Hg. rewrite <- Heq.
        apply list_elem_of_In, List.in_map, list_elem_of_In, Hh.
    + apply IH; [done|done| |done].
      assert (key g <> key f).
      { intros Heq. apply Hg. rewrite Heq.
        apply list_elem_of_In, List.in_map, list_elem_of_In, Hin. }
      unfold recordError. destruct (verdict g); [by rewrite set_other | exact Hacc].
Qed.

End ErrorMapDistinct.

Lemma FormFiller_verdict_skips values f :
  f_type f = TLabel \/ f_required f <> Some true -> FormFiller_verdict values f = None.
Proof.
  intros Hskip. unfold FormFiller_verdict.
  destruct Hskip as [-> | Hreq]; [reflexivity|].
  destruct (f_required f) as [[|]|]; cbn; try done; by rewrite andb_false_r.
Qed.

Lemma IndexPage_verdict_skips formData f :
  IndexPage.type f = TLabel \/ IndexPage.required f <> Some true ->
  IndexPage_verdict formData f = None.
Proof.
  intros Hskip. unfold IndexPage_verdict.
  destruct Hskip as [-> | Hreq]; [reflexivity|].
  destruct (IndexPage.required f) as [[|]|]; cbn; try done; by rewrite andb_false_r.
Qed.

(** In a template whose field ids are distinct, the validator of [part_003]
    reports for each field the outcome of that field's own check; only under
    the id [__proto__] nothing is ever stored.  For a required number field
    holding a text the outcome is: [is required] when the text is blank,
    [must be a valid number] when it does not convert, and nothing otherwise.
    For a required field with no value whose id names a property of
    [Object.prototype] the check reads the inherited function: a number field
    is told that it must be a valid number, any other field passes. *)
Theorem FormFiller_reports_each_field :
  forall (template : Template) (values : gmap string Value) (f : FormField),
    NoDup (map f_id (allFields template)) ->
    f ∈ allFields template ->
    let errs := FormFiller.validationErrors template values in
    errs !! f_id f
    = (if String.eqb (f_id f) "__proto__" then None else FormFiller_verdict values f)
    /\ (f_type f = TLabel \/ f_required f <> Some true -> errs !! f_id f = None)
    /\ (forall v, f_type f = TNumber -> f_required f = Some true ->
                  f_id f <> "__proto__" ->
                  values !! f_id f = Some (VString v) ->
                  errs !! f_id f
                  = if Js.isBlank v then Some (FormFiller.requiredMessage f)
                    else if Js.stringIsNaN v then Some (FormFiller.numberMessage f)
                    else None)
    /\ (f_type f <> TLabel -> f_required f = Some true ->
        values !! f_id f = None -> Obj.inherits (f_id f) = true ->
        FormFiller_verdict values f
        = if bool_decide (f_type f = TNumber) then Some (FormFiller.numberMessage f)
          else None).
Proof.
  intros template values f Hnd Hin errs.
  assert (Hexact : errs !! f_id f
                   = if String.eqb (f_id f) "__proto__" then None
                     else FormFiller_verdict values f).
  { subst errs. rewrite FormFiller_errors_fold.
    destruct (String.eqb_spec (f_id f) "__proto__") as [->|Hkey].
    - apply recordError_proto, lookup_empty.
    - apply recordError_exact; [done|done|apply lookup_empty|done]. }
  split; [exact Hexact|]. split; [|split].
  - intros Hskip. rewrite Hexact, (FormFiller_verdict_skips _ _ Hskip).
    by destruct (String.eqb _ _).
  - intros v Hty Hreq Hkey Hv. rewrite Hexact.
    apply String.eqb_neq in Hkey. rewrite Hkey. unfold FormFiller_verdict.
    rewrite Hty, Hreq, (get_own _ _ _ Hv). cbn. rewrite isEmpty_trim.
    destruct v as [|c v]; [reflexivity|]. cbn [Js.isEmpty orb].
    by destruct (Js.isBlank (String c v)).
  - intros Hty Hreq Hv Hinh. unfold FormFiller_verdict.
    rewrite Hreq, (get_inherited _ _ Hv Hinh).
    destruct (bool_decide_reflect (f_type f = TLabel)); [done|]. cbn.
    by destruct (bool_decide (f_type f = TNumber)).
Qed.

Lemma FormFiller_reports_each_field_witness :
  FormFiller.validationErrors Forms.measures {["height" := VString "12px"]} !! "height"
  = Some "Height must be a valid number"
  /\ FormFiller.validationErrors Forms.measures {["height" := VString "  "]} !! "height"
     = Some "Height is required"
  /\ FormFiller.validationErrors Forms.measures {["height" := VString "42"]} !! "height"
     = None.
Proof.
  assert (Hnd : NoDup (map f_id (allFields Forms.measures))) by apply NoDup_singleton.
  assert (Hin : Forms.height ∈ allFields Forms.measures) by apply list_elem_of_here.
  split; [|split].
  - exact (proj1 (proj2 (proj2 (FormFiller_reports_each_field Forms.measures
                                  {["height" := VString "12px"]} Forms.height Hnd Hin)))
             "12px" eq_refl eq_refl ltac:(discriminate) eq_refl).
  - exact (proj1 (proj2 (proj2 (FormFiller_reports_each_field Forms.measures
                                  {["height" := VString "  "]} Forms.height Hnd Hin)))
             "  " eq_refl eq_refl ltac:(discriminate) eq_refl).
  - exact (proj1 (proj2 (proj2 (FormFiller_reports_each_field Forms.measures
                                  {["height" := VString "42"]} Forms.height Hnd Hin)))
             "42" eq_refl eq_refl ltac:(discriminate) eq_refl).
Defined.

(** The same for the validator of [part_000], which reports a required
    number as missing only when the text is empty: a text of white space
    converts to 0 and passes. *)
Theorem IndexPage_reports_each_field :
  forall (template : FormTemplate IndexPage.FormField) (formData : gmap string Value)
         (f : IndexPage.FormField),
    NoDup (map IndexPage.id (allFields template)) ->
    f ∈ allFields template ->
    let errs := fst (IndexPage.validateForm template formData) in
    errs !! IndexPage.id f
    = (if String.eqb (IndexPage.id f) "__proto__" then None
       else IndexPage_verdict formData f)
    /\ (IndexPage.type f = TLabel \/ IndexPage.required f <> Some true ->
        errs !! IndexPage.id f = None)
    /\ (forall v, IndexPage.type f = TNumber -> IndexPage.required f = Some true ->
                  IndexPage.id f <> "__proto__" ->
                  formData !! IndexPage.id f = Some (VString v) ->
                  errs !! IndexPage.id f
                  = if Js.isEmpty v then Some IndexPage.requiredMessage
                    else if Js.stringIsNaN v then Some IndexPage.numberMessage
                    else None)
    /\ (IndexPage.type f <> TLabel -> IndexPage.required f = Some true ->
        formData !! IndexPage.id f = None -> Obj.inherits (IndexPage.id f) = true ->
        IndexPage_verdict formData f
        = if bool_decide (IndexPage.type f = TNumber) then Some IndexPage.numberMessage
          else None).
Proof.
  intros template formData f Hnd Hin errs.
  assert (Hexact : errs !! IndexPage.id f
                   = if String.eqb (IndexPage.id f) "__proto__" then None
                     else IndexPage_verdict formData f).
  { subst errs. rewrite IndexPage_errors_fold.
    destruct (String.eqb_spec (IndexPage.id f) "__proto__") as [->|Hkey].
    - apply recordError_proto, lookup_empty.
    - apply recordError_exact; [done|done|apply lookup_empty|done]. }
  split; [exact Hexact|]. split; [|split].
  - intros Hskip. rewrite Hexact, (IndexPage_verdict_skips _ _ Hskip).
    by destruct (String.eqb _ _).
  - intros v Hty Hreq Hkey Hv. rewrite Hexact.
    apply String.eqb_neq in Hkey. rewrite Hkey. unfold IndexPage_verdict.
    rewrite Hty, Hreq, (get_own _ _ _ Hv). cbn. by destruct (Js.isEmpty v).
  - intros Hty Hreq Hv Hinh. unfold IndexPage_verdict.
    rewrite Hreq, (get_inherited _ _ Hv Hinh).
    destruct (bool_decide_reflect (IndexPage.type f = TLabel)); [done|]. cbn.
    by destruct (bool_decide (IndexPage.type f = TNumber)).
Qed.

Lemma IndexPage_reports_each_field_witness :
  fst (IndexPage.validateForm Forms.measuresM {["height" := VString "12px"]}) !! "height"
  = Some "Please enter a valid number"
  /\ fst (IndexPage.validateForm Forms.measuresM {["height" := VString "  "]}) !! "height"
     = None
  /\ fst (IndexPage.validateForm Forms.measuresM {["height" := VString EmptyString]})
       !! "height"
     = Some "This field is required".
Proof.
  assert (Hnd : NoDup (map IndexPage.id (allFields Forms.measuresM)))
    by apply NoDup_singleton.
  assert (Hin : Forms.heightM ∈ allFields Forms.measuresM) by apply list_elem_of_here.
  split; [|split].
  - exact (proj1 (proj2 (proj2 (IndexPage_reports_each_field Forms.measuresM
                                  {["height" := VString "12px"]} Forms.heightM Hnd Hin)))
             "12px" eq_refl eq_refl ltac:(discriminate) eq_refl).
  - exact (proj1 (proj2 (proj2 (IndexPage_reports_each_field Forms.measuresM
                                  {["height" := VString "  "]} Forms.heightM Hnd Hin)))
             "  " eq_refl eq_refl ltac:(discriminate) eq_refl).
  - exact (proj1 (proj2 (proj2 (IndexPage_reports_each_field Forms.measuresM
                                  {["height" := VString EmptyString]} Forms.heightM
                                  Hnd Hin)))
             EmptyString eq_refl eq_refl ltac:(discriminate) eq_refl).
Defined.

Lemma IndexPage_validateField_flag formData acc f :
  snd (IndexPage.validateField formData acc f)
  = match IndexPage_verdict formData f with Some _ => false | None => snd acc end.
Proof.
  unfold IndexPage.validateField, IndexPage_verdict. destruct acc as [errs ok].
  cbn [snd]. destruct (negb _ && _); [|reflexivity].
  cbn zeta. destruct (_ && _ && _); [reflexivity|]. by destruct (_ && _).
Qed.

(** The flag is cleared by the first field that fails its check. *)
Lemma validateForm_flag_verdicts (template : FormTemplate IndexPage.FormField)
    (formData : gmap string Value) :
  snd (IndexPage.validateForm template formData) = true
  <-> forall f, f ∈ allFields template -> IndexPage_verdict formData f = None.
Proof.
  unfold IndexPage.validateForm, allFields. rewrite fold_left_sections.
  assert (Hinv : forall fs (acc : gmap string string * bool),
             snd (fold_left (IndexPage.validateField formData) fs acc) = true
             <-> snd acc = true
                 /\ forall f, f ∈ fs -> IndexPage_verdict formData f = None).
  { induction fs as [|g fs IH]; intros acc; cbn [fold_left].
    - split; [|by intros [? _]]. intros Hacc. split; [done|].
      intros f Hf. by apply elem_of_nil in Hf.
    - rewrite IH, IndexPage_validateField_flag. split.
      + intros [Hsnd Hall].
        destruct (IndexPage_verdict formData g) eqn:Hg; [discriminate|].
        split; [done|]. intros f Hf.
        apply elem_of_cons in Hf as [->|Hf]; [done | by apply Hall].
      + intros [Hacc Hall]. rewrite (Hall g) by apply list_elem_of_here.
        split; [done|]. intros f Hf. by apply Hall, list_elem_of_further. }
  rewrite Hinv. cbn [snd]. split; [by intros [_ ?] | by split].
Qed.

Lemma validateForm_flag_empty (template : FormTemplate IndexPage.FormField)
    (formData : gmap string Value) :
  snd (IndexPage.validateForm template formData) = true ->
  fst (IndexPage.validateForm template formData) = ∅.
Proof.
  rewrite validateForm_flag_verdicts. intros Hall.
  apply map_empty. intros k. apply not_is_Some_None. intros Hk.
  apply IndexPage_entry_origin in Hk as (f & Hf & _ & [m Hm]).
  rewrite (Hall f Hf) in Hm. discriminate.
Qed.

Lemma validateForm_empty_flag (template : FormTemplate IndexPage.FormField)
    (formData : gmap string Value) :
  (forall f, f ∈ allFields template -> IndexPage.id f <> "__proto__") ->
  fst (IndexPage.validateForm template formData) = ∅ ->
  snd (IndexPage.validateForm template formData) = true.
Proof.
  intros Hkeys Hempty. apply validateForm_flag_verdicts. intros f Hf.
  destruct (IndexPage_verdict formData f) as [m|] eqn:Hv; [|done].
  assert (is_Some (fst (IndexPage.validateForm template formData) !! IndexPage.id f))
    as [x Hx].
  { apply IndexPage_entry_hits; [done| |by apply Hkeys]. rewrite Hv. eauto. }
  rewrite Hempty, lookup_empty in Hx. discriminate.
Qed.

(** The flag [validateForm] of [part_000] returns is true exactly when every
    field of the template passes its own check.  A true flag comes with an
    empty error map; an empty error map comes with a true flag when no field
    has the id [__proto__], the one id under which a failed check leaves no
    entry. *)
Theorem IndexPage_validateForm_flag :
  forall (template : FormTemplate IndexPage.FormField) (formData : gmap string Value),
    (snd (IndexPage.validateForm template formData) = true
     <-> forall f, f ∈ allFields template -> IndexPage_verdict formData f = None)
    /\ (snd (IndexPage.validateForm template formData) = true ->
        fst (IndexPage.validateForm template formData) = ∅)
    /\ ((forall f, f ∈ allFields template -> IndexPage.id f <> "__proto__") ->
        fst (IndexPage.validateForm template formData) = ∅ ->
        snd (IndexPage.validateForm template formData) = true).
Proof.
  intros template formData. split; [apply validateForm_flag_verdicts|].
  split; [apply validateForm_flag_empty | apply validateForm_empty_flag].
Qed.

(** A required number field under the id [__proto__], with no value or
    with the text [abc]: the check fails and clears the flag, and the error
    map stays empty.  The validator of [part_003], which counts the entries,
    accepts, while its button stays disabled. *)
Example proto_entry_is_never_stored :
  let entered : gmap string Value := {["__proto__" := VString "abc"]} in
  IndexPage.validateForm Corner.countedM ∅ = (∅, false)
  /\ IndexPage.validateForm Corner.countedM entered = (∅, false)
  /\ IndexPage_verdict entered Corner.protoM = Some IndexPage.numberMessage
  /\ FormFiller.validateForm Corner.counted ∅ = (∅, true)
  /\ FormFiller.validateForm Corner.counted entered = (∅, true)
  /\ FormFiller.isFormValid Corner.counted entered = false.
Proof. cbn zeta. repeat split; vm_compute; reflexivity. Qed.

(** ** Submitting a form ([part_003]) *)

Lemma forallb_concat {A} (p : A -> bool) (ls : list (list A)) :
  forallb p (concat ls) = forallb (forallb p) ls.
Proof.
  induction ls as [|l ls IH]; [reflexivity|].
  cbn [concat forallb]. by rewrite forallb_app, IH.
Qed.

Lemma isFormValid_fields (template : Template) values :
  FormFiller.isFormValid template values
  = forallb (FormFiller_fieldReady values) (allFields template).
Proof.
  unfold FormFiller.isFormValid, allFields. rewrite forallb_concat.
  induction (t_sections template) as [|s ss IH]; [reflexivity|].
  cbn [map forallb]. by rewrite IH.
Qed.

(** [validateForm] accepts when every field passes its check, and only then
    when no field has the id [__proto__]. *)
Lemma validateForm_passes_accepts (template : Template) values :
  (forall f, f ∈ allFields template -> FormFiller_verdict values f = None) ->
  snd (FormFiller.validateForm template values) = true.
Proof.
  unfold FormFiller.validateForm. cbn [snd].
  rewrite bool_decide_eq_true, map_size_empty_iff.
  intros Hall. apply map_empty. intros k. apply not_is_Some_None. intros Hk.
  apply FormFiller_entry_origin in Hk as (f & Hf & _ & [m Hm]).
  rewrite (Hall f Hf) in Hm. discriminate.
Qed.

Lemma validateForm_accepts_passes (template : Template) values :
  (forall f, f ∈ allFields template -> f_id f <> "__proto__") ->
  snd (FormFiller.validateForm template values) = true ->
  forall f, f ∈ allFields template -> FormFiller_verdict values f = None.
Proof.
  unfold FormFiller.validateForm. cbn [snd].
  rewrite bool_decide_eq_true, map_size_empty_iff.
  intros Hkeys Hempty f Hf.
  destruct (FormFiller_verdict values f) as [m|] eqn:Hv; [|done].
  assert (is_Some (FormFiller.validationErrors template values !! f_id f)) as [x Hx].
  { apply FormFiller_entry_hits; [done| |by apply Hkeys]. rewrite Hv. eauto. }
  rewrite Hempty, lookup_empty in Hx. discriminate.
Qed.

(** The submit button and the submission check of [part_003]: whenever
    [validateForm] accepts, [isFormValid] has enabled the button, as long as
    no field has the id [__proto__]; and an enabled button means acceptance
    unless some required field holds a text of white space only, which the
    button lets through and [validateForm] reports as missing. *)
Theorem FormFiller_button_and_check :
  forall (template : Template) (values : gmap string Value),
    ((forall f, f ∈ allFields template -> f_id f <> "__proto__") ->
     snd (FormFiller.validateForm template values) = true ->
     FormFiller.isFormValid template values = true)
    /\ (FormFiller.isFormValid template values = true ->
        (forall f, f ∈ allFields template -> f_type f <> TLabel ->
                   f_required f = Some true ->
                   FormFiller.blankString (Obj.get values (f_id f)) = false) ->
        snd (FormFiller.validateForm template values) = true).
Proof.
  intros template values. rewrite isFormValid_fields.
  rewrite forallb_forall. split.
  - intros Hkeys Haccepts f Hf. apply list_elem_of_In in Hf.
    pose proof (validateForm_accepts_passes template values Hkeys Haccepts f Hf) as Hall.
    revert Hall. unfold FormFiller_verdict, FormFiller_fieldReady.
    destruct (bool_decide (f_type f = TLabel)); cbn; [done|].
    destruct (default false (f_required f)); cbn; [|done].
    destruct (falsy _); cbn; [discriminate|].
    destruct (FormFiller.emptyString _); cbn; [discriminate|].
    destruct (FormFiller.blankString _); cbn; [discriminate|].
    destruct (bool_decide (f_type f = TNumber)); cbn; [|done].
    by destruct (isNaN_Number _).
  - intros Hready Hnoblank. apply validateForm_passes_accepts. intros f Hf.
    pose proof (Hready f (proj1 (list_elem_of_In _ _) Hf)) as Hr.
    specialize (Hnoblank f Hf).
    revert Hr Hnoblank. unfold FormFiller_verdict, FormFiller_fieldReady.
    destruct (bool_decide_reflect (f_type f = TLabel)) as [|Hty]; cbn; [done|].
    destruct (f_required f) as [[|]|]; cbn; [|done..].
    intros Hr Hnoblank. rewrite (Hnoblank Hty eq_refl).
    destruct (falsy _); cbn in *; [discriminate|].
    destruct (FormFiller.emptyString _); cbn in *; [discriminate|].
    destruct (bool_decide (f_type f = TNumber)); cbn in *; [|done].
    by destruct (isNaN_Number _).
Qed.

(** The gap between the two: one blank in the name field enables the button,
    and pressing it is refused. *)
Example FormFiller_button_lets_blank_through :
  let entered : gmap string Value :=
    {["f1" := VString " "; "f2" := VString "Red"]} in
  FormFiller.isFormValid Intake.form entered = true
  /\ FormFiller.validateForm Intake.form entered
     = ({["f1" := "Name is required"]}, false).
Proof. cbn zeta. split; vm_compute; reflexivity. Qed.

Lemma FormFiller_button_and_check_witness :
  let entered : gmap string Value :=
    {["f1" := VString "Ada"; "f2" := VString "Red"]} in
  FormFiller.isFormValid Intake.form entered = true
  /\ snd (FormFiller.validateForm Intake.form entered) = true.
Proof.
  cbn zeta.
  destruct (FormFiller_button_and_check Intake.form
              {["f1" := VString "Ada"; "f2" := VString "Red"]}) as [Hcheck Hbutton].
  assert (Hready : FormFiller.isFormValid Intake.form
                     {["f1" := VString "Ada"; "f2" := VString "Red"]} = true)
    by (vm_compute; reflexivity).
  split; [exact Hready|]. apply Hbutton; [exact Hready|].
  intros f Hf _ _. apply elem_of_three in Hf as [-> | [-> | ->] ]; vm_compute; reflexivity.
Defined.

(** [handleSubmit] of [part_003].  A refused submission never reaches the
    context and keeps what was entered, with the errors stored; an accepted
    one appends one submission that carries the template id and exactly the
    entered values, writes it through to storage and empties the form.  The
    templates are never touched. *)
Theorem FormFiller_handleSubmit_outcomes :
  forall (template : Template) (now : string) (fl : FormFiller.Filler)
         (app : AppContext.State),
    let errs := FormFiller.validationErrors template (FormFiller.values fl) in
    let w' := FormFiller.handleSubmit template now (fl, app) in
    (errs = ∅ ->
     AppContext.submissions (snd w')
     = AppContext.submissions app
       ++ [mkSubmission (t_id template) (FormFiller.values fl) now]
     /\ AppContext.formSubmissions (AppContext.localStorage (snd w'))
        = Some (AppContext.submissions (snd w'))
     /\ FormFiller.values (fst w') = ∅ /\ FormFiller.errors (fst w') = ∅
     /\ FormFiller.raised (fst w') = FormFiller.raised fl ++ [FormFiller.submittedToast])
    /\ (errs <> ∅ ->
        snd w' = app
        /\ FormFiller.values (fst w') = FormFiller.values fl
        /\ FormFiller.errors (fst w') = errs
        /\ FormFiller.raised (fst w') = FormFiller.raised fl ++ [FormFiller.validationToast])
    /\ AppContext.templates (snd w') = AppContext.templates app.
Proof.
  intros template now fl app errs w'. subst w' errs.
  unfold FormFiller.handleSubmit, FormFiller.validateForm.
  destruct (bool_decide_reflect
              (size (FormFiller.validationErrors template (FormFiller.values fl)) = 0))
    as [Hsize|Hsize]; cbn [negb fst snd].
  - apply map_size_empty_iff in Hsize. split; [by intros _|]. split; [done|reflexivity].
  - split; [|split; [by intros _ | reflexivity]].
    intros Hempty. by rewrite Hempty, map_size_empty in Hsize.
Qed.

Lemma FormFiller_handleSubmit_outcomes_witness :
  let entered : gmap string Value :=
    {["f1" := VString "Ada"; "f2" := VString "Red"]} in
  let w' := FormFiller.handleSubmit Intake.form "2024-06-01"
              (FormFiller.mkFiller entered ∅ [], More.ctx4) in
  AppContext.submissions (snd w') = [mkSubmission "t1" entered "2024-06-01"]
  /\ FormFiller.values (fst w') = ∅.
Proof.
  cbn zeta.
  assert (Hempty : FormFiller.validationErrors Intake.form
                     (FormFiller.values
                        (FormFiller.mkFiller
                           {["f1" := VString "Ada"; "f2" := VString "Red"]} ∅ []))
                   = ∅) by (vm_compute; reflexivity).
  destruct (proj1 (FormFiller_handleSubmit_outcomes Intake.form "2024-06-01"
                     (FormFiller.mkFiller
                        {["f1" := VString "Ada"; "f2" := VString "Red"]} ∅ [])
                     More.ctx4) Hempty) as (Hsubs & _ & Hvalues & _).
  split; [exact Hsubs | exact Hvalues].
Defined.

(** ** Typing into a form *)

(** A change of a field stores the value and blanks the error shown for
    that field, so that none is shown any more; the entry itself stays in the
    error map.  The values and errors of the other fields are not touched.
    [handleFieldChange] of [part_003] and [updateFieldValue] of [part_000]
    are the same code. *)
Theorem field_change_clears_its_error :
  forall (fieldId : string) (value : Value),
    (forall fl : FormFiller.Filler,
        let fl' := FillerEvents.handleFieldChange fieldId value fl in
        FormFiller.values fl' !! fieldId = Some value
        /\ FillerEvents.showsError fl' fieldId = false
        /\ (is_Some (FormFiller.errors fl !! fieldId) ->
            is_Some (FormFiller.errors fl' !! fieldId))
        /\ (forall other, other <> fieldId ->
                          FormFiller.values fl' !! other = FormFiller.values fl !! other
                          /\ FormFiller.errors fl' !! other = FormFiller.errors fl !! other))
    /\ (forall fl : IndexFiller.Filler,
           let fl' := IndexFiller.updateFieldValue fieldId value fl in
           IndexFiller.formData fl' !! fieldId = Some value
           /\ truthyString (IndexFiller.errors fl' !! fieldId) = false
           /\ (is_Some (IndexFiller.errors fl !! fieldId) ->
               is_Some (IndexFiller.errors fl' !! fieldId))
           /\ (forall other, other <> fieldId ->
                             IndexFiller.formData fl' !! other = IndexFiller.formData fl !! other
                             /\ IndexFiller.errors fl' !! other = IndexFiller.errors fl !! other)
           /\ IndexFiller.isSubmitted fl' = IndexFiller.isSubmitted fl).
Proof.
  intros fieldId value. split.
  - intros fl fl'. subst fl'. unfold FillerEvents.handleFieldChange, FillerEvents.showsError.
    cbn [FormFiller.values FormFiller.errors].
    split; [apply lookup_insert_eq|].
    destruct (truthyEntry (Obj.get (FormFiller.errors fl) fieldId)) eqn:Hshown.
    + split; [by unfold Obj.get; rewrite lookup_insert_eq|].
      split; [by rewrite lookup_insert_eq; eauto|].
      intros other Hne. by rewrite !lookup_insert_ne.
    + split; [exact Hshown|]. split; [done|].
      intros other Hne. by rewrite lookup_insert_ne.
  - intros fl fl'. subst fl'. unfold IndexFiller.updateFieldValue.
    cbn [IndexFiller.formData IndexFiller.errors IndexFiller.isSubmitted].
    split; [apply lookup_insert_eq|].
    destruct (truthyEntry (Obj.get (IndexFiller.errors fl) fieldId)) eqn:Hshown.
    + split; [by rewrite lookup_insert_eq|]. split; [by rewrite lookup_insert_eq; eauto|].
      split; [|done]. intros other Hne. by rewrite !lookup_insert_ne.
    + split.
      { revert Hshown. unfold Obj.get.
        destruct (IndexFiller.errors fl !! fieldId); [done|]. by intros _. }
      split; [done|].
      split; [|done]. intros other Hne. by rewrite lookup_insert_ne.
Qed.

(** ** Submitting a form ([part_000]) *)

(** [handleSubmit] of [part_000].  In preview nothing is validated or
    submitted: only a toast is raised.  Otherwise exactly one submission is
    appended when every field passes its check, carrying the template id, its
    name and the entered values, and the error map is then empty; none is
    appended when a field fails or the error map has an entry.  The entered
    values stay in the form either way, and the templates are never
    touched. *)
Theorem IndexFiller_handleSubmit_outcomes :
  forall (template : FormTemplate IndexPage.FormField) (nowMs nowIso : string)
         (fl : IndexFiller.Filler) (s : IndexPage.State),
    let errs := fst (IndexPage.validateForm template (IndexFiller.formData fl)) in
    let passes := forall f, f ∈ allFields template ->
                            IndexPage_verdict (IndexFiller.formData fl) f = None in
    let preview := IndexFiller.handleSubmit template true nowMs nowIso (fl, s) in
    let w' := IndexFiller.handleSubmit template false nowMs nowIso (fl, s) in
    (fst preview = fl
     /\ IndexPage.submissions (snd preview) = IndexPage.submissions s
     /\ IndexPage.templates (snd preview) = IndexPage.templates s
     /\ IndexPage.toasts (snd preview) = IndexPage.toasts s ++ [IndexFiller.previewToast])
    /\ (passes ->
        errs = ∅
        /\ IndexPage.submissions (snd w')
           = IndexPage.submissions s
             ++ [IndexPage.mkSubmission nowMs (t_id template) (t_name template)
                                        (IndexFiller.formData fl) nowIso]
        /\ IndexFiller.isSubmitted (fst w') = true)
    /\ (~ passes \/ errs <> ∅ ->
        IndexPage.submissions (snd w') = IndexPage.submissions s
        /\ IndexFiller.isSubmitted (fst w') = IndexFiller.isSubmitted fl)
    /\ IndexFiller.formData (fst w') = IndexFiller.formData fl
    /\ IndexFiller.errors (fst w') = errs
    /\ IndexPage.templates (snd w') = IndexPage.templates s.
Proof.
  intros template nowMs nowIso fl s errs passes preview w'. subst preview w' errs passes.
  split; [done|]. unfold IndexFiller.handleSubmit.
  pose proof (validateForm_flag_verdicts template (IndexFiller.formData fl)) as Hflag.
  pose proof (validateForm_flag_empty template (IndexFiller.formData fl)) as Hempty.
  destruct (IndexPage.validateForm template (IndexFiller.formData fl)) as [errs ok].
  cbn [fst snd] in *. destruct ok; cbn [fst snd].
  - split; [intros _; split; [by apply Hempty | done]|]. split; [|done].
    intros [Hfails | Hne]; [by destruct Hfails; apply Hflag | by destruct Hne; apply Hempty].
  - split; [|split; [by intros _|done]].
    intros Hpasses. apply Hflag in Hpasses. discriminate.
Qed.

Lemma IndexFiller_handleSubmit_outcomes_witness :
  let entered : gmap string Value :=
    {["f1" := VString "Ada"; "f2" := VString "Red"]} in
  let w' := IndexFiller.handleSubmit Intake.formM false "1718000000000" "2024-06-01"
              (IndexFiller.mkFiller entered ∅ false, More.stateM) in
  IndexPage.submissions (snd w')
  = [IndexPage.mkSubmission "1718000000000" "t1" "Intake" entered "2024-06-01"]
  /\ IndexFiller.isSubmitted (fst w') = true.
Proof.
  cbn zeta.
  assert (Hpasses : forall f, f ∈ allFields Intake.formM ->
                      IndexPage_verdict
                        (IndexFiller.formData
                           (IndexFiller.mkFiller
                              {["f1" := VString "Ada"; "f2" := VString "Red"]} ∅ false))
                        f = None).
  { intros f Hf. apply elem_of_three in Hf as [-> | [-> | ->] ]; vm_compute; reflexivity. }
  exact (proj2 (proj1 (proj2 (IndexFiller_handleSubmit_outcomes Intake.formM
                                "1718000000000" "2024-06-01"
                                (IndexFiller.mkFiller
                                   {["f1" := VString "Ada"; "f2" := VString "Red"]}
                                   ∅ false)
                                More.stateM)) Hpasses)).
Defined.

(** ** The dirty check of the builder *)

Lemma member_id (f : FormField) : member "id" (jsonOfField f) = Some (JStr (f_id f)).
Proof. reflexivity. Qed.

Lemma member_type (f : FormField) :
  member "type" (jsonOfField f) = Some (JStr (typeName (f_type f))).
Proof. reflexivity. Qed.

Lemma member_label (f : FormField) :
  member "label" (jsonOfField f) = Some (JStr (f_label f)).
Proof. reflexivity. Qed.

Lemma member_labelStyle (f : FormField) :
  member "labelStyle" (jsonOfField f)
  = (fun s => JStr (styleName s)) <$> f_labelStyle f.
Proof.
  unfold jsonOfField.
  destruct (f_labelStyle f), (f_options f), (f_required f), (f_value f); reflexivity.
Qed.

Lemma member_options (f : FormField) :
  member "options" (jsonOfField f) = (fun os => JArr (map JStr os)) <$> f_options f.
Proof.
  unfold jsonOfField.
  destruct (f_labelStyle f), (f_options f), (f_required f), (f_value f); reflexivity.
Qed.

Lemma member_required (f : FormField) :
  member "required" (jsonOfField f) = JBool <$> f_required f.
Proof.
  unfold jsonOfField.
  destruct (f_labelStyle f), (f_options f), (f_required f), (f_value f); reflexivity.
Qed.

Lemma map_injective {A B} (h : A -> B) (l k : list A) :
  (forall x y, h x = h y -> x = y) -> map h l = map h k -> l = k.
Proof.
  intros Hinj. revert k. induction l as [|x l IH]; intros [|y k]; cbn; try done.
  intros [= Hxy Hlk]. f_equal; [by apply Hinj | by apply IH].
Qed.

Lemma option_map_injective {A B} (h : A -> B) (a b : option A) :
  (forall x y, h x = h y -> x = y) -> h <$> a = h <$> b -> a = b.
Proof. intros Hinj. destruct a, b; cbn; try done. intros [= H]. f_equal. by apply Hinj. Qed.

Lemma jsonOfField_inj (f g : FormField) : jsonOfField f = jsonOfField g -> f = g.
Proof.
  intros Heq.
  pose proof (f_equal (member "id") Heq) as Hid.
  pose proof (f_equal (member "type") Heq) as Hty.
  pose proof (f_equal (member "label") Heq) as Hla.
  pose proof (f_equal (member "labelStyle") Heq) as Hst.
  pose proof (f_equal (member "options") Heq) as Hop.
  pose proof (f_equal (member "required") Heq) as Hre.
  pose proof (f_equal (member "value") Heq) as Hva.
  rewrite !member_id in Hid. rewrite !member_type in Hty. rewrite !member_label in Hla.
  rewrite !member_labelStyle in Hst. rewrite !member_options in Hop.
  rewrite !member_required in Hre. rewrite !member_value in Hva.
  destruct f as [i1 t1 l1 s1 o1 r1 v1], g as [i2 t2 l2 s2 o2 r2 v2].
  cbn [f_id f_type f_label f_labelStyle f_options f_required f_value] in *.
  injection Hid as ->. injection Hla as ->.
  assert (t1 = t2) as -> by (destruct t1, t2; cbn in Hty; congruence).
  apply option_map_injective in Hst as ->;
    [|intros [] []; cbn; congruence].
  apply option_map_injective in Hop as ->;
    [|intros x y [= H]; apply (map_injective JStr); [congruence | exact H] ].
  apply option_map_injective in Hre as ->; [|congruence].
  apply option_map_injective in Hva as ->; [|apply jsonOfValue_inj].
  reflexivity.
Qed.

Lemma jsonOfSection_inj (s r : FormSection FormField) :
  jsonOfSection s = jsonOfSection r -> s = r.
Proof.
  destruct s as [i1 t1 f1], r as [i2 t2 f2]. unfold jsonOfSection. cbn.
  intros [= -> -> Hf]. f_equal. apply (map_injective jsonOfField); [|exact Hf].
  apply jsonOfField_inj.
Qed.

Lemma jsonOfTemplate_inj (t u : Template) : jsonOfTemplate t = jsonOfTemplate u -> t = u.
Proof.
  destruct t as [i1 n1 s1 c1 u1], u as [i2 n2 s2 c2 u2]. unfold jsonOfTemplate. cbn.
  intros [= -> -> Hs -> ->]. f_equal. apply (map_injective jsonOfSection); [|exact Hs].
  apply jsonOfSection_inj.
Qed.

(** The dirty flag is raised exactly when the working copy differs from the
    original in any attribute at all, the two dates included.  So a rename is
    dirty unless it gives the name back, a stamp is dirty unless the time is
    the same, and a new section always is. *)
Theorem isDirty_is_inequality :
  forall cur orig : Template,
    (TemplateBuilder.isDirty cur orig = true <-> cur <> orig)
    /\ (forall name, TemplateBuilder.isDirty (TemplateBuilder.updateTemplateName name orig)
                                             orig = true
                     <-> name <> t_name orig)
    /\ (forall now, TemplateBuilder.isDirty (withUpdatedAt orig now) orig = true
                    <-> now <> t_updatedAt orig)
    /\ (forall ms, TemplateBuilder.isDirty (TemplateBuilder.addSection ms orig) orig = true).
Proof.
  assert (Hiff : forall cur orig : Template,
             TemplateBuilder.isDirty cur orig = true <-> cur <> orig).
  { intros cur orig. rewrite <- not_false_iff_true, isDirty_false_iff. split.
    - intros Hne Heq. apply Hne. by rewrite Heq.
    - intros Hne Heq. by apply Hne, jsonOfTemplate_inj. }
  intros cur orig. split; [apply Hiff|]. split; [|split].
  - intros name. rewrite Hiff. destruct orig as [i n ss c u].
    unfold TemplateBuilder.updateTemplateName. cbn. split.
    + intros Hne ->. by apply Hne.
    + intros Hne [= Heq]. by apply Hne.
  - intros now. rewrite Hiff. destruct orig as [i n ss c u]. unfold withUpdatedAt. cbn.
    split.
    + intros Hne ->. by apply Hne.
    + intros Hne [= Heq]. by apply Hne.
  - intros ms. apply Hiff. destruct orig as [i n ss c u].
    unfold TemplateBuilder.addSection, TemplateBuilder.withSections. cbn.
    intros [= Heq]. apply (f_equal length) in Heq. rewrite length_app in Heq.
    cbn in Heq. lia.
Qed.

(** ** Editing the working copy *)

Lemma elem_of_map_intro {A B} (h : A -> B) (l : list A) x : x ∈ l -> h x ∈ map h l.
Proof. intros Hx. by apply list_elem_of_In, List.in_map, list_elem_of_In. Qed.

Lemma orString_nonempty (a : option string) c r :
  orString a EmptyString = String c r -> a = Some (String c r).
Proof. destruct a as [[|d s]|]; cbn; congruence. Qed.

(** Adding a field from the palette always lands, whatever the working
    copy: the field just built is the last one of the last section, and when
    the template has no section (or the last one has an empty id) a section
    is created for it; the name is not touched.  After any palette click the
    working copy is therefore valid to save exactly when its name is not
    blank. *)
Theorem onAddField_makes_template_valid :
  forall (field : PartialField) (nowSection nowField : string) (prev : Template),
    let t' := TemplateBuilder.onAddField field nowSection nowField prev in
    (exists section,
        last (t_sections t') = Some section
        /\ last (s_fields section)
           = Some (TemplateBuilder.completeField field nowField))
    /\ (t_sections prev = [] -> length (t_sections t') = 1)
    /\ t_name t' = t_name prev
    /\ (validToSave t' <-> nonBlank (t_name prev))
    /\ (TemplateBuilder.isTemplateValid t' = true <-> nonBlank (t_name prev)).
Proof.
  intros field nowSection nowField prev t'.
  assert (Hlast : exists section,
             last (t_sections t') = Some section
             /\ last (s_fields section)
                = Some (TemplateBuilder.completeField field nowField)).
  { subst t'. unfold TemplateBuilder.onAddField.
    destruct (orString _ _) as [|c r] eqn:Htarget.
    - unfold TemplateBuilder.addFieldToSection, TemplateBuilder.withSections.
      cbn [t_sections]. rewrite List.map_app. cbn [map s_id].
      rewrite String.eqb_refl, last_snoc. eexists. split; [reflexivity|].
      cbn [withFields s_fields app]. reflexivity.
    - apply orString_nonempty in Htarget.
      destruct (last (t_sections prev)) as [s|] eqn:Hs; [|discriminate].
      cbn in Htarget. injection Htarget as Hid.
      unfold TemplateBuilder.addFieldToSection, TemplateBuilder.withSections.
      cbn [t_sections].
      destruct (t_sections prev) as [|s0 ss] using rev_ind; [discriminate|].
      rewrite last_snoc in Hs. injection Hs as ->.
      rewrite List.map_app. cbn [map]. rewrite Hid, String.eqb_refl, last_snoc.
      eexists. split; [reflexivity|]. cbn [withFields s_fields].
      by rewrite last_snoc. }
  assert (Hname : t_name t' = t_name prev).
  { subst t'. unfold TemplateBuilder.onAddField. by destruct (orString _ _). }
  assert (Hvalid : validToSave t' <-> nonBlank (t_name prev)).
  { rewrite <- Hname. split; [by intros [? _]|]. intros Hnonblank.
    destruct Hlast as (section & Hsec & Hfield).
    split; [exact Hnonblank|]. split.
    - intros Hnil. by rewrite Hnil in Hsec.
    - exists section. split.
      + destruct (t_sections t') as [|s0 ss] using rev_ind; [discriminate|].
        rewrite last_snoc in Hsec. injection Hsec as ->.
        apply elem_of_app. right. apply list_elem_of_here.
      + intros Hnil. by rewrite Hnil in Hfield. }
  split; [exact Hlast|]. split; [|split; [exact Hname|]].
  - intros Hnil. subst t'. unfold TemplateBuilder.onAddField. rewrite Hnil.
    cbn [last fmap option_fmap option_map orString].
    unfold TemplateBuilder.addFieldToSection, TemplateBuilder.withSections.
    cbn [t_sections app]. by rewrite length_map.
  - split; [exact Hvalid|]. by rewrite isTemplateValid_iff.
Qed.

Lemma onAddField_makes_template_valid_witness :
  let empty : Template := mkTemplate "t0" "Untitled Template" [] "2024-01-01" "2024-01-01" in
  let t' := TemplateBuilder.onAddField Palette.textbox "1718000000005" "1718000000006" empty in
  TemplateBuilder.isTemplateValid empty = false
  /\ TemplateBuilder.isTemplateValid t' = true
  /\ map s_id (t_sections t') = ["section_1718000000005"].
Proof.
  cbn zeta.
  assert (Hname : nonBlank "Untitled Template").
  { apply isBlank_false_iff. reflexivity. }
  destruct (onAddField_makes_template_valid Palette.textbox "1718000000005"
              "1718000000006"
              (mkTemplate "t0" "Untitled Template" [] "2024-01-01" "2024-01-01"))
    as (_ & _ & _ & _ & Hvalid).
  split; [reflexivity|]. split; [by apply Hvalid | reflexivity].
Defined.

Lemma map_if_id {A} (p : A -> bool) (g : A -> A) (l : list A) :
  (forall x, x ∈ l -> p x = true -> g x = x) ->
  map (fun x => if p x then g x else x) l = l.
Proof.
  intros H. rewrite <- (List.map_id l) at 2. apply List.map_ext_in.
  intros x Hx. apply list_elem_of_In in Hx.
  destruct (p x) eqn:Hp; [by apply H | reflexivity].
Qed.

(** [updateFieldInSection] merges the update into the fields that have the
    given id inside the sections that have the given id, and changes nothing
    else: the template keeps its id, name and dates and the number of its
    sections, every section keeps its place, its id, its title and the number
    of its fields, and every other field keeps its place and is the same.
    When no such field exists the working copy is returned as it is. *)
Theorem updateFieldInSection_touches_one_field :
  forall (sectionId fieldId : string) (u : PartialField) (prev : Template),
    let t' := TemplateBuilder.updateFieldInSection sectionId fieldId u prev in
    (t_id t' = t_id prev /\ t_name t' = t_name prev
     /\ t_createdAt t' = t_createdAt prev /\ t_updatedAt t' = t_updatedAt prev)
    /\ length (t_sections t') = length (t_sections prev)
    /\ (forall i section,
           t_sections prev !! i = Some section ->
           exists section',
             t_sections t' !! i = Some section'
             /\ s_id section' = s_id section /\ s_title section' = s_title section
             /\ length (s_fields section') = length (s_fields section)
             /\ (s_id section <> sectionId -> section' = section)
             /\ forall j field,
                  s_fields section !! j = Some field ->
                  s_fields section' !! j
                  = Some (if bool_decide (s_id section = sectionId /\ f_id field = fieldId)
                          then TemplateBuilder.merge field u else field))
    /\ ((forall s f, s ∈ t_sections prev -> s_id s = sectionId -> f ∈ s_fields s ->
                     f_id f <> fieldId) -> t' = prev).
Proof.
  intros sectionId fieldId u prev t'. subst t'.
  unfold TemplateBuilder.updateFieldInSection, TemplateBuilder.withSections.
  cbn [t_sections t_id t_name t_createdAt t_updatedAt].
  split; [done|]. split; [by rewrite length_map|]. split.
  - intros i section Hi. rewrite lookup_map, Hi. cbn [fmap option_fmap option_map].
    destruct (String.eqb_spec (s_id section) sectionId) as [Hs|Hs].
    + eexists. split; [reflexivity|]. cbn [withFields s_id s_title s_fields].
      split; [done|]. split; [done|]. split; [by rewrite length_map|].
      split; [done|]. intros j field Hj.
      rewrite lookup_map, Hj. cbn [fmap option_fmap option_map]. f_equal.
      destruct (String.eqb_spec (f_id field) fieldId) as [Hf|Hf].
      * by rewrite bool_decide_eq_true_2.
      * rewrite bool_decide_eq_false_2; [done|]. by intros [_ ?].
    + exists section. split; [done|]. split; [done|]. split; [done|]. split; [done|].
      split; [done|]. intros j field Hj.
      rewrite Hj. f_equal. rewrite bool_decide_eq_false_2; [done|]. by intros [? _].
  - intros Hnone. destruct prev as [tid name sections created updated].
    cbn [t_id t_name t_sections t_createdAt t_updatedAt] in *. f_equal.
    apply map_if_id. intros s Hs Hid. apply String.eqb_eq in Hid.
    specialize (Hnone s). destruct s as [sid title fields].
    unfold withFields. cbn [s_id s_title s_fields] in *. f_equal.
    apply map_if_id. intros f Hf Hfid. apply String.eqb_eq in Hfid.
    by destruct (Hnone f Hs Hid Hf).
Qed.

Lemma updateFieldInSection_touches_one_field_witness :
  let t' := TemplateBuilder.updateFieldInSection "s1" "f1"
              (mkPartial None None (Some "Full name") None None None None) Intake.form in
  map (fun s => map f_label (s_fields s)) (t_sections t')
  = [["Personal data"; "Full name"]; ["Colour"]]
  /\ TemplateBuilder.updateFieldInSection "s9" "f1"
       (mkPartial None None (Some "Full name") None None None None) Intake.form
     = Intake.form.
Proof.
  cbn zeta. split; [reflexivity|].
  apply (updateFieldInSection_touches_one_field "s9" "f1" _ Intake.form).
  intros s f Hs Hid. exfalso.
  apply elem_of_cons in Hs as [-> | Hs]; [discriminate|].
  apply elem_of_singleton_list in Hs as ->. discriminate.
Defined.

(** [deleteSection] removes every section that has the given id and keeps
    the others in their order; an id no section has changes nothing, and a
    section added under an id no other section has is removed again by
    deleting that id. *)
Theorem deleteSection_removes_by_id :
  forall (A : Type) (sectionId ms : string) (prev : FormTemplate A),
    let t' := TemplateBuilder.deleteSection sectionId prev in
    (forall s, s ∈ t_sections t' <-> s ∈ t_sections prev /\ s_id s <> sectionId)
    /\ t_sections t' `sublist_of` t_sections prev
    /\ (Forall (fun s => s_id s <> sectionId) (t_sections prev) -> t' = prev)
    /\ TemplateBuilder.deleteSection sectionId t' = t'
    /\ (Forall (fun s => s_id s <> String.append "section_" ms) (t_sections prev) ->
        TemplateBuilder.deleteSection (String.append "section_" ms)
          (TemplateBuilder.addSection ms prev) = prev).
Proof.
  intros A sectionId ms prev t'. subst t'.
  assert (Hkeep : forall sid (t : FormTemplate A),
             Forall (fun s => s_id s <> sid) (t_sections t) ->
             TemplateBuilder.deleteSection sid t = t).
  { intros sid t Hall. unfold TemplateBuilder.deleteSection, TemplateBuilder.withSections.
    destruct t as [tid name sections created updated].
    cbn [t_id t_name t_sections t_createdAt t_updatedAt] in *. f_equal.
    apply filter_keep_all.
    eapply Forall_impl; [exact Hall|]. intros s Hs. by apply negb_eqb_true. }
  split; [|split; [|split; [|split]]].
  - intros s. unfold TemplateBuilder.deleteSection. cbn.
    rewrite list_elem_of_filter, negb_eqb_true. tauto.
  - unfold TemplateBuilder.deleteSection. cbn. apply sublist_filter.
  - apply Hkeep.
  - apply Hkeep. unfold TemplateBuilder.deleteSection. cbn. apply Forall_forall.
    intros s Hs. apply list_elem_of_filter in Hs as [Hs _]. by apply negb_eqb_true.
  - intros Hfresh.
    unfold TemplateBuilder.deleteSection, TemplateBuilder.addSection,
      TemplateBuilder.withSections. cbn.
    destruct prev as [tid name sections created updated].
    cbn [t_id t_name t_sections t_createdAt t_updatedAt] in *. f_equal.
    rewrite filter_app, filter_keep_all.
    + rewrite filter_drop_all; [by rewrite app_nil_r|].
      repeat constructor. cbn. by rewrite String.eqb_refl.
    + eapply Forall_impl; [exact Hfresh|]. intros s Hs. by apply negb_eqb_true.
Qed.

(** Two sections created within the same millisecond share an id, and
    deleting one deletes both. *)
Example deleteSection_removes_twins :
  let t : Template :=
    TemplateBuilder.addSection "1718000000000"
      (TemplateBuilder.addSection "1718000000000"
         (mkTemplate "t0" "Form" [] "2024-01-01" "2024-01-01")) in
  length (t_sections t) = 2
  /\ t_sections (TemplateBuilder.deleteSection "section_1718000000000" t) = [].
Proof. cbn zeta. split; reflexivity. Qed.

(** The handlers of the section editor replace the section of the same id by
    a copy built from the [section] they were rendered with: a new title keeps
    that copy's fields, a deleted field is filtered out of them.  Nothing else
    in the working copy changes. *)
Theorem SectionEditor_edits_one_section :
  forall (section current : FormSection FormField) (title fieldId : string)
         (prev : Template) (i : nat),
    NoDup (map s_id (t_sections prev)) ->
    t_sections prev !! i = Some current ->
    s_id current = s_id section ->
    let renamed := SectionEditor.updateSectionTitle section title prev in
    let pruned := SectionEditor.deleteField section fieldId prev in
    t_sections renamed !! i = Some (mkSection (s_id section) title (s_fields section))
    /\ (exists fs, t_sections pruned !! i = Some (mkSection (s_id section) (s_title section) fs)
                   /\ Forall (fun f => f_id f <> fieldId) fs
                   /\ fs `sublist_of` s_fields section
                   /\ (forall f, f ∈ s_fields section -> f_id f <> fieldId -> f ∈ fs))
    /\ (forall j other, j <> i -> t_sections prev !! j = Some other ->
                        t_sections renamed !! j = Some other
                        /\ t_sections pruned !! j = Some other).
Proof.
  intros section current title fieldId prev i Hnd Hi Hid renamed pruned.
  subst renamed pruned.
  unfold SectionEditor.updateSectionTitle, SectionEditor.deleteField,
    TemplateBuilder.updateSection, TemplateBuilder.withSections.
  cbn [t_sections s_id withFields]. rewrite !lookup_map, Hi.
  cbn [fmap option_fmap option_map]. rewrite Hid, String.eqb_refl.
  split; [reflexivity|]. split.
  - eexists. split; [reflexivity|]. split; [|split].
    + apply Forall_forall. intros f Hf. apply list_elem_of_filter in Hf as [Hf _].
      by apply negb_eqb_true.
    + apply sublist_filter.
    + intros f Hf Hne. apply list_elem_of_filter. split; [by apply negb_eqb_true | done].
  - intros j other Hj Hother. rewrite !lookup_map, Hother.
    cbn [fmap option_fmap option_map].
    destruct (String.eqb_spec (s_id other) (s_id section)) as [Heq|]; [|done].
    exfalso. apply Hj.
    eapply (NoDup_lookup _ j i _ Hnd); rewrite lookup_map; [by rewrite Hother|].
    rewrite Hi. cbn. congruence.
Qed.

Lemma SectionEditor_edits_one_section_witness :
  let basics := mkSection "s1" "Basics" [Intake.heading; Intake.name] in
  map (fun s => map f_id (s_fields s))
      (t_sections (SectionEditor.deleteField basics "f0" Intake.form))
  = [["f1"]; ["f2"]]
  /\ t_sections (SectionEditor.updateSectionTitle basics "About you" Intake.form) !! 0
     = Some (mkSection "s1" "About you" [Intake.heading; Intake.name]).
Proof.
  cbn zeta.
  assert (Hnd : NoDup (map s_id (t_sections Intake.form))).
  { apply (bool_decide_unpack _). vm_compute. exact I. }
  destruct (SectionEditor_edits_one_section
              (mkSection "s1" "Basics" [Intake.heading; Intake.name])
              (mkSection "s1" "Basics" [Intake.heading; Intake.name])
              "About you" "f0" Intake.form 0 Hnd eq_refl eq_refl) as (Hrenamed & _).
  split; [reflexivity | exact Hrenamed].
Defined.

(** ** Leaving the builder: the three ways out *)

Lemma isDirty_differs (cur orig : Template) :
  TemplateBuilder.isDirty cur orig = true <-> cur <> orig.
Proof.
  rewrite <- not_false_iff_true, isDirty_false_iff. split.
  - intros Hne Heq. apply Hne. by rewrite Heq.
  - intros Hne Heq. by apply Hne, jsonOfTemplate_inj.
Qed.

(** [handleBack] leaves at once exactly when the working copy equals the
    original, and otherwise only opens the dialog.  Neither it nor cancel
    nor discard-and-exit ever reaches the repository or changes the working
    copy; cancel keeps the builder on screen. *)
Theorem handleBack_asks_only_when_changed :
  forall w : TemplateBuilder.World,
    let cur := TemplateBuilder.currentTemplate (TemplateBuilder.session w) in
    let orig := TemplateBuilder.originalTemplate (TemplateBuilder.session w) in
    (cur = orig -> TemplateBuilder.handleBack w = TemplateBuilder.onBack w)
    /\ (cur <> orig ->
        TemplateBuilder.handleBack w = TemplateBuilder.setIsAlertOpen true w
        /\ TemplateBuilder.currentView (TemplateBuilder.handleBack w)
           = TemplateBuilder.currentView w)
    /\ (forall leave,
           In leave [TemplateBuilder.handleBack; TemplateBuilder.cancel;
                     TemplateBuilder.discardAndExit] ->
           TemplateBuilder.app (leave w) = TemplateBuilder.app w
           /\ TemplateBuilder.currentTemplate (TemplateBuilder.session (leave w)) = cur
           /\ TemplateBuilder.originalTemplate (TemplateBuilder.session (leave w)) = orig)
    /\ TemplateBuilder.currentView (TemplateBuilder.cancel w) = TemplateBuilder.currentView w
    /\ TemplateBuilder.isAlertOpen (TemplateBuilder.session (TemplateBuilder.cancel w))
       = false.
Proof.
  intros w cur orig.
  split; [|split; [|split; [|split; reflexivity]]].
  - intros Heq. unfold TemplateBuilder.handleBack. fold cur orig.
    destruct (TemplateBuilder.isDirty cur orig) eqn:Hd; [|reflexivity].
    by apply isDirty_differs in Hd.
  - intros Hne. apply isDirty_differs in Hne. unfold TemplateBuilder.handleBack. fold cur orig.
    by rewrite Hne.
  - intros leave [<-|[<-|[<-|[]]]]; [|done..].
    unfold TemplateBuilder.handleBack. fold cur orig.
    by destruct (TemplateBuilder.isDirty cur orig).
Qed.

(** ** Moving a field back *)

Lemma reorder_back {A} (undef : A) (xs : list A) (i j : nat) :
  i < length xs -> j < length xs ->
  reorder undef (reorder undef xs (Z.of_nat i) (Z.of_nat j)) (Z.of_nat j) (Z.of_nat i) = xs.
Proof.
  intros Hi Hj.
  destruct (lookup_lt_is_Some_2 xs i Hi) as [x Hx].
  assert (Hlen : length (delete i xs) = length xs - 1) by (rewrite length_delete; eauto).
  rewrite (reorder_in_range undef xs (Z.of_nat i) (Z.of_nat j) x);
    [| lia | by rewrite Nat2Z.id].
  rewrite Nat2Z.id, spliceStart_nonneg, Nat2Z.id by lia.
  rewrite (Nat.min_l j (length (delete i xs))) by lia.
  set (d := delete i xs) in *.
  assert (Htake : length (take j d) = j) by (rewrite length_take; lia).
  assert (Hback : (take j d ++ x :: drop j d) !! j = Some x).
  { rewrite lookup_app_r by lia. by rewrite Htake, Nat.sub_diag. }
  rewrite (reorder_in_range undef _ (Z.of_nat j) (Z.of_nat i) x);
    [| lia | by rewrite Nat2Z.id].
  rewrite Nat2Z.id, spliceStart_nonneg, Nat2Z.id by lia.
  assert (Hdel : delete j (take j d ++ x :: drop j d) = d).
  { rewrite delete_take_drop, take_app_length' by lia.
    rewrite drop_app_ge, Htake by lia. replace (S j - j) with 1 by lia.
    cbn [drop]. rewrite drop_0. apply take_drop. }
  rewrite Hdel, (Nat.min_l i (length d)) by lia. subst d.
  rewrite delete_take_drop.
  rewrite take_app_length' by (rewrite length_take; lia).
  rewrite drop_app_length' by (rewrite length_take; lia).
  by apply take_drop_middle.
Qed.

(** A field dragged from position [i] to position [j] of a section and then
    from [j] back to [i] leaves the template as it was, whatever the
    destination's droppable is, as long as both positions exist in every
    section the source names.  The handler of [TemplateBuilder.tsx] does the
    same for a drop inside one section when the section ids are distinct. *)
Theorem drag_there_and_back :
  forall (A : Type) (undef : A) (t : FormTemplate A) (src d1 d2 : string) (i j : nat),
    (forall s, s ∈ t_sections t -> s_id s = src ->
               i < length (s_fields s) /\ j < length (s_fields s)) ->
    let there d := mkDrop (mkLocation src (Z.of_nat i)) (Some (mkLocation d (Z.of_nat j))) in
    let back d := mkDrop (mkLocation src (Z.of_nat j)) (Some (mkLocation d (Z.of_nat i))) in
    IndexPage.onDragEnd undef (IndexPage.onDragEnd undef t (there d1)) (back d2) = t
    /\ (NoDup (map s_id (t_sections t)) ->
        TemplateBuilder.handleDragEnd undef
          (TemplateBuilder.handleDragEnd undef t (there src)) (back src) = t).
Proof.
  intros A undef t src d1 d2 i j Hrange there back.
  assert (Hpage : forall d d', IndexPage.onDragEnd undef
                                 (IndexPage.onDragEnd undef t (there d)) (back d') = t).
  { intros d d'. subst there back. unfold IndexPage.onDragEnd.
    cbn [destination source droppableId index t_id t_name t_sections t_createdAt
         t_updatedAt].
    destruct t as [tid name sections created updated].
    cbn [t_id t_name t_sections t_createdAt t_updatedAt] in *. f_equal.
    rewrite List.map_map. rewrite <- (List.map_id sections) at 2.
    apply List.map_ext_in. intros s Hs. apply list_elem_of_In in Hs.
    destruct (String.eqb_spec (s_id s) src) as [Hid|Hid].
    - destruct (Hrange s Hs Hid) as [Hi Hj]. destruct s as [sid title fields].
      unfold withFields. cbn [s_id s_title s_fields] in *.
      destruct (String.eqb_spec sid src); [|done].
      by rewrite reorder_back.
    - by destruct (String.eqb_spec (s_id s) src). }
  split; [apply Hpage|].
  intros Hnd. subst there back. cbn beta.
  rewrite (handlers_agree undef t src _ _ Hnd).
  rewrite handlers_agree; [apply (Hpage src src)|].
  unfold IndexPage.onDragEnd. cbn [destination source droppableId index t_sections].
  rewrite List.map_map.
  erewrite List.map_ext; [exact Hnd|].
  intros s. cbn beta. by destruct (String.eqb (s_id s) src).
Qed.

Lemma drag_there_and_back_witness :
  let there := mkDrop (mkLocation "s1" 0) (Some (mkLocation "s1" 2)) in
  let back := mkDrop (mkLocation "s1" 2) (Some (mkLocation "s1" 0)) in
  map f_id (allFields (IndexPage.onDragEnd Intake.heading Drops.form there))
  = ["f1"; "f2"; "f0"]
  /\ IndexPage.onDragEnd Intake.heading
       (IndexPage.onDragEnd Intake.heading Drops.form there) back = Drops.form.
Proof.
  cbn zeta. split; [reflexivity|].
  refine (proj1 (drag_there_and_back FormField Intake.heading Drops.form "s1" "s1" "s1" 0 2 _)).
  intros s Hs _. apply elem_of_singleton_list in Hs as ->. cbn. lia.
Defined.

(** ** The options text *)

Lemma trimEnd_cons c s :
  Js.trimEnd (String c s)
  = match Js.trimEnd s with
    | EmptyString => if Js.isWhiteSpace c then EmptyString else String c EmptyString
    | String d t => String c (String d t)
    end.
Proof. reflexivity. Qed.

Lemma trimEnd_idem s : Js.trimEnd (Js.trimEnd s) = Js.trimEnd s.
Proof.
  induction s as [|c s IH]; [done|]. rewrite trimEnd_cons.
  destruct (Js.trimEnd s) as [|d t] eqn:Hs.
  - destruct (Js.isWhiteSpace c) eqn:Hc; [done|]. by rewrite trimEnd_cons, Hc.
  - by rewrite trimEnd_cons, IH.
Qed.

Lemma trimStart_visible s :
  Js.trimStart s = EmptyString
  \/ exists c t, Js.trimStart s = String c t /\ Js.isWhiteSpace c = false.
Proof.
  induction s as [|c s IH]; [by left|]. cbn [Js.trimStart].
  destruct (Js.isWhiteSpace c) eqn:Hc; [exact IH|]. right. by exists c, s.
Qed.

(** Trimming a trimmed string changes nothing. *)
Lemma trim_idem s : Js.trim (Js.trim s) = Js.trim s.
Proof.
  unfold Js.trim. destruct (trimStart_visible s) as [-> | (c & t & -> & Hc)]; [done|].
  rewrite trimEnd_cons.
  destruct (Js.trimEnd t) as [|d t'] eqn:Ht; rewrite ?Hc; cbn [Js.trimStart];
    rewrite Hc, trimEnd_cons; [by rewrite Hc|].
  by rewrite <- Ht, trimEnd_idem, Ht.
Qed.

Lemma split_not_nil sep s : FieldTypeSelector.split sep s <> [].
Proof.
  destruct s as [|c s]; [done|]. cbn [FieldTypeSelector.split].
  destruct (bool_decide (c = sep)); [done|].
  by destruct (FieldTypeSelector.split sep s).
Qed.

(** A text that splitting leaves whole contains no separator, and a
    separator after it ends the first piece. *)
Lemma split_append sep x r :
  FieldTypeSelector.split sep x = [x] ->
  FieldTypeSelector.split sep (String.append x (String sep r))
  = x :: FieldTypeSelector.split sep r.
Proof.
  induction x as [|c x IH]; intros Hx.
  - change (String.append EmptyString (String sep r)) with (String sep r).
    cbn [FieldTypeSelector.split]. by rewrite bool_decide_eq_true_2.
  - change (String.append (String c x) (String sep r))
      with (String c (String.append x (String sep r))).
    cbn [FieldTypeSelector.split] in *.
    destruct (bool_decide (c = sep)); [discriminate|].
    destruct (FieldTypeSelector.split sep x) as [|h t] eqn:Hsplit;
      [by apply split_not_nil in Hsplit|].
    injection Hx as -> ->. by rewrite IH.
Qed.

Lemma split_join_comma os :
  os <> [] ->
  Forall (fun o => FieldTypeSelector.split FieldTypeSelector.comma o = [o]) os ->
  FieldTypeSelector.split FieldTypeSelector.comma (join "," os) = os.
Proof.
  intros Hne Hall. induction Hall as [|x os Hx Hall IH]; [done|].
  destruct os as [|y os]; [exact Hx|].
  change (join "," (x :: y :: os))
    with (String.append x (String FieldTypeSelector.comma (join "," (y :: os)))).
  rewrite (split_append _ _ _ Hx). f_equal. by apply IH.
Qed.

Lemma trim_after_space s : Js.trim (String " " s) = Js.trim s.
Proof. reflexivity. Qed.

Lemma split_join_comma_space os :
  os <> [] ->
  Forall (fun o => Js.trim o = o
                   /\ FieldTypeSelector.split FieldTypeSelector.comma o = [o]) os ->
  map Js.trim (FieldTypeSelector.split FieldTypeSelector.comma (join ", " os)) = os.
Proof.
  intros Hne Hall. induction Hall as [|x os [Htrim Hx] Hall IH]; [done|].
  destruct os as [|y os]; [cbn [join]; by rewrite Hx; cbn; rewrite Htrim|].
  change (join ", " (x :: y :: os))
    with (String.append x (String FieldTypeSelector.comma
                                  (String " " (join ", " (y :: os))))).
  rewrite (split_append _ _ _ Hx). cbn [map]. rewrite Htrim. f_equal.
  assert (IH' := IH ltac:(done)). clear IH. cbn [FieldTypeSelector.split].
  rewrite bool_decide_eq_false_2 by discriminate.
  destruct (FieldTypeSelector.split _ (join ", " (y :: os))) as [|h t] eqn:Hsplit;
    [by apply split_not_nil in Hsplit|].
  cbn [map] in *. by rewrite trim_after_space.
Qed.

Lemma merge_same_options field os :
  f_options field = Some os ->
  TemplateBuilder.merge field (mkPartial None None None None (Some os) None None) = field.
Proof. destruct field. cbn. by intros ->. Qed.

(** The options of a dropdown survive being shown and read back: when every
    option is trimmed and holds no comma, accepting the prompt of the field
    card as it stands gives the field back, and so does the input of the
    second variant unless the list is empty.  An empty list comes back from
    that input as one empty option, since the text read back always splits
    into at least one piece. *)
Theorem options_text_round_trip :
  forall (field : FormField) (os : list string),
    f_options field = Some os ->
    Forall (fun o => Js.trim o = o
                     /\ FieldTypeSelector.split FieldTypeSelector.comma o = [o]) os ->
    DraggableField.editOptions field (Some (DraggableField.shownOptions field)) = field
    /\ (os <> [] ->
        TemplateBuilder.merge field
          (DraggableField.onOptionsChange (DraggableField.optionsInput field)) = field)
    /\ (os = [] ->
        p_options (DraggableField.onOptionsChange (DraggableField.optionsInput field))
        = Some [EmptyString])
    /\ (forall text, exists o rest,
           p_options (DraggableField.onOptionsChange text) = Some (o :: rest)).
Proof.
  intros field os Hos Hall. split; [|split; [|split]].
  - unfold DraggableField.editOptions, DraggableField.shownOptions.
    rewrite Hos. change (default [] (Some os)) with os.
    destruct (Js.isEmpty (join ", " os)) eqn:Hempty; [done|].
    assert (os <> []) as Hne by (by intros ->).
    rewrite (split_join_comma_space os Hne Hall). by apply merge_same_options.
  - intros Hne. unfold DraggableField.onOptionsChange, DraggableField.optionsInput.
    rewrite Hos. change (default [] (Some os)) with os.
    rewrite split_join_comma; [|done|by eapply Forall_impl; [exact Hall|]; intros ? []].
    replace (map Js.trim os) with os; [by apply merge_same_options|].
    clear Hos Hne. induction Hall as [|o os [Ho _] _ IH]; [done|].
    cbn [map]. by rewrite Ho, <- IH.
  - intros ->. unfold DraggableField.onOptionsChange, DraggableField.optionsInput.
    by rewrite Hos.
  - intros text. unfold DraggableField.onOptionsChange. cbn [p_options].
    destruct (FieldTypeSelector.split FieldTypeSelector.comma text) as [|h t] eqn:Hsplit;
      [by apply split_not_nil in Hsplit|].
    by exists (Js.trim h), (map Js.trim t).
Qed.

Lemma options_text_round_trip_witness :
  DraggableField.shownOptions Intake.colour = "Red, Green, Blue"
  /\ DraggableField.editOptions Intake.colour (Some "Red, Green, Blue") = Intake.colour.
Proof.
  split; [reflexivity|].
  refine (proj1 (options_text_round_trip Intake.colour ["Red"; "Green"; "Blue"] eq_refl _)).
  repeat constructor.
Defined.

(** An option that holds a comma or an outer blank does not survive: the
    text read back has other pieces. *)
Example options_with_comma_are_split :
  let field := mkField "f3" TEnum "Place" None (Some ["Paris, France"; " Rome"])
                       (Some true) None in
  f_options (DraggableField.editOptions field (Some (DraggableField.shownOptions field)))
  = Some ["Paris"; "France"; "Rome"].
Proof. reflexivity. Qed.

(** ** The field modal of the single-file application *)

Lemma parseOptions_clean enumOptions o :
  o ∈ IndexBuilder.parseOptions enumOptions -> o <> EmptyString /\ Js.trim o = o.
Proof.
  unfold IndexBuilder.parseOptions. intros Ho.
  apply list_elem_of_filter in Ho as [Hne Ho].
  apply list_elem_of_In, List.in_map_iff in Ho as (x & <- & _). split.
  - intros Heq. by rewrite Heq in Hne.
  - apply trim_idem.
Qed.

Lemma orString_keeps a b : a <> EmptyString -> orString (Some a) b = a.
Proof. by destruct a. Qed.

(** The three ways [handleSave] of the modal can go, in the order in which
    it tests them. *)
Lemma modalSave_cases (field : option IndexPage.FormField) (form : IndexBuilder.ModalForm)
    (enumOptions ms : string) :
  let noLabel := truthyString (IndexBuilder.m_label form) = false
                 /\ IndexBuilder.m_type form <> TLabel in
  (noLabel
   /\ IndexBuilder.modalSave field form enumOptions ms = inl IndexBuilder.labelRequired)
  \/ (~ noLabel /\ IndexBuilder.m_type form = TEnum /\ Js.isBlank enumOptions = true
      /\ IndexBuilder.modalSave field form enumOptions ms
         = inl IndexBuilder.optionsRequired)
  \/ (~ noLabel /\ (IndexBuilder.m_type form = TEnum -> Js.isBlank enumOptions = false)
      /\ IndexBuilder.modalSave field form enumOptions ms
         = inr (IndexPage.mkField
                  (orString (IndexPage.id <$> field) ms)
                  (IndexBuilder.m_type form)
                  (orString (IndexBuilder.m_label form) EmptyString)
                  (Some (default true (IndexBuilder.m_required form)))
                  (if bool_decide (IndexBuilder.m_type form = TEnum)
                   then Some (IndexBuilder.parseOptions enumOptions) else None)
                  (if bool_decide (IndexBuilder.m_type form = TLabel)
                   then Some (default H2 (IndexBuilder.m_style form)) else None))).
Proof.
  cbn zeta. unfold IndexBuilder.modalSave. rewrite isEmpty_trim.
  destruct (truthyString (IndexBuilder.m_label form)) eqn:Htruthy;
    destruct (bool_decide_reflect (IndexBuilder.m_type form = TLabel)) as [Hl|Hl];
    cbn [negb andb]; try (left; by split).
  all: destruct (bool_decide_reflect (IndexBuilder.m_type form = TEnum)) as [He|He];
    cbn [andb].
  all: try (destruct (Js.isBlank enumOptions) eqn:Hblank;
            [right; left; split; [by intros [? ?]|done] |]).
  all: right; right; split; [by intros [? ?]|]; split; [done|reflexivity].
Qed.

(** [handleSave] of the modal either raises one of its two toasts or hands
    over a field.  The label toast is raised exactly for an empty label on a
    type other than label; the options toast exactly when that is not the
    case and the type is dropdown with a blank options text: the label is
    tested first.  A field handed over has the chosen type, the label of the
    form (not empty unless it is a label field), the [required] flag of the
    form or [true], options exactly when it is a dropdown (each of them
    non-empty and trimmed), a style exactly when it is a label (the one of
    the form, or [h2]), and the id of the field being edited. *)
Theorem modalSave_outcomes :
  forall (field : option IndexPage.FormField) (form : IndexBuilder.ModalForm)
         (enumOptions ms : string),
    let result := IndexBuilder.modalSave field form enumOptions ms in
    let noLabel := truthyString (IndexBuilder.m_label form) = false
                   /\ IndexBuilder.m_type form <> TLabel in
    (result = inl IndexBuilder.labelRequired <-> noLabel)
    /\ (result = inl IndexBuilder.optionsRequired
        <-> ~ noLabel /\ IndexBuilder.m_type form = TEnum
            /\ Js.isBlank enumOptions = true)
    /\ (forall t, result = inl t ->
                  t = IndexBuilder.labelRequired \/ t = IndexBuilder.optionsRequired)
    /\ (forall f, result = inr f ->
          IndexPage.type f = IndexBuilder.m_type form
          /\ IndexPage.label f = default EmptyString (IndexBuilder.m_label form)
          /\ (IndexBuilder.m_type form <> TLabel -> IndexPage.label f <> EmptyString)
          /\ IndexPage.required f = Some (default true (IndexBuilder.m_required form))
          /\ (is_Some (IndexPage.options f) <-> IndexBuilder.m_type form = TEnum)
          /\ (forall os o, IndexPage.options f = Some os -> o ∈ os ->
                           o <> EmptyString /\ Js.trim o = o)
          /\ (is_Some (IndexPage.style f) <-> IndexBuilder.m_type form = TLabel)
          /\ (IndexBuilder.m_type form = TLabel ->
              IndexPage.style f = Some (default H2 (IndexBuilder.m_style form)))
          /\ (forall g, field = Some g -> IndexPage.id g <> EmptyString ->
                        IndexPage.id f = IndexPage.id g)
          /\ (field = None -> IndexPage.id f = ms)).
Proof.
  intros field form enumOptions ms result noLabel.
  assert (Htoasts : IndexBuilder.labelRequired <> IndexBuilder.optionsRequired)
    by discriminate.
  destruct (modalSave_cases field form enumOptions ms)
    as [(Hno & Hsave) | [(Hno & He & Hblank & Hsave) | (Hno & Hopts & Hsave)] ];
    subst result noLabel; cbn zeta in Hno; rewrite Hsave.
  - split; [done|]. split; [split; [by intros [= ?] | by intros [? _] ]|].
    split; [intros t [= <-]; by left | intros f [= ?] ].
  - split; [split; [by intros [= ?] | done]|]. split; [done|].
    split; [intros t [= <-]; by right | intros f [= ?] ].
  - split; [split; [intros [= ?] | done]|].
    split; [split; [intros [= ?] | intros (_ & He & Hblank); by rewrite Hopts in Hblank]|].
    split; [intros t [= ?]|]. intros f [= <-].
    cbn [IndexPage.type IndexPage.label IndexPage.required IndexPage.options
         IndexPage.style IndexPage.id].
    split; [reflexivity|].
    split; [by destruct (IndexBuilder.m_label form) as [[|c l]|]|].
    split.
    { intros Hnl. destruct (IndexBuilder.m_label form) as [[|c l]|] eqn:Hlabel;
        cbn; try done; by destruct Hno. }
    split; [reflexivity|].
    split.
    { destruct (bool_decide_reflect (IndexBuilder.m_type form = TEnum));
        split; (done || by eexists || by intros [? ?]). }
    split.
    { intros os o Hos Ho.
      destruct (bool_decide (IndexBuilder.m_type form = TEnum)); [|discriminate].
      injection Hos as <-. by apply (parseOptions_clean enumOptions). }
    split.
    { destruct (bool_decide_reflect (IndexBuilder.m_type form = TLabel));
        split; (done || by eexists || by intros [? ?]). }
    split; [intros Hl; by rewrite bool_decide_eq_true_2|].
    split; [intros g -> Hg; cbn; by apply orString_keeps | by intros ->].
Qed.

(** The options text is only checked for being blank: a text of commas
    passes and the dropdown is saved with no option at all. *)
Example modalSave_accepts_a_lone_comma :
  IndexPage.options
    <$> (match IndexBuilder.modalSave None
                 (IndexBuilder.mkModalForm TEnum (Some "Colour") (Some true) None)
                 "," "1718000000000" with
         | inr f => Some f
         | inl _ => None
         end)
  = Some (Some []).
Proof. reflexivity. Qed.

(** ** Adding a field through the modal *)

Lemma hasField_fresh (f : IndexPage.FormField) (s : FormSection IndexPage.FormField) :
  (forall g, g ∈ s_fields s -> IndexPage.id g <> IndexPage.id f) ->
  IndexBuilder.hasField f s = false.
Proof.
  intros Hfresh. unfold IndexBuilder.hasField.
  apply not_true_iff_false. intros Hex.
  apply List.existsb_exists in Hex as (g & Hg & Heq).
  apply String.eqb_eq in Heq. by apply (Hfresh g); [apply list_elem_of_In|].
Qed.

Lemma modalSave_id field form enumOptions ms f :
  IndexBuilder.modalSave field form enumOptions ms = inr f ->
  IndexPage.id f = orString (IndexPage.id <$> field) ms.
Proof.
  unfold IndexBuilder.modalSave. intros Hsave.
  repeat match type of Hsave with
         | (if ?c then _ else _) = _ => destruct c; [discriminate|]
         end.
  by injection Hsave as <-.
Qed.

(** Choosing a field type in a section and confirming the modal.  When the
    modal refuses, the toast is raised, the modal stays open and the template
    is untouched.  When it accepts and no field has the new id yet, the field
    gets that id and is appended to every section of the chosen id, the other
    sections are unchanged, the modal is closed and reset, and deleting the
    field from that section restores the template. *)
Theorem IndexBuilder_add_field_flow :
  forall (b : IndexBuilder.Builder) (sectionId ms ms' enumOptions : string)
         (fieldType : FieldType) (form : IndexBuilder.ModalForm),
    ms <> EmptyString ->
    (forall s g, s ∈ t_sections (IndexBuilder.currentTemplate b) -> g ∈ s_fields s ->
                 IndexPage.id g <> ms) ->
    let opened := IndexBuilder.addField sectionId fieldType ms b in
    let after := IndexBuilder.onDone form enumOptions ms' opened in
    match IndexBuilder.modalSave (Some (IndexBuilder.newField fieldType ms))
                                 form enumOptions ms' with
    | inl t =>
        after = (opened, Some t)
        /\ IndexBuilder.isFieldModalOpen (fst after) = true
        /\ IndexBuilder.currentTemplate (fst after) = IndexBuilder.currentTemplate b
    | inr f =>
        snd after = None
        /\ IndexBuilder.isFieldModalOpen (fst after) = false
        /\ IndexBuilder.selectedField (fst after) = None
        /\ IndexBuilder.currentSectionId (fst after) = EmptyString
        /\ IndexPage.id f = ms
        /\ t_sections (IndexBuilder.currentTemplate (fst after))
           = map (fun s => if String.eqb (s_id s) sectionId
                           then withFields s (s_fields s ++ [f]) else s)
                 (t_sections (IndexBuilder.currentTemplate b))
        /\ IndexBuilder.deleteField sectionId ms
             (IndexBuilder.currentTemplate (fst after))
           = IndexBuilder.currentTemplate b
    end.
Proof.
  intros b sectionId ms ms' enumOptions fieldType form Hms Hfresh opened after.
  subst after. unfold IndexBuilder.onDone.
  change (IndexBuilder.selectedField opened)
    with (Some (IndexBuilder.newField fieldType ms)).
  pose proof (modalSave_id (Some (IndexBuilder.newField fieldType ms)) form enumOptions ms')
    as Hid.
  destruct (IndexBuilder.modalSave _ form enumOptions ms') as [t|f]; [done|].
  assert (Hf : IndexPage.id f = ms).
  { rewrite (Hid f eq_refl). by apply orString_keeps. }
  assert (Hsections :
            t_sections (IndexBuilder.saveFieldIn sectionId f (IndexBuilder.currentTemplate b))
            = map (fun s => if String.eqb (s_id s) sectionId
                            then withFields s (s_fields s ++ [f]) else s)
                  (t_sections (IndexBuilder.currentTemplate b))).
  { unfold IndexBuilder.saveFieldIn, IndexBuilder.sectionsOf. cbn [t_sections].
    apply List.map_ext_in. intros s Hs. apply list_elem_of_In in Hs.
    rewrite hasField_fresh; [by rewrite orb_false_r|].
    intros g Hg. rewrite Hf. by apply (Hfresh s g). }
  split; [reflexivity|]. split; [reflexivity|]. split; [reflexivity|].
  split; [reflexivity|]. split; [exact Hf|]. split; [exact Hsections|].
  cbn [fst IndexBuilder.onClose IndexBuilder.saveField IndexBuilder.setTemplate
       IndexBuilder.currentTemplate IndexBuilder.currentSectionId IndexBuilder.addField
       opened].
  unfold IndexBuilder.deleteField. rewrite Hsections.
  unfold IndexBuilder.saveFieldIn, IndexBuilder.sectionsOf.
  cbn [t_id t_name t_sections t_createdAt t_updatedAt].
  destruct (IndexBuilder.currentTemplate b) as [tid name sections created updated].
  cbn [t_id t_name t_sections t_createdAt t_updatedAt] in *. f_equal.
  rewrite List.map_map. rewrite <- (List.map_id sections) at 2.
  apply List.map_ext_in. intros s Hs. apply list_elem_of_In in Hs.
  destruct (String.eqb_spec (s_id s) sectionId) as [Heq|Hne].
  - specialize (Hfresh s). destruct s as [sid title fields].
    unfold withFields. cbn [s_id s_title s_fields] in *.
    destruct (String.eqb_spec sid sectionId); [|done]. f_equal.
    rewrite filter_app, filter_keep_all.
    + rewrite filter_drop_all; [by rewrite app_nil_r|].
      repeat constructor. by rewrite Hf, String.eqb_refl.
    + apply Forall_forall. intros g Hg. apply negb_eqb_true. by apply Hfresh.
  - by destruct (String.eqb_spec (s_id s) sectionId).
Qed.

Lemma IndexBuilder_add_field_flow_witness :
  let b := IndexBuilder.mkBuilder Intake.formM false None false EmptyString in
  let form := IndexBuilder.mkModalForm TNumber (Some "Age") (Some false) None in
  let after := IndexBuilder.onDone form EmptyString "1718000000001"
                 (IndexBuilder.addField "s2" TNumber "1718000000000" b) in
  map (fun s => map IndexPage.label (s_fields s))
      (t_sections (IndexBuilder.currentTemplate (fst after)))
  = [["Personal data"; "Name"]; ["Colour"; "Age"]]
  /\ IndexBuilder.deleteField "s2" "1718000000000"
       (IndexBuilder.currentTemplate (fst after)) = Intake.formM.
Proof.
  cbn zeta. split; [reflexivity|].
  assert (Hfresh : forall s g, s ∈ t_sections Intake.formM -> g ∈ s_fields s ->
                               IndexPage.id g <> "1718000000000").
  { intros s g Hs Hg Heq.
    assert (Hin : IndexPage.id g ∈ ["f0"; "f1"; "f2"]).
    { change ["f0"; "f1"; "f2"]
        with (map IndexPage.id (concat (map s_fields (t_sections Intake.formM)))).
      apply list_elem_of_In, List.in_map, List.in_concat. exists (s_fields s).
      split; [apply List.in_map|]; by apply list_elem_of_In. }
    rewrite Heq in Hin. revert Hin. apply (bool_decide_unpack _). vm_compute. exact I. }
  exact (proj2 (proj2 (proj2 (proj2 (proj2 (proj2
    (IndexBuilder_add_field_flow
       (IndexBuilder.mkBuilder Intake.formM false None false EmptyString)
       "s2" "1718000000000" "1718000000001" EmptyString TNumber
       (IndexBuilder.mkModalForm TNumber (Some "Age") (Some false) None)
       ltac:(discriminate) Hfresh))))))).
Defined.

(** ** From a new template to the repository *)

Lemma onAddField_on_new_template field ms1 ms2 iso1 iso2 nowSection nowField :
  TemplateBuilder.onAddField field nowSection nowField
    (Index.newTemplate ms1 ms2 iso1 iso2)
  = mkTemplate (String.append "template_" ms1) "Untitled Template"
      [mkSection (String.append "section_" ms2) "Section 1"
         [TemplateBuilder.completeField field nowField]]
      iso1 iso2.
Proof.
  unfold TemplateBuilder.onAddField, Index.newTemplate.
  cbn [t_sections last fmap option_fmap option_map s_id].
  change (orString (Some (String.append "section_" ms2)) EmptyString)
    with (String.append "section_" ms2).
  change (String.append "section_" ms2)
    with (String "s" (String.append "ection_" ms2)) at 1.
  cbv iota.
  unfold TemplateBuilder.addFieldToSection, TemplateBuilder.withSections.
  cbn [t_id t_name t_sections t_createdAt t_updatedAt map s_id].
  by rewrite String.eqb_refl.
Qed.

(** The template that [createNewTemplate] scaffolds cannot be saved as it
    is and can be left without a question.  Once one field has been added
    from the palette, leaving asks first, and saving stores the template,
    with its one section holding that field and the time of the save as its
    modification date, in the repository and in storage, and shows the
    list. *)
Theorem Index_create_add_save :
  forall (app : AppContext.State) (ms1 ms2 iso1 iso2 nowSection nowField now : string)
         (field : PartialField),
    let w0 := Index.openBuilder (Index.newTemplate ms1 ms2 iso1 iso2) app in
    let w1 := Index.edit (TemplateBuilder.onAddField field nowSection nowField) w0 in
    let w2 := TemplateBuilder.handleSave now w1 in
    let saved :=
      mkTemplate (String.append "template_" ms1) "Untitled Template"
        [mkSection (String.append "section_" ms2) "Section 1"
           [TemplateBuilder.completeField field nowField]]
        iso1 now in
    TemplateBuilder.handleSave now w0 = w0
    /\ TemplateBuilder.handleBack w0 = TemplateBuilder.onBack w0
    /\ TemplateBuilder.handleBack w1 = TemplateBuilder.setIsAlertOpen true w1
    /\ TemplateBuilder.currentView w2 = ViewList
    /\ saved ∈ AppContext.templates (TemplateBuilder.app w2)
    /\ AppContext.formTemplates (AppContext.localStorage (TemplateBuilder.app w2))
       = Some (AppContext.templates (TemplateBuilder.app w2))
    /\ AppContext.submissions (TemplateBuilder.app w2) = AppContext.submissions app.
Proof.
  intros app ms1 ms2 iso1 iso2 nowSection nowField now field w0 w1 w2 saved.
  assert (Hcur : TemplateBuilder.currentTemplate (TemplateBuilder.session w1)
                 = mkTemplate (String.append "template_" ms1) "Untitled Template"
                     [mkSection (String.append "section_" ms2) "Section 1"
                        [TemplateBuilder.completeField field nowField]]
                     iso1 iso2).
  { subst w1 w0. unfold Index.edit, Index.openBuilder.
    cbn [TemplateBuilder.session TemplateBuilder.currentTemplate].
    apply onAddField_on_new_template. }
  assert (Hw2 : w2 = TemplateBuilder.mkWorld
                       (AppContext.saveTemplate
                          (TemplateBuilder.currentTemplate (TemplateBuilder.session w1))
                          now app)
                       ViewList (TemplateBuilder.session w1)).
  { subst w2. unfold TemplateBuilder.handleSave. rewrite Hcur. reflexivity. }
  split; [reflexivity|]. split; [|split].
  - unfold TemplateBuilder.handleBack.
    destruct (TemplateBuilder.isDirty _ _) eqn:Hd; [|reflexivity].
    by apply isDirty_differs in Hd.
  - unfold TemplateBuilder.handleBack.
    destruct (TemplateBuilder.isDirty _ _) eqn:Hd; [reflexivity|].
    apply not_true_iff_false in Hd. exfalso. apply Hd, isDirty_differs.
    rewrite Hcur. subst w1 w0. unfold Index.edit, Index.openBuilder, Index.newTemplate.
    cbn [TemplateBuilder.session TemplateBuilder.originalTemplate]. congruence.
  - rewrite Hw2. cbn [TemplateBuilder.currentView TemplateBuilder.app].
    split; [reflexivity|].
    destruct (AppContext_saveTemplate_stores
                (TemplateBuilder.currentTemplate (TemplateBuilder.session w1)) now app)
      as (Hin & _ & Hstore).
    split; [|split; [exact Hstore | reflexivity]].
    replace saved
      with (withUpdatedAt (TemplateBuilder.currentTemplate (TemplateBuilder.session w1)) now)
      by (by rewrite Hcur).
    exact Hin.
Qed.
